(** * HierarchicalPcb: the placement engine ([src/placement.py])

    A shallow embedding of [placement.py] and the properties of it that the
    design document states.  The Python module mutates KiCad objects through
    the [pcbnew] bindings; here the objects live in an explicit store
    ([World]), references are indices into it, and every function of the
    module is a computation in a state-and-exception monad ([py]).

    Floating point ([math.sin], [math.cos], [math.radians]) is read over the
    real numbers; [int(...)] on a float is truncation toward zero.  The
    section Numbers says where that reading gives the code's own value. *)

From Stdlib Require Import ZArith Reals Lra Lia.
From stdpp Require Import base option list gmap strings pretty.

Local Open Scope Z_scope.

(** ** The host object model ([import pcbnew])

    [pcbnew] is KiCad's binding, not part of this repository.  What follows is
    the part of it that [placement.py] calls, with the behaviour the design
    document's section 6 asks of the host. *)

Module pcbnew.

Record VECTOR2I := Vec { x : Z; y : Z }.

(** [EDA_ANGLE]: an angle, held in degrees. *)
Definition EDA_ANGLE := R.
Definition ANGLE_0 : EDA_ANGLE := 0%R.

(** The item classes [placement.py] names.  [PCB_VIA] is a subclass of
    [PCB_TRACK]: [board.Tracks()] yields both. *)
Inductive KICAD_T := FOOTPRINT | PCB_TRACK | PCB_VIA | ZONE | PCB_SHAPE | PCB_TEXT.

#[global] Instance KICAD_T_eq_dec : EqDecision KICAD_T.
Proof. solve_decision. Defined.

(** [isinstance(item, cls)] for the classes above. *)
Definition isinstance (t cls : KICAD_T) : bool :=
  match cls, t with
  | PCB_TRACK, (PCB_TRACK | PCB_VIA) => true
  | _, _ => bool_decide (t = cls)
  end.

(** A pad, as far as the engine reads it: its net code. *)
Record PAD := { pad_netcode : Z }.

Record PCB_FIELD := {
  field_text : string;
  field_position : VECTOR2I;
  field_angle : EDA_ANGLE }.

(** Object references. *)
Definition item_ref := nat.
Definition group_ref := nat.
Definition board_ref := nat.

(** One record for every [BOARD_ITEM]; a class reads the fields it has.
    For a track [position] is its start point and [end_point] its end.
    [net] is the item's [NETINFO_ITEM] pointer, by net code. *)
Record BOARD_ITEM := {
  item_type : KICAD_T;
  parent_board : option board_ref;
  parent_group : option group_ref;
  position : VECTOR2I;
  end_point : VECTOR2I;
  orientation : EDA_ANGLE;
  net : option Z;
  is_free : bool;
  flipped : bool;
  pads : list PAD;
  fields : list PCB_FIELD;
  local_clearance : Z;
  local_solder_mask_margin : Z;
  local_solder_paste_margin : Z;
  local_solder_paste_margin_ratio : R;
  zone_connection : Z }.

Record PCB_GROUP := {
  group_name : string;
  group_board : option board_ref }.

(** A board enumerates its items and its groups in a fixed order; its nets
    are net codes, and code 0 (unconnected) is on every board. *)
Record BOARD := {
  board_items : list item_ref;
  board_groups : list group_ref;
  board_nets : list Z }.

End pcbnew.

(** ** The store *)

(** A record of the ["hierpcb"] logger: level name and text. *)
Record LogRecord := { log_level : string; log_text : string }.

Record World := {
  items : list pcbnew.BOARD_ITEM;
  groups : list pcbnew.PCB_GROUP;
  boards : list pcbnew.BOARD;
  hierpcb_log : list LogRecord }.

(** ** Python's control: exceptions and state *)

Inductive exn :=
| NameError (name : string)
| AttributeError (attr : string)
| IndexError
| InvalidObject.  (* a reference outside the store: no Python program has one *)

Inductive result (A : Type) :=
| Ok (a : A)
| Raise (e : exn).
Arguments Ok {A} a.
Arguments Raise {A} e.

Definition py (A : Type) : Type := World -> result (A * World).

#[global] Instance py_ret : MRet py := fun A a w => Ok (a, w).
#[global] Instance py_bind : MBind py := fun A B k m w =>
  match m w with
  | Ok (a, w') => k a w'
  | Raise e => Raise e
  end.

Definition raise {A} (e : exn) : py A := fun _ => Raise e.

Definition get_world : py World := fun w => Ok (w, w).
Definition put_world (w : World) : py unit := fun _ => Ok (tt, w).

(** [for a in xs: body(a)] *)
Fixpoint for_each {A} (xs : list A) (body : A -> py unit) : py unit :=
  match xs with
  | [] => mret tt
  | a :: xs' => body a;; for_each xs' body
  end.

(** A loop that also updates a local variable [acc]. *)
Fixpoint for_fold {A S} (xs : list A) (acc : S) (body : A -> S -> py S) : py S :=
  match xs with
  | [] => mret acc
  | a :: xs' => acc' ← body a acc; for_fold xs' acc' body
  end.

(** Dereference. *)
Definition get_item (i : pcbnew.item_ref) : py pcbnew.BOARD_ITEM :=
  fun w => match items w !! i with
           | Some it => Ok (it, w)
           | None => Raise InvalidObject
           end.

Definition get_group (g : pcbnew.group_ref) : py pcbnew.PCB_GROUP :=
  fun w => match groups w !! g with
           | Some gr => Ok (gr, w)
           | None => Raise InvalidObject
           end.

Definition get_board (b : pcbnew.board_ref) : py pcbnew.BOARD :=
  fun w => match boards w !! b with
           | Some bd => Ok (bd, w)
           | None => Raise InvalidObject
           end.

(** ** Numbers

    Python's floats are read as real numbers, and [math.sin], [math.cos] as
    the real sine and cosine.  The reading gives the code's own value where
    the code's double arithmetic is exact: sums and differences of angles
    that cancel, products by the sine 0 and the cosine 1 of a zero turn,
    integers of the size of board coordinates.  Where the doubles round
    (a turn that is not zero: [math.cos(math.radians(90))] is about 6e-17,
    not 0) the value [int] truncates can lie on the other side of an integer,
    and the code's coordinate can differ by one unit from the one computed
    here.  The statements below either stay within the exact cases or speak
    of the value a call returns without saying which number it is. *)

(** [int(r)] for a float [r]: truncation toward zero. *)
Definition py_int (r : R) : Z :=
  if Rle_dec 0 r then Int_part r else - Int_part (- r).

(** [math.radians] *)
Definition radians (deg : R) : R := (deg * PI / 180)%R.

(** ** [class PositionTransform] *)

Record PositionTransform := {
  anchor_template : pcbnew.item_ref;
  anchor_mutate : pcbnew.item_ref }.

(** The arithmetic of [PositionTransform.translate], lines 55 to 73, on the
    anchors' positions and [GetOrientationDegrees()], floats read as reals
    (see Numbers). *)
Definition translate_at (template mutate : pcbnew.BOARD_ITEM)
    (pos_template : pcbnew.VECTOR2I) : pcbnew.VECTOR2I :=
  let delta_x := pcbnew.x pos_template - pcbnew.x (pcbnew.position template) in
  let delta_y := pcbnew.y pos_template - pcbnew.y (pcbnew.position template) in
  let rotation := radians (pcbnew.orientation mutate - pcbnew.orientation template) in
  let new_x := (IZR delta_y * sin rotation
                + IZR delta_x * cos rotation
                + IZR (pcbnew.x (pcbnew.position mutate)))%R in
  let new_y := (IZR delta_y * cos rotation
                - IZR delta_x * sin rotation
                + IZR (pcbnew.y (pcbnew.position mutate)))%R in
  pcbnew.Vec (py_int new_x) (py_int new_y).

(** [translate] reads both anchors when it is called. *)
Definition translate (self : PositionTransform) (pos_template : pcbnew.VECTOR2I)
    : py pcbnew.VECTOR2I :=
  template ← get_item (anchor_template self);
  mutate ← get_item (anchor_mutate self);
  mret (translate_at template mutate pos_template).

(** The arithmetic of [PositionTransform.orient], lines 76 to 80; angles
    read as reals (see Numbers). *)
Definition orient_at (template mutate : pcbnew.BOARD_ITEM)
    (rot_template : pcbnew.EDA_ANGLE) : pcbnew.EDA_ANGLE :=
  (rot_template - pcbnew.orientation template + pcbnew.orientation mutate)%R.

Definition orient (self : PositionTransform) (rot_template : pcbnew.EDA_ANGLE)
    : py pcbnew.EDA_ANGLE :=
  template ← get_item (anchor_template self);
  mutate ← get_item (anchor_mutate self);
  mret (orient_at template mutate rot_template).

(** ** Host operations

    Setters rebuild the item record; each is one [Set...] method. *)

Definition with_parent_board (b : option pcbnew.board_ref) (it : pcbnew.BOARD_ITEM)
    : pcbnew.BOARD_ITEM :=
  {| pcbnew.item_type := pcbnew.item_type it;
     pcbnew.parent_board := b;
     pcbnew.parent_group := pcbnew.parent_group it;
     pcbnew.position := pcbnew.position it;
     pcbnew.end_point := pcbnew.end_point it;
     pcbnew.orientation := pcbnew.orientation it;
     pcbnew.net := pcbnew.net it;
     pcbnew.is_free := pcbnew.is_free it;
     pcbnew.flipped := pcbnew.flipped it;
     pcbnew.pads := pcbnew.pads it;
     pcbnew.fields := pcbnew.fields it;
     pcbnew.local_clearance := pcbnew.local_clearance it;
     pcbnew.local_solder_mask_margin := pcbnew.local_solder_mask_margin it;
     pcbnew.local_solder_paste_margin := pcbnew.local_solder_paste_margin it;
     pcbnew.local_solder_paste_margin_ratio := pcbnew.local_solder_paste_margin_ratio it;
     pcbnew.zone_connection := pcbnew.zone_connection it |}.

Definition with_parent_group (g : option pcbnew.group_ref) (it : pcbnew.BOARD_ITEM)
    : pcbnew.BOARD_ITEM :=
  {| pcbnew.item_type := pcbnew.item_type it;
     pcbnew.parent_board := pcbnew.parent_board it;
     pcbnew.parent_group := g;
     pcbnew.position := pcbnew.position it;
     pcbnew.end_point := pcbnew.end_point it;
     pcbnew.orientation := pcbnew.orientation it;
     pcbnew.net := pcbnew.net it;
     pcbnew.is_free := pcbnew.is_free it;
     pcbnew.flipped := pcbnew.flipped it;
     pcbnew.pads := pcbnew.pads it;
     pcbnew.fields := pcbnew.fields it;
     pcbnew.local_clearance := pcbnew.local_clearance it;
     pcbnew.local_solder_mask_margin := pcbnew.local_solder_mask_margin it;
     pcbnew.local_solder_paste_margin := pcbnew.local_solder_paste_margin it;
     pcbnew.local_solder_paste_margin_ratio := pcbnew.local_solder_paste_margin_ratio it;
     pcbnew.zone_connection := pcbnew.zone_connection it |}.

(** Position, end point, orientation and side in one setter. *)
Definition with_geometry (p e : pcbnew.VECTOR2I) (a : pcbnew.EDA_ANGLE) (side : bool)
    (it : pcbnew.BOARD_ITEM) : pcbnew.BOARD_ITEM :=
  {| pcbnew.item_type := pcbnew.item_type it;
     pcbnew.parent_board := pcbnew.parent_board it;
     pcbnew.parent_group := pcbnew.parent_group it;
     pcbnew.position := p;
     pcbnew.end_point := e;
     pcbnew.orientation := a;
     pcbnew.net := pcbnew.net it;
     pcbnew.is_free := pcbnew.is_free it;
     pcbnew.flipped := side;
     pcbnew.pads := pcbnew.pads it;
     pcbnew.fields := pcbnew.fields it;
     pcbnew.local_clearance := pcbnew.local_clearance it;
     pcbnew.local_solder_mask_margin := pcbnew.local_solder_mask_margin it;
     pcbnew.local_solder_paste_margin := pcbnew.local_solder_paste_margin it;
     pcbnew.local_solder_paste_margin_ratio := pcbnew.local_solder_paste_margin_ratio it;
     pcbnew.zone_connection := pcbnew.zone_connection it |}.

Definition with_position (p : pcbnew.VECTOR2I) (it : pcbnew.BOARD_ITEM) :=
  with_geometry p (pcbnew.end_point it) (pcbnew.orientation it) (pcbnew.flipped it) it.
Definition with_end_point (e : pcbnew.VECTOR2I) (it : pcbnew.BOARD_ITEM) :=
  with_geometry (pcbnew.position it) e (pcbnew.orientation it) (pcbnew.flipped it) it.
Definition with_orientation (a : pcbnew.EDA_ANGLE) (it : pcbnew.BOARD_ITEM) :=
  with_geometry (pcbnew.position it) (pcbnew.end_point it) a (pcbnew.flipped it) it.

(** Net pointer and the via's free flag. *)
Definition with_net (n : option Z) (free : bool) (it : pcbnew.BOARD_ITEM)
    : pcbnew.BOARD_ITEM :=
  {| pcbnew.item_type := pcbnew.item_type it;
     pcbnew.parent_board := pcbnew.parent_board it;
     pcbnew.parent_group := pcbnew.parent_group it;
     pcbnew.position := pcbnew.position it;
     pcbnew.end_point := pcbnew.end_point it;
     pcbnew.orientation := pcbnew.orientation it;
     pcbnew.net := n;
     pcbnew.is_free := free;
     pcbnew.flipped := pcbnew.flipped it;
     pcbnew.pads := pcbnew.pads it;
     pcbnew.fields := pcbnew.fields it;
     pcbnew.local_clearance := pcbnew.local_clearance it;
     pcbnew.local_solder_mask_margin := pcbnew.local_solder_mask_margin it;
     pcbnew.local_solder_paste_margin := pcbnew.local_solder_paste_margin it;
     pcbnew.local_solder_paste_margin_ratio := pcbnew.local_solder_paste_margin_ratio it;
     pcbnew.zone_connection := pcbnew.zone_connection it |}.

Definition with_fields (fs : list pcbnew.PCB_FIELD) (it : pcbnew.BOARD_ITEM)
    : pcbnew.BOARD_ITEM :=
  {| pcbnew.item_type := pcbnew.item_type it;
     pcbnew.parent_board := pcbnew.parent_board it;
     pcbnew.parent_group := pcbnew.parent_group it;
     pcbnew.position := pcbnew.position it;
     pcbnew.end_point := pcbnew.end_point it;
     pcbnew.orientation := pcbnew.orientation it;
     pcbnew.net := pcbnew.net it;
     pcbnew.is_free := pcbnew.is_free it;
     pcbnew.flipped := pcbnew.flipped it;
     pcbnew.pads := pcbnew.pads it;
     pcbnew.fields := fs;
     pcbnew.local_clearance := pcbnew.local_clearance it;
     pcbnew.local_solder_mask_margin := pcbnew.local_solder_mask_margin it;
     pcbnew.local_solder_paste_margin := pcbnew.local_solder_paste_margin it;
     pcbnew.local_solder_paste_margin_ratio := pcbnew.local_solder_paste_margin_ratio it;
     pcbnew.zone_connection := pcbnew.zone_connection it |}.

(** The five local overrides [copy_footprint_data] copies. *)
Definition with_overrides (clearance mask paste : Z) (ratio : R) (zc : Z)
    (it : pcbnew.BOARD_ITEM) : pcbnew.BOARD_ITEM :=
  {| pcbnew.item_type := pcbnew.item_type it;
     pcbnew.parent_board := pcbnew.parent_board it;
     pcbnew.parent_group := pcbnew.parent_group it;
     pcbnew.position := pcbnew.position it;
     pcbnew.end_point := pcbnew.end_point it;
     pcbnew.orientation := pcbnew.orientation it;
     pcbnew.net := pcbnew.net it;
     pcbnew.is_free := pcbnew.is_free it;
     pcbnew.flipped := pcbnew.flipped it;
     pcbnew.pads := pcbnew.pads it;
     pcbnew.fields := pcbnew.fields it;
     pcbnew.local_clearance := clearance;
     pcbnew.local_solder_mask_margin := mask;
     pcbnew.local_solder_paste_margin := paste;
     pcbnew.local_solder_paste_margin_ratio := ratio;
     pcbnew.zone_connection := zc |}.

Definition set_items (l : list pcbnew.BOARD_ITEM) (w : World) : World :=
  {| items := l; groups := groups w; boards := boards w; hierpcb_log := hierpcb_log w |}.
Definition set_groups (l : list pcbnew.PCB_GROUP) (w : World) : World :=
  {| items := items w; groups := l; boards := boards w; hierpcb_log := hierpcb_log w |}.
Definition set_boards (l : list pcbnew.BOARD) (w : World) : World :=
  {| items := items w; groups := groups w; boards := l; hierpcb_log := hierpcb_log w |}.
Definition set_log (l : list LogRecord) (w : World) : World :=
  {| items := items w; groups := groups w; boards := boards w; hierpcb_log := l |}.

(** In-place update of one object. *)
Definition update_item (i : pcbnew.item_ref)
    (f : pcbnew.BOARD_ITEM -> pcbnew.BOARD_ITEM) : py unit :=
  fun w => match items w !! i with
           | Some it => Ok (tt, set_items (<[i := f it]> (items w)) w)
           | None => Raise InvalidObject
           end.

Definition update_board (b : pcbnew.board_ref)
    (f : pcbnew.BOARD -> pcbnew.BOARD) : py unit :=
  fun w => match boards w !! b with
           | Some bd => Ok (tt, set_boards (<[b := f bd]> (boards w)) w)
           | None => Raise InvalidObject
           end.

(** A method called on a reference that may be [None]. *)
Definition call_on {A} (o : option A) (method : string) : py A :=
  match o with
  | Some r => mret r
  | None => raise (AttributeError method)
  end.

(** [logger.debug(text)] and the like. *)
Definition logger_emit (level text : string) : py unit :=
  fun w => Ok (tt, set_log (hierpcb_log w ++ [{| log_level := level; log_text := text |}]) w).

(** [item.GetBoard()], [item.GetParentGroup()], [item.GetNetCode()] *)
Definition GetBoard (i : pcbnew.item_ref) : py (option pcbnew.board_ref) :=
  it ← get_item i; mret (pcbnew.parent_board it).

Definition GetParentGroup (i : pcbnew.item_ref) : py (option pcbnew.group_ref) :=
  it ← get_item i; mret (pcbnew.parent_group it).

(** An item without a net object answers -1. *)
Definition netcode_of (it : pcbnew.BOARD_ITEM) : Z := default (-1) (pcbnew.net it).

Definition GetNetCode (i : pcbnew.item_ref) : py Z :=
  it ← get_item i; mret (netcode_of it).

(** [board.Groups()] *)
Definition BOARD_Groups (b : pcbnew.board_ref) : py (list pcbnew.group_ref) :=
  bd ← get_board b; mret (pcbnew.board_groups bd).

(** The board's items of one of the classes [classes], in the board's order:
    [GetFootprints()], [Tracks()], [Zones()], [GetDrawings()].  The result is
    the sequence as it is when the call is made. *)
Definition has_class (w : World) (classes : list pcbnew.KICAD_T) (i : pcbnew.item_ref) : bool :=
  match items w !! i with
  | Some it => existsb (pcbnew.isinstance (pcbnew.item_type it)) classes
  | None => false
  end.

Definition BOARD_items_of (classes : list pcbnew.KICAD_T) (b : pcbnew.board_ref)
    : py (list pcbnew.item_ref) :=
  bd ← get_board b;
  w ← get_world;
  mret (List.filter (has_class w classes) (pcbnew.board_items bd)).

Definition BOARD_GetFootprints := BOARD_items_of [pcbnew.FOOTPRINT].
Definition BOARD_Tracks := BOARD_items_of [pcbnew.PCB_TRACK].
Definition BOARD_Zones := BOARD_items_of [pcbnew.ZONE].
Definition BOARD_GetDrawings := BOARD_items_of [pcbnew.PCB_SHAPE; pcbnew.PCB_TEXT].

Definition board_add_item (i : pcbnew.item_ref) (bd : pcbnew.BOARD) : pcbnew.BOARD :=
  {| pcbnew.board_items := pcbnew.board_items bd ++ [i];
     pcbnew.board_groups := pcbnew.board_groups bd;
     pcbnew.board_nets := pcbnew.board_nets bd |}.

Definition board_add_group (g : pcbnew.group_ref) (bd : pcbnew.BOARD) : pcbnew.BOARD :=
  {| pcbnew.board_items := pcbnew.board_items bd;
     pcbnew.board_groups := pcbnew.board_groups bd ++ [g];
     pcbnew.board_nets := pcbnew.board_nets bd |}.

Definition board_remove_item (i : pcbnew.item_ref) (bd : pcbnew.BOARD) : pcbnew.BOARD :=
  {| pcbnew.board_items := List.filter (fun j => negb (Nat.eqb j i)) (pcbnew.board_items bd);
     pcbnew.board_groups := pcbnew.board_groups bd;
     pcbnew.board_nets := pcbnew.board_nets bd |}.

(** [board.Add(item)]: the item joins the board's sequence and the board
    becomes its parent. *)
Definition BOARD_Add (b : pcbnew.board_ref) (i : pcbnew.item_ref) : py unit :=
  update_board b (board_add_item i);;
  update_item i (with_parent_board (Some b)).

(** [pcbnew.PCB_GROUP(None)] followed by [SetName(name)]: a fresh group on no
    board. *)
Definition PCB_GROUP_new (name : string) : py pcbnew.group_ref :=
  fun w => Ok (length (groups w),
               set_groups (groups w ++ [{| pcbnew.group_name := name;
                                           pcbnew.group_board := None |}]) w).

(** [board.Add(group)] *)
Definition BOARD_Add_group (b : pcbnew.board_ref) (g : pcbnew.group_ref) : py unit :=
  gr ← get_group g;
  update_board b (board_add_group g);;
  w ← get_world;
  put_world (set_groups (<[g := {| pcbnew.group_name := pcbnew.group_name gr;
                                   pcbnew.group_board := Some b |}]> (groups w)) w).

(** [group.GetName()], [group.GetBoard()] *)
Definition PCB_GROUP_GetName (g : pcbnew.group_ref) : py string :=
  gr ← get_group g; mret (pcbnew.group_name gr).

Definition PCB_GROUP_GetBoard (g : pcbnew.group_ref) : py (option pcbnew.board_ref) :=
  gr ← get_group g; mret (pcbnew.group_board gr).

(** Membership is the item's parent-group pointer, so an item is in at most
    one group.  [group.GetItems()] returns a fresh list of the members. *)
Definition is_member (w : World) (g : pcbnew.group_ref) (i : pcbnew.item_ref) : bool :=
  match items w !! i with
  | Some it => bool_decide (pcbnew.parent_group it = Some g)
  | None => false
  end.

Definition PCB_GROUP_GetItems (g : pcbnew.group_ref) : py (list pcbnew.item_ref) :=
  w ← get_world;
  mret (List.filter (is_member w g) (seq 0 (length (items w)))).

(** [group.AddItem(item)]: the item leaves the group it is in, if any. *)
Definition PCB_GROUP_AddItem (g : pcbnew.group_ref) (i : pcbnew.item_ref) : py unit :=
  update_item i (with_parent_group (Some g)).

(** [group.RemoveItem(item)]: nothing happens to an item of another group. *)
Definition PCB_GROUP_RemoveItem (g : pcbnew.group_ref) (i : pcbnew.item_ref) : py unit :=
  update_item i (fun it =>
    if bool_decide (pcbnew.parent_group it = Some g)
    then with_parent_group None it else it).

(** [board.RemoveNative(item)]: the item leaves the board's sequence and its
    group; the object itself lives on. *)
Definition BOARD_RemoveNative (b : pcbnew.board_ref) (i : pcbnew.item_ref) : py unit :=
  update_board b (board_remove_item i);;
  update_item i (with_parent_group None).

(** [board.FindNet(code)]: the board's net of that code, or [None]. *)
Definition BOARD_FindNet (b : pcbnew.board_ref) (code : Z) : py (option Z) :=
  bd ← get_board b;
  mret (if bool_decide (code = 0 ∨ code ∈ pcbnew.board_nets bd) then Some code else None).

(** [item.Duplicate()]: a new object with the same contents; it is in the
    group of the original, and on no board's sequence yet. *)
Definition Duplicate (i : pcbnew.item_ref) : py pcbnew.item_ref :=
  it ← get_item i;
  w ← get_world;
  put_world (set_items (items w ++ [it]) w);;
  mret (length (items w)).

(** [RotatePoint]: KiCad turns a point about a centre with the matrix that
    [translate] uses. *)
Definition RotatePoint (p centre : pcbnew.VECTOR2I) (angle : pcbnew.EDA_ANGLE)
    : pcbnew.VECTOR2I :=
  let dx := pcbnew.x p - pcbnew.x centre in
  let dy := pcbnew.y p - pcbnew.y centre in
  let a := radians angle in
  pcbnew.Vec (py_int (IZR dy * sin a + IZR dx * cos a + IZR (pcbnew.x centre)))
             (py_int (IZR dy * cos a - IZR dx * sin a + IZR (pcbnew.y centre))).

(** [item.Rotate(centre, angle)], [item.Move(delta)] *)
Definition Rotate (i : pcbnew.item_ref) (centre : pcbnew.VECTOR2I)
    (angle : pcbnew.EDA_ANGLE) : py unit :=
  update_item i (fun it =>
    with_geometry (RotatePoint (pcbnew.position it) centre angle)
                  (RotatePoint (pcbnew.end_point it) centre angle)
                  (pcbnew.orientation it + angle)%R (pcbnew.flipped it) it).

Definition vec_add (p q : pcbnew.VECTOR2I) : pcbnew.VECTOR2I :=
  pcbnew.Vec (pcbnew.x p + pcbnew.x q) (pcbnew.y p + pcbnew.y q).
Definition vec_neg (p : pcbnew.VECTOR2I) : pcbnew.VECTOR2I :=
  pcbnew.Vec (- pcbnew.x p) (- pcbnew.y p).

Definition Move (i : pcbnew.item_ref) (delta : pcbnew.VECTOR2I) : py unit :=
  update_item i (fun it =>
    with_geometry (vec_add (pcbnew.position it) delta)
                  (vec_add (pcbnew.end_point it) delta)
                  (pcbnew.orientation it) (pcbnew.flipped it) it).

(** [footprint.GetReference()] and [SetReference]: the text of field 0. *)
Definition reference_of (it : pcbnew.BOARD_ITEM) : string :=
  from_option pcbnew.field_text EmptyString (pcbnew.fields it !! 0%nat).

Definition set_field_text (s : string) (f : pcbnew.PCB_FIELD) : pcbnew.PCB_FIELD :=
  {| pcbnew.field_text := s;
     pcbnew.field_position := pcbnew.field_position f;
     pcbnew.field_angle := pcbnew.field_angle f |}.

Definition SetReference (i : pcbnew.item_ref) (s : string) : py unit :=
  update_item i (fun it =>
    with_fields (alter (set_field_text s) 0%nat (pcbnew.fields it)) it).

(** [item.SetPosition(p)]: the item and what it carries move by the same
    offset. *)
Definition move_field (delta : pcbnew.VECTOR2I) (f : pcbnew.PCB_FIELD) : pcbnew.PCB_FIELD :=
  {| pcbnew.field_text := pcbnew.field_text f;
     pcbnew.field_position := vec_add (pcbnew.field_position f) delta;
     pcbnew.field_angle := pcbnew.field_angle f |}.

Definition rotate_field (centre : pcbnew.VECTOR2I) (angle : pcbnew.EDA_ANGLE)
    (f : pcbnew.PCB_FIELD) : pcbnew.PCB_FIELD :=
  {| pcbnew.field_text := pcbnew.field_text f;
     pcbnew.field_position := RotatePoint (pcbnew.field_position f) centre angle;
     pcbnew.field_angle := (pcbnew.field_angle f + angle)%R |}.

Definition SetPosition (i : pcbnew.item_ref) (p : pcbnew.VECTOR2I) : py unit :=
  update_item i (fun it =>
    let delta := vec_add p (vec_neg (pcbnew.position it)) in
    with_fields (move_field delta <$> pcbnew.fields it)
      (with_geometry p (vec_add (pcbnew.end_point it) delta)
                     (pcbnew.orientation it) (pcbnew.flipped it) it)).

(** [footprint.SetOrientation(a)]: the fields turn with the footprint. *)
Definition SetOrientation (i : pcbnew.item_ref) (a : pcbnew.EDA_ANGLE) : py unit :=
  update_item i (fun it =>
    let turn := (a - pcbnew.orientation it)%R in
    with_fields (rotate_field (pcbnew.position it) turn <$> pcbnew.fields it)
      (with_orientation a it)).

(** [track.SetStart(p)], [track.SetEnd(p)], [item.SetNet(n)], [via.SetIsFree(b)] *)
Definition SetStart (i : pcbnew.item_ref) (p : pcbnew.VECTOR2I) : py unit :=
  update_item i (with_position p).
Definition SetEnd (i : pcbnew.item_ref) (p : pcbnew.VECTOR2I) : py unit :=
  update_item i (with_end_point p).
Definition SetNet (i : pcbnew.item_ref) (n : option Z) : py unit :=
  update_item i (fun it => with_net n (pcbnew.is_free it) it).
Definition SetIsFree (i : pcbnew.item_ref) (free : bool) : py unit :=
  update_item i (fun it => with_net (pcbnew.net it) free it).

(** ** The module's names

    The names bound at module level in [placement.py]: its imports, the
    logger, its classes and its functions.  A name a function body reads
    without binding it is looked up here (no builtin is called [self]). *)
Definition module_globals : list string :=
  ["logging"; "math"; "zip_longest"; "Callable"; "Dict"; "List"; "Optional";
   "Tuple"; "pcbnew"; "logger"; "ErrorLevel"; "ReportedError";
   "PositionTransform"; "GroupManager"; "ReplicateContext";
   "clear_volatile_items"; "copy_drawings"; "copy_traces"; "copy_zones";
   "copy_footprint_fields"; "copy_footprint_data";
   "enforce_position_footprints"]%string.

(** [name.attr] for a global [name]: an unbound name raises [NameError]; the
    modules, classes and functions bound above have none of the attributes
    read this way ([_transformer], [_groupMan], [_footprintNetMapping],
    [_fpTranslator]). *)
Definition global_attr {A} (name attr : string) : py A :=
  if bool_decide (name ∈ module_globals)
  then raise (AttributeError attr)
  else raise (NameError name).

(** ** [class ErrorLevel], [class ReportedError] *)

Module ErrorLevel.
Definition INFO : Z := 0.
Definition WARNING : Z := 1.
Definition ERROR : Z := 2.
End ErrorLevel.

(** The values a [ReportedError] holds in its attributes. *)
Inductive value :=
| VNone
| VStr (s : string)
| VInt (n : Z)
| VFootprint (i : pcbnew.item_ref).

Definition truthy (v : value) : bool :=
  match v with
  | VNone => false
  | VStr s => negb (String.eqb s EmptyString)
  | VInt n => negb (Z.eqb n 0)
  | VFootprint _ => true
  end.

(** [str(v)] inside an f-string. *)
Definition str_value (v : value) : string :=
  match v with
  | VNone => "None"
  | VStr s => s
  | VInt n => pretty n
  | VFootprint _ => "<pcbnew.FOOTPRINT>"
  end.

Definition of_option {A} (f : A -> value) (o : option A) : value :=
  from_option f VNone o.

(** An instance is its attribute dictionary; the class itself defines the two
    methods only, so [self.attr] is found there or nowhere. *)
Definition getattr (self : gmap string value) (attr : string) : py value :=
  match self !! attr with
  | Some v => mret v
  | None => raise (AttributeError attr)
  end.

Definition tab : string := String (Ascii.ascii_of_nat 9) EmptyString.
Definition newline : string := String (Ascii.ascii_of_nat 10) EmptyString.

(** [value.attr] on a value that is not the instance itself: a string, an
    integer, [None] and a footprint have neither [identifier] nor [path]. *)
Definition attribute_of (v : value) (attr : string) : py value :=
  raise (AttributeError attr).

(** [ReportedError.__str__], lines 32 to 43.  The last two tests read
    attributes [__init__] never sets. *)
Definition ReportedError___str__ (self : gmap string value) : py string :=
  level ← getattr self "level";
  title ← getattr self "title";
  let msg := ["ERR." +:+ str_value level +:+ tab +:+ str_value title] in
  message ← getattr self "message";
  msg ← (if truthy message
         then message ← getattr self "message";
              mret (msg ++ [" Message: " +:+ str_value message])
         else mret msg);
  footprint ← getattr self "footprint";
  msg ← (if truthy footprint
         then match footprint with
              | VFootprint i =>
                  it ← get_item i;
                  mret (msg ++ [" Footprint: " +:+ reference_of it])
              | _ => raise (AttributeError "GetReference")
              end
         else mret msg);
  sheet ← getattr self "sheet";
  msg ← (if truthy sheet
         then sheet ← getattr self "sheet";
              identifier ← attribute_of sheet "identifier";
              mret (msg ++ [" Sheet: " +:+ str_value identifier])
         else mret msg);
  pcb ← getattr self "pcb";
  msg ← (if truthy pcb
         then pcb ← getattr self "pcb";
              path ← attribute_of pcb "path";
              mret (msg ++ [" SubPCB: " +:+ str_value path])
         else mret msg);
  mret (String.concat newline msg).

(** [ReportedError.__init__], lines 18 to 30: four attributes are set, then
    [logger.debug(str(self))] evaluates [str(self)] before it logs. *)
Definition ReportedError___init__ (title : string) (message : option string)
    (level : Z) (footprint : option pcbnew.item_ref) : py (gmap string value) :=
  let self : gmap string value := ∅ in
  let self := <["title" := VStr title]> self in
  let self := <["message" := of_option VStr message]> self in
  let self := <["level" := VInt level]> self in
  let self := <["footprint" := of_option VFootprint footprint]> self in
  text ← ReportedError___str__ self;
  logger_emit "DEBUG" text;;
  mret self.

(** ** [class GroupManager] *)

Record GroupManager := {
  gm_board : option pcbnew.board_ref;   (* self.board *)
  gm_group : pcbnew.group_ref }.        (* self.group *)

(** [GroupManager._create_or_get], lines 88 to 98.  The loop has no [break]:
    every match overwrites [retGroup]. *)
Definition GroupManager__create_or_get (board : option pcbnew.board_ref)
    (group_name : string) : py pcbnew.group_ref :=
  b ← call_on board "Groups";
  all_groups ← BOARD_Groups b;
  retGroup ← for_fold all_groups None (fun group retGroup =>
    name ← PCB_GROUP_GetName group;
    if String.eqb name group_name then mret (Some group) else mret retGroup);
  match retGroup with
  | Some g => mret g
  | None =>
      g ← PCB_GROUP_new group_name;
      b ← call_on board "Add";
      BOARD_Add_group b g;;
      mret g
  end.

(** [GroupManager.__init__], lines 83 to 85 *)
Definition GroupManager___init__ (board : option pcbnew.board_ref) (groupName : string)
    : py GroupManager :=
  group ← GroupManager__create_or_get board groupName;
  mret {| gm_board := board; gm_group := group |}.

(** [GroupManager.move], lines 100 to 114 *)
Definition GroupManager_move (self : GroupManager) (item : pcbnew.item_ref) : py bool :=
  let moved := false in
  parent_group ← GetParentGroup item;
  '(moved, parent_group) ←
    match parent_group with
    | Some pg =>
        parent_name ← PCB_GROUP_GetName pg;
        own_name ← PCB_GROUP_GetName (gm_group self);
        if negb (String.eqb parent_name own_name)
        then PCB_GROUP_RemoveItem pg item;; mret (true, None)
        else mret (moved, parent_group)
    | None => mret (moved, parent_group)
    end;
  match parent_group with
  | None => PCB_GROUP_AddItem (gm_group self) item
  | Some _ => mret tt
  end;;
  mret moved.

(** ** [class ReplicateContext(PositionTransform, GroupManager)] *)

Record ReplicateContext := {
  ctx_transform : PositionTransform;
  ctx_manager : GroupManager;
  _sourceBoard : option pcbnew.board_ref;
  _targetBoard : option pcbnew.board_ref }.

(** [ReplicateContext.__init__], lines 121 to 133.  Line 133 hands
    [self._sourceBoard] to [GroupManager.__init__]. *)
Definition ReplicateContext___init__ (sourceAnchorFootprint targetAnchorFootprint : pcbnew.item_ref)
    (groupName : string) : py ReplicateContext :=
  sourceBoard ← GetBoard sourceAnchorFootprint;
  targetBoard ← GetBoard targetAnchorFootprint;
  let transform := {| anchor_template := sourceAnchorFootprint;
                      anchor_mutate := targetAnchorFootprint |} in
  manager ← GroupManager___init__ sourceBoard groupName;
  mret {| ctx_transform := transform;
          ctx_manager := manager;
          _sourceBoard := sourceBoard;
          _targetBoard := targetBoard |}.

Definition sourceBoard (context : ReplicateContext) := _sourceBoard context.
Definition targetBoard (context : ReplicateContext) := _targetBoard context.

(** ** The copy engine *)

(** [clear_volatile_items], lines 144 to 162 *)
Definition itemTypesToRemove : list pcbnew.KICAD_T :=
  [pcbnew.PCB_TRACK; pcbnew.ZONE; pcbnew.PCB_SHAPE; pcbnew.PCB_TEXT; pcbnew.ZONE].

(** The body of the loop, lines 160 to 162, for one [item]. *)
Definition clear_volatile_item (board : option pcbnew.board_ref) (item : pcbnew.item_ref)
    : py unit :=
  it ← get_item item;
  if existsb (pcbnew.isinstance (pcbnew.item_type it)) itemTypesToRemove
  then b ← call_on board "RemoveNative"; BOARD_RemoveNative b item
  else mret tt.

Definition clear_volatile_items (group : pcbnew.group_ref) : py unit :=
  board ← PCB_GROUP_GetBoard group;
  members ← PCB_GROUP_GetItems group;
  for_each members (clear_volatile_item board).

(** [copy_drawings], lines 165 to 178 *)
Definition copy_drawings (context : ReplicateContext) : py unit :=
  sb ← call_on (sourceBoard context) "GetDrawings";
  drawings ← BOARD_GetDrawings sb;
  for_each drawings (fun sourceDrawing =>
    newDrawing ← Duplicate sourceDrawing;
    tb ← call_on (targetBoard context) "Add";
    BOARD_Add tb newDrawing;;
    src ← get_item sourceDrawing;
    p ← translate (ctx_transform context) (pcbnew.position src);
    SetPosition newDrawing p;;
    nd ← get_item newDrawing;
    a ← orient (ctx_transform context) pcbnew.ANGLE_0;
    Rotate newDrawing (pcbnew.position nd) a;;
    GroupManager_move (ctx_manager context) newDrawing;;
    mret tt).

(** The body of the loop of [copy_traces], lines 186 to 201, for one track. *)
Definition copy_trace (context : ReplicateContext) (netMapping : gmap Z Z)
    (sourceTrack : pcbnew.item_ref) : py unit :=
  newTrack ← Duplicate sourceTrack;
  tb ← call_on (targetBoard context) "Add";
  BOARD_Add tb newTrack;;
  sourceNetCode ← GetNetCode sourceTrack;
  let newNetCode := default 0 (netMapping !! sourceNetCode) in
  tb ← call_on (targetBoard context) "FindNet";
  n ← BOARD_FindNet tb newNetCode;
  SetNet newTrack n;;
  src ← get_item sourceTrack;
  p ← translate (ctx_transform context) (pcbnew.position src);
  SetStart newTrack p;;
  src ← get_item sourceTrack;
  q ← translate (ctx_transform context) (pcbnew.end_point src);
  SetEnd newTrack q;;
  nt ← get_item newTrack;
  (if bool_decide (pcbnew.item_type nt = pcbnew.PCB_VIA)
   then SetIsFree newTrack false else mret tt);;
  GroupManager_move (ctx_manager context) newTrack;;
  mret tt.

(** [copy_traces], lines 181 to 201 *)
Definition copy_traces (context : ReplicateContext) (netMapping : gmap Z Z) : py unit :=
  sb ← call_on (sourceBoard context) "Tracks";
  tracks ← BOARD_Tracks sb;
  for_each tracks (copy_trace context netMapping).

(** The loop of [copy_zones], lines 211 to 234, over the mapping it reads
    (the local [footprintNetMapping]): a part of [copy_zones] below, which
    raises at line 206 before it reaches the loop. *)
Definition copy_zones_loop (context : ReplicateContext) (footprintNetMapping : gmap Z Z)
    : py unit :=
  sb ← call_on (sourceBoard context) "Zones";
  zones ← BOARD_Zones sb;
  for_each zones (fun sourceZone =>
    newZone ← Duplicate sourceZone;
    sourceNetCode ← GetNetCode sourceZone;
    let newNetCode := default 0 (footprintNetMapping !! sourceNetCode) in
    tb ← call_on (targetBoard context) "FindNet";
    n ← BOARD_FindNet tb newNetCode;
    SetNet newZone n;;
    tb ← call_on (targetBoard context) "Add";
    BOARD_Add tb newZone;;
    nz ← get_item newZone;
    Move newZone (vec_neg (pcbnew.position nz));;
    src ← get_item sourceZone;
    p ← translate (ctx_transform context) (pcbnew.position src);
    Move newZone p;;
    nz ← get_item newZone;
    a ← orient (ctx_transform context) pcbnew.ANGLE_0;
    Rotate newZone (pcbnew.position nz) a;;
    GroupManager_move (ctx_manager context) newZone;;
    mret tt).

(** [copy_zones], lines 204 to 234.  Lines 206 to 209 read [self], which is
    neither a parameter nor a local of this function; the loop then uses the
    mapping taken from it, not the parameter [netMapping]. *)
Definition copy_zones (context : ReplicateContext) (netMapping : gmap Z Z) : py unit :=
  transform ← global_attr (A := PositionTransform) "self" "_transformer";
  groupMan ← global_attr (A := GroupManager) "self" "_groupMan";
  footprintNetMapping ← global_attr (A := gmap Z Z) "self" "_footprintNetMapping";
  copy_zones_loop context footprintNetMapping.

(** [copy_footprint_fields], lines 237 to 264.  The fields of the target are
    removed in the order they are listed, so each removal takes the first one
    left; a cloned field is a value until [AddField] appends it. *)
Definition copy_footprint_fields (sourceFootprint targetFootprint : pcbnew.item_ref)
    : py unit :=
  let transform := {| anchor_template := sourceFootprint;
                      anchor_mutate := targetFootprint |} in
  tgt ← get_item targetFootprint;
  let originalReference := reference_of tgt in
  for_each (pcbnew.fields tgt) (fun existingField =>
    update_item targetFootprint (fun it => with_fields (drop 1 (pcbnew.fields it)) it));;
  src ← get_item sourceFootprint;
  for_each (pcbnew.fields src) (fun sourceField =>
    let newField := sourceField in
    p ← translate transform (pcbnew.field_position sourceField);
    let newField := move_field (vec_add p (vec_neg (pcbnew.field_position newField))) newField in
    a ← orient transform pcbnew.ANGLE_0;
    let newField := rotate_field (pcbnew.field_position newField) a newField in
    update_item targetFootprint (fun it => with_fields (pcbnew.fields it ++ [newField]) it));;
  SetReference targetFootprint originalReference.

(** [enumerate(xs)] *)
Definition enumerate {A} (xs : list A) : list (nat * A) := zip (seq 0 (length xs)) xs.

(** [xs[n]] *)
Definition index {A} (xs : list A) (n : nat) : py A :=
  match xs !! n with
  | Some a => mret a
  | None => raise IndexError
  end.

(** The pad loop of [enforce_position_footprints], lines 318 to 323, for one
    footprint pair.  It is a part of [enforce_position_footprint] below; the
    function as written raises at line 299 before it reaches any pad. *)
Definition record_pad_nets (sourceFootprint targetFootprint : pcbnew.item_ref)
    (footprintNetMapping : gmap Z Z) : py (gmap Z Z) :=
  src ← get_item sourceFootprint;
  for_fold (enumerate (pcbnew.pads src)) footprintNetMapping
    (fun '(sourcePadNum, sourcePad) footprintNetMapping =>
      tgt ← get_item targetFootprint;
      targetPad ← index (pcbnew.pads tgt) sourcePadNum;
      let sourceCode := pcbnew.pad_netcode sourcePad in
      let targetCode := pcbnew.pad_netcode targetPad in
      mret (<[sourceCode := targetCode]> footprintNetMapping)).

Section Footprints.

(** What [footprint.Flip(centre, False)] does to the footprint's position,
    orientation and fields is the host's; the engine only relies on the side
    being toggled. *)
Variable Flip_geometry :
  pcbnew.VECTOR2I -> pcbnew.BOARD_ITEM ->
  pcbnew.VECTOR2I * pcbnew.EDA_ANGLE * list pcbnew.PCB_FIELD.

Definition Flip (i : pcbnew.item_ref) (centre : pcbnew.VECTOR2I) : py unit :=
  update_item i (fun it =>
    let '(p, a, fs) := Flip_geometry centre it in
    with_fields fs (with_geometry p (pcbnew.end_point it) a (negb (pcbnew.flipped it)) it)).

(** [copy_footprint_data], lines 267 to 291.  The transform is the one of
    the footprint pair itself. *)
Definition copy_footprint_data (sourceFootprint targetFootprint : pcbnew.item_ref)
    : py unit :=
  let transform := {| anchor_template := sourceFootprint;
                      anchor_mutate := targetFootprint |} in
  copy_footprint_fields sourceFootprint targetFootprint;;
  src ← get_item sourceFootprint;
  tgt ← get_item targetFootprint;
  (if negb (Bool.eqb (pcbnew.flipped src) (pcbnew.flipped tgt))
   then Flip targetFootprint (pcbnew.position tgt)
   else mret tt);;
  src ← get_item sourceFootprint;
  update_item targetFootprint
    (with_overrides (pcbnew.local_clearance src)
                    (pcbnew.local_solder_mask_margin src)
                    (pcbnew.local_solder_paste_margin src)
                    (pcbnew.local_solder_paste_margin_ratio src)
                    (pcbnew.zone_connection src));;
  src ← get_item sourceFootprint;
  p ← translate transform (pcbnew.position src);
  SetPosition targetFootprint p;;
  src ← get_item sourceFootprint;
  a ← orient transform (pcbnew.orientation src);
  SetOrientation targetFootprint a.

(** One turn of the footprint loop, lines 307 to 326: a part of
    [enforce_position_footprints] below. *)
Definition enforce_position_footprint (context : ReplicateContext)
    (fpTranslator : pcbnew.item_ref -> option pcbnew.item_ref)
    (sourceFootprint : pcbnew.item_ref) (footprintNetMapping : gmap Z Z)
    : py (gmap Z Z) :=
  match fpTranslator sourceFootprint with
  | None => mret footprintNetMapping    (* continue *)
  | Some targetFootprint =>
      copy_footprint_data sourceFootprint targetFootprint;;
      footprintNetMapping ← record_pad_nets sourceFootprint targetFootprint footprintNetMapping;
      GroupManager_move (ctx_manager context) targetFootprint;;
      mret footprintNetMapping
  end.

(** The footprint loop, lines 306 to 326, over a starting mapping: the part
    of [enforce_position_footprints] that follows line 299. *)
Definition enforce_position_footprints_loop (context : ReplicateContext)
    (fpTranslator : pcbnew.item_ref -> option pcbnew.item_ref)
    (footprintNetMapping : gmap Z Z) : py (gmap Z Z) :=
  sb ← call_on (sourceBoard context) "GetFootprints";
  footprints ← BOARD_GetFootprints sb;
  for_fold footprints footprintNetMapping (enforce_position_footprint context fpTranslator).

(** [enforce_position_footprints], lines 294 to 328.  Line 299 rebinds the
    parameter from [self], a name this function does not bind. *)
Definition enforce_position_footprints (context : ReplicateContext)
    (fpTranslator : pcbnew.item_ref -> option pcbnew.item_ref) : py (gmap Z Z) :=
  fpTranslator ← global_attr (A := pcbnew.item_ref -> option pcbnew.item_ref)
                   "self" "_fpTranslator";
  let footprintNetMapping : gmap Z Z := ∅ in
  enforce_position_footprints_loop context fpTranslator footprintNetMapping.

(** Modelled from the spec: the run itself ([replicate] of the repository's
    [hdata] module, which is not among the sources).  Sections 2 and 4.4 of
    the design document: build the context from the anchor pair, purge the
    group's volatile items, copy the footprints and build the net mapping,
    then copy drawings, tracks and zones with it. *)
Definition replicate (sourceAnchorFootprint targetAnchorFootprint : pcbnew.item_ref)
    (groupName : string)
    (fpTranslator : pcbnew.item_ref -> option pcbnew.item_ref) : py unit :=
  context ← ReplicateContext___init__ sourceAnchorFootprint targetAnchorFootprint groupName;
  clear_volatile_items (gm_group (ctx_manager context));;
  netMapping ← enforce_position_footprints context fpTranslator;
  copy_drawings context;;
  copy_traces context netMapping;;
  copy_zones context netMapping.

End Footprints.

(** ** The design document's reading of [translate]

    Section 4.1: the offset from the template anchor, turned by the
    difference of the anchors' orientations with the 2-D rotation matrix,
    re-based at the target anchor. *)






(** ** Sample designs *)

Definition origin : pcbnew.VECTOR2I := pcbnew.Vec 0 0.

(** An item of class [t] at the origin, on no board and in no group. *)
Definition blank (t : pcbnew.KICAD_T) : pcbnew.BOARD_ITEM :=
  {| pcbnew.item_type := t;
     pcbnew.parent_board := None;
     pcbnew.parent_group := None;
     pcbnew.position := origin;
     pcbnew.end_point := origin;
     pcbnew.orientation := 0%R;
     pcbnew.net := Some 0;
     pcbnew.is_free := false;
     pcbnew.flipped := false;
     pcbnew.pads := [];
     pcbnew.fields := [];
     pcbnew.local_clearance := 0;
     pcbnew.local_solder_mask_margin := 0;
     pcbnew.local_solder_paste_margin := 0;
     pcbnew.local_solder_paste_margin_ratio := 0%R;
     pcbnew.zone_connection := 0 |}.

(** A footprint at position [(px, py)] turned by [deg] degrees. *)
Definition footprint_at (px py : Z) (deg : R) : pcbnew.BOARD_ITEM :=
  with_geometry (pcbnew.Vec px py) origin deg false (blank pcbnew.FOOTPRINT).

Definition world_of (its : list pcbnew.BOARD_ITEM) (grs : list pcbnew.PCB_GROUP)
    (bds : list pcbnew.BOARD) : World :=
  {| items := its; groups := grs; boards := bds; hierpcb_log := [] |}.

(** Anchors of the two worked scenarios of section 8: object 0 is the
    template anchor, object 1 the target anchor. *)
Definition anchors_0_1 : PositionTransform :=
  {| anchor_template := 0%nat; anchor_mutate := 1%nat |}.

Definition scenario_translation : World :=
  world_of [footprint_at 0 0 0; footprint_at 100 50 0] [] [].

Definition scenario_rotation : World :=
  world_of [footprint_at 0 0 0; footprint_at 0 0 90] [] [].

Definition group_on (name : string) (b : pcbnew.board_ref) : pcbnew.PCB_GROUP :=
  {| pcbnew.group_name := name; pcbnew.group_board := Some b |}.

Definition board_with (its : list pcbnew.item_ref) (grs : list pcbnew.group_ref)
    : pcbnew.BOARD :=
  {| pcbnew.board_items := its; pcbnew.board_groups := grs; pcbnew.board_nets := [] |}.

Definition on_board (b : pcbnew.board_ref) (it : pcbnew.BOARD_ITEM) : pcbnew.BOARD_ITEM :=
  with_parent_board (Some b) it.
Definition in_group (g : pcbnew.group_ref) (it : pcbnew.BOARD_ITEM) : pcbnew.BOARD_ITEM :=
  with_parent_group (Some g) it.

(** One board with two groups of the same name, and a footprint in the
    first of them. *)
Definition twin_groups : World :=
  world_of [in_group 0%nat (on_board 0%nat (footprint_at 0 0 0))]
           [group_on "inst" 0%nat; group_on "inst" 0%nat]
           [board_with [0%nat] [0%nat; 1%nat]].

(** A template board (0) and a target board (1), one anchor footprint on
    each, no group yet. *)
Definition two_boards : World :=
  world_of [on_board 0%nat (footprint_at 0 0 0); on_board 1%nat (footprint_at 100 50 0)]
           []
           [board_with [0%nat] []; board_with [1%nat] []].

(** ** Vocabulary of the statements *)

(** The group [g] bears the name [name]. *)
Definition named (w : World) (name : string) (g : pcbnew.group_ref) : bool :=
  match groups w !! g with
  | Some gr => String.eqb (pcbnew.group_name gr) name
  | None => false
  end.

(** The groups of a board that bear [name], in the board's order. *)
Definition groups_named (w : World) (bd : pcbnew.BOARD) (name : string)
    : list pcbnew.group_ref :=
  List.filter (named w name) (pcbnew.board_groups bd).

(** The world after a new group [name] has been created and registered on
    board [b]. *)
Definition with_new_group (b : pcbnew.board_ref) (bd : pcbnew.BOARD) (name : string)
    (w : World) : World :=
  set_groups (groups w ++ [group_on name b])
    (set_boards (<[b := board_add_group (length (groups w)) bd]> (boards w)) w).

(** The item is in a group whose name is not [own_name]. *)
Definition in_foreign_group (w : World) (own_name : string) (it : pcbnew.BOARD_ITEM) : bool :=
  match pcbnew.parent_group it with
  | Some p => negb (named w own_name p)
  | None => false
  end.

(** The world after [move] has put item [i] into group [g], if it had to. *)
Definition claimed (g : pcbnew.group_ref) (own_name : string) (i : pcbnew.item_ref)
    (it : pcbnew.BOARD_ITEM) (w : World) : World :=
  if in_foreign_group w own_name it || bool_decide (pcbnew.parent_group it = None)
  then set_items (<[i := with_parent_group (Some g) it]> (items w)) w
  else w.

(** A manager for the second of the two groups of [twin_groups]. *)
Definition second_twin : GroupManager :=
  {| gm_board := Some 0%nat; gm_group := 1%nat |}.

(** The context [ReplicateContext.__init__] builds once the group [g] is
    known. *)
Definition context_of (s t : pcbnew.item_ref) (sb tb : option pcbnew.board_ref)
    (g : pcbnew.group_ref) : ReplicateContext :=
  {| ctx_transform := {| anchor_template := s; anchor_mutate := t |};
     ctx_manager := {| gm_board := sb; gm_group := g |};
     _sourceBoard := sb;
     _targetBoard := tb |}.

Definition with_pads (ps : list pcbnew.PAD) (it : pcbnew.BOARD_ITEM) : pcbnew.BOARD_ITEM :=
  {| pcbnew.item_type := pcbnew.item_type it;
     pcbnew.parent_board := pcbnew.parent_board it;
     pcbnew.parent_group := pcbnew.parent_group it;
     pcbnew.position := pcbnew.position it;
     pcbnew.end_point := pcbnew.end_point it;
     pcbnew.orientation := pcbnew.orientation it;
     pcbnew.net := pcbnew.net it;
     pcbnew.is_free := pcbnew.is_free it;
     pcbnew.flipped := pcbnew.flipped it;
     pcbnew.pads := ps;
     pcbnew.fields := pcbnew.fields it;
     pcbnew.local_clearance := pcbnew.local_clearance it;
     pcbnew.local_solder_mask_margin := pcbnew.local_solder_mask_margin it;
     pcbnew.local_solder_paste_margin := pcbnew.local_solder_paste_margin it;
     pcbnew.local_solder_paste_margin_ratio := pcbnew.local_solder_paste_margin_ratio it;
     pcbnew.zone_connection := pcbnew.zone_connection it |}.

Definition pads_on (codes : list Z) : list pcbnew.PAD := pcbnew.Build_PAD <$> codes.

(** A template footprint (object 0) with pads on nets 1, 2, 3 and its target
    counterpart (object 1) with pads on nets 11, 12 only; the group "inst" of
    the context is on board 0. *)
Definition pads_3_vs_2 : World :=
  world_of [with_pads (pads_on [1; 2; 3]) (on_board 0%nat (footprint_at 0 0 0));
            with_pads (pads_on [11; 12]) (on_board 1%nat (footprint_at 100 50 0))]
           [group_on "inst" 0%nat]
           [board_with [0%nat] [0%nat]; board_with [1%nat] []].

(** A host whose [Flip] keeps position, orientation and fields. *)
Definition Flip_in_place (centre : pcbnew.VECTOR2I) (it : pcbnew.BOARD_ITEM)
    : pcbnew.VECTOR2I * pcbnew.EDA_ANGLE * list pcbnew.PCB_FIELD :=
  (pcbnew.position it, pcbnew.orientation it, pcbnew.fields it).

(** The pairing that resolves no footprint. *)
Definition no_counterpart (sourceFootprint : pcbnew.item_ref) : option pcbnew.item_ref :=
  None.

(** [two_boards] once the context for group "inst" has been built. *)
Definition two_boards_inst : World :=
  with_new_group 0%nat (board_with [0%nat] []) "inst" two_boards.

Definition context_inst : ReplicateContext :=
  context_of 0%nat 1%nat (Some 0%nat) (Some 1%nat) 0%nat.

(** [j] is one of the references in [l]. *)
Definition inb (j : nat) (l : list nat) : bool := existsb (Nat.eqb j) l.

(** A board restricted to the items that satisfy [P]. *)
Definition board_keep (P : pcbnew.item_ref -> bool) (bd : pcbnew.BOARD) : pcbnew.BOARD :=
  {| pcbnew.board_items := List.filter P (pcbnew.board_items bd);
     pcbnew.board_groups := pcbnew.board_groups bd;
     pcbnew.board_nets := pcbnew.board_nets bd |}.

(** The item [j] survives a purge that visits the items [l]: it is not a
    visited item of a class the purge removes. *)
Definition survives (w : World) (l : list pcbnew.item_ref) (j : pcbnew.item_ref) : bool :=
  negb (inb j l && has_class w itemTypesToRemove j).

(** The classes of the design document's volatile categories: track, via,
    zone, drawing and text. *)
Definition volatile_classes : list pcbnew.KICAD_T :=
  [pcbnew.PCB_TRACK; pcbnew.PCB_VIA; pcbnew.ZONE; pcbnew.PCB_SHAPE; pcbnew.PCB_TEXT].

(** A board whose group "inst" holds a footprint (0), a track (1), a via (2),
    a zone (3), a drawing (4) and a text (5); a second track (6) is on the
    board but in no group. *)
Definition grouped_design : World :=
  world_of [in_group 0%nat (on_board 0%nat (footprint_at 10 10 0));
            in_group 0%nat (on_board 0%nat (blank pcbnew.PCB_TRACK));
            in_group 0%nat (on_board 0%nat (blank pcbnew.PCB_VIA));
            in_group 0%nat (on_board 0%nat (blank pcbnew.ZONE));
            in_group 0%nat (on_board 0%nat (blank pcbnew.PCB_SHAPE));
            in_group 0%nat (on_board 0%nat (blank pcbnew.PCB_TEXT));
            on_board 0%nat (blank pcbnew.PCB_TRACK)]
           [group_on "inst" 0%nat]
           [board_with [0; 1; 2; 3; 4; 5; 6]%nat [0%nat]].

(** The net object [copy_traces] hands to the copy of a track whose net
    code is [sourceNetCode], on the target board [tbd]. *)
Definition mapped_net (netMapping : gmap Z Z) (tbd : pcbnew.BOARD) (sourceNetCode : Z)
    : option Z :=
  let newNetCode := default 0 (netMapping !! sourceNetCode) in
  if bool_decide (newNetCode = 0 ∨ newNetCode ∈ pcbnew.board_nets tbd)
  then Some newNetCode else None.

(** A via's free flag is cleared by [copy_traces]; other tracks are left as
    they are. *)
Definition free_if_via (x : pcbnew.BOARD_ITEM) : pcbnew.BOARD_ITEM :=
  if bool_decide (pcbnew.item_type x = pcbnew.PCB_VIA)
  then with_net (pcbnew.net x) false x else x.

(** [two_boards] with one track (object 2) on the template board. *)
Definition template_with_track : World :=
  world_of [on_board 0%nat (footprint_at 0 0 0);
            on_board 1%nat (footprint_at 100 50 0);
            on_board 0%nat (blank pcbnew.PCB_TRACK)]
           []
           [board_with [0%nat; 2%nat] []; board_with [1%nat] []].

(** Context, purge and track copy for the anchors 0 and 1 and the group
    "inst": the phases of a run that do not read [self], in the run's order
    and with an empty net mapping. *)
Definition purge_then_copy_tracks : py unit :=
  context ← ReplicateContext___init__ 0%nat 1%nat "inst";
  clear_volatile_items (gm_group (ctx_manager context));;
  copy_traces context ∅.

(** The items of board 1, the target board of the sample designs. *)
Definition target_items (w : World) : option (list pcbnew.item_ref) :=
  pcbnew.board_items <$> boards w !! 1%nat.

(** The transform with the two anchors exchanged. *)
Definition swap_anchors (self : PositionTransform) : PositionTransform :=
  {| anchor_template := anchor_mutate self; anchor_mutate := anchor_template self |}.

(** Two anchor footprints that are on no board. *)
Definition loose_anchors : World :=
  world_of [footprint_at 0 0 0; footprint_at 100 50 0] [] [].

(** One board that holds both anchors, and no group. *)
Definition one_board : World :=
  world_of [on_board 0%nat (footprint_at 0 0 0); on_board 0%nat (footprint_at 100 50 0)]
           []
           [board_with [0%nat; 1%nat] []].

(** A board with the groups "other" (0) and "inst" (1); footprint 0 is in
    "other", footprint 1 in no group. *)
Definition other_and_inst : World :=
  world_of [in_group 0%nat (on_board 0%nat (footprint_at 0 0 0));
            on_board 0%nat (footprint_at 100 50 0)]
           [group_on "other" 0%nat; group_on "inst" 0%nat]
           [board_with [0%nat; 1%nat] [0%nat; 1%nat]].

Definition inst_manager : GroupManager :=
  {| gm_board := Some 0%nat; gm_group := 1%nat |}.

(** A group that is on no board and holds a track. *)
Definition loose_group : World :=
  world_of [in_group 0%nat (blank pcbnew.FOOTPRINT); in_group 0%nat (blank pcbnew.PCB_TRACK)]
           [{| pcbnew.group_name := "inst"; pcbnew.group_board := None |}]
           [].

(** A board whose group "inst" holds footprints only; a track is on the
    board but in no group. *)
Definition footprints_only : World :=
  world_of [in_group 0%nat (on_board 0%nat (footprint_at 0 0 0));
            in_group 0%nat (on_board 0%nat (footprint_at 100 50 0));
            on_board 0%nat (blank pcbnew.PCB_TRACK)]
           [group_on "inst" 0%nat]
           [board_with [0%nat; 1%nat; 2%nat] [0%nat]].

(** ** Vocabulary of the copy loops *)

(** What the copy loops need of the world: the two anchors are the objects
    [template] and [mutate], the groups are [grs], and every object's parent
    group is one of them. *)
Definition copy_ready (context : ReplicateContext) (template mutate : pcbnew.BOARD_ITEM)
    (grs : list pcbnew.PCB_GROUP) (w : World) : Prop :=
  items w !! anchor_template (ctx_transform context) = Some template
  /\ items w !! anchor_mutate (ctx_transform context) = Some mutate
  /\ groups w = grs
  /\ (forall (i : pcbnew.item_ref) it p,
        items w !! i = Some it -> pcbnew.parent_group it = Some p -> is_Some (grs !! p)).

(** The world after one new object [copy] has been created and added to the
    board [tb]. *)
Definition appended (tb : pcbnew.board_ref) (tbd : pcbnew.BOARD)
    (copy : pcbnew.BOARD_ITEM) (w : World) : World :=
  set_items (items w ++ [copy])
    (set_boards (<[tb := board_add_item (length (items w)) tbd]> (boards w)) w).

(** The item is in a group that bears [name]. *)
Definition in_group_named (grs : list pcbnew.PCB_GROUP) (name : string)
    (it : pcbnew.BOARD_ITEM) : Prop :=
  exists p gr, pcbnew.parent_group it = Some p /\ grs !! p = Some gr
               /\ pcbnew.group_name gr = name.

(** [copy] is what [copy_traces] makes of the track [src]. *)
Definition track_copy_of (netMapping : gmap Z Z) (tb : pcbnew.board_ref) (tbd : pcbnew.BOARD)
    (template mutate src copy : pcbnew.BOARD_ITEM) : Prop :=
  pcbnew.item_type copy = pcbnew.item_type src
  /\ pcbnew.parent_board copy = Some tb
  /\ pcbnew.position copy = translate_at template mutate (pcbnew.position src)
  /\ pcbnew.end_point copy = translate_at template mutate (pcbnew.end_point src)
  /\ pcbnew.net copy = mapped_net netMapping tbd (netcode_of src)
  /\ pcbnew.is_free copy
     = (if bool_decide (pcbnew.item_type src = pcbnew.PCB_VIA)
        then false else pcbnew.is_free src).

(** [template_with_track] once the group "inst" of the context exists. *)
Definition template_with_track_inst : World :=
  with_new_group 0%nat (board_with [0%nat; 2%nat] []) "inst" template_with_track.

(** The body of the loop of [copy_drawings], lines 168 to 178, for one
    drawing. *)
Definition copy_drawing (context : ReplicateContext) (sourceDrawing : pcbnew.item_ref)
    : py unit :=
  newDrawing ← Duplicate sourceDrawing;
  tb ← call_on (targetBoard context) "Add";
  BOARD_Add tb newDrawing;;
  src ← get_item sourceDrawing;
  p ← translate (ctx_transform context) (pcbnew.position src);
  SetPosition newDrawing p;;
  nd ← get_item newDrawing;
  a ← orient (ctx_transform context) pcbnew.ANGLE_0;
  Rotate newDrawing (pcbnew.position nd) a;;
  GroupManager_move (ctx_manager context) newDrawing;;
  mret tt.

(** [copy] is what [copy_drawings] makes of the drawing [src]: the same
    drawing on the target board, at the image of its position, turned by the
    difference of the anchors' orientations. *)
Definition drawing_copy_of (tb : pcbnew.board_ref)
    (template mutate src copy : pcbnew.BOARD_ITEM) : Prop :=
  pcbnew.item_type copy = pcbnew.item_type src
  /\ pcbnew.parent_board copy = Some tb
  /\ pcbnew.position copy = translate_at template mutate (pcbnew.position src)
  /\ pcbnew.orientation copy
     = (pcbnew.orientation src + orient_at template mutate pcbnew.ANGLE_0)%R
  /\ pcbnew.net copy = pcbnew.net src.

(** A template board with a drawing (2), a text (3) and a zone (4) beside
    its anchor, a target board with its anchor, and the group "inst". *)
Definition template_with_drawings : World :=
  world_of [on_board 0%nat (footprint_at 0 0 0);
            on_board 1%nat (footprint_at 100 50 0);
            on_board 0%nat (with_position (pcbnew.Vec 5 5) (blank pcbnew.PCB_SHAPE));
            on_board 0%nat (with_position (pcbnew.Vec 6 7) (blank pcbnew.PCB_TEXT));
            on_board 0%nat (with_position (pcbnew.Vec 8 9) (blank pcbnew.ZONE))]
           [group_on "inst" 0%nat]
           [board_with [0; 2; 3; 4]%nat [0%nat]; board_with [1%nat] []].

(** ** Vocabulary of the footprint copy *)

(** The world with object [t] replaced by [c]. *)
Definition retarget (t : pcbnew.item_ref) (c : pcbnew.BOARD_ITEM) (w : World) : World :=
  set_items (<[t := c]> (items w)) w.

(** The field [copy_footprint_fields] makes of a template field: the same
    text, at the image of its position under the footprint pair's own
    transform, turned by the difference of the two footprints'
    orientations. *)
Definition field_copy (src tgt : pcbnew.BOARD_ITEM) (sf : pcbnew.PCB_FIELD)
    : pcbnew.PCB_FIELD :=
  {| pcbnew.field_text := pcbnew.field_text sf;
     pcbnew.field_position := translate_at src tgt (pcbnew.field_position sf);
     pcbnew.field_angle := (pcbnew.field_angle sf + orient_at src tgt pcbnew.ANGLE_0)%R |}.

(** The fields of the target after [copy_footprint_fields]. *)
Definition mirrored_fields (src tgt : pcbnew.BOARD_ITEM) : list pcbnew.PCB_FIELD :=
  alter (set_field_text (reference_of tgt)) 0%nat (field_copy src tgt <$> pcbnew.fields src).

(** The footprint once [copy_footprint_data] has flipped it, if its side
    differs from the template's; [Flip_geometry] is the host's flip. *)
Definition flip_to_match
    (Flip_geometry : pcbnew.VECTOR2I -> pcbnew.BOARD_ITEM ->
                     pcbnew.VECTOR2I * pcbnew.EDA_ANGLE * list pcbnew.PCB_FIELD)
    (src c : pcbnew.BOARD_ITEM) : pcbnew.BOARD_ITEM :=
  if negb (Bool.eqb (pcbnew.flipped src) (pcbnew.flipped c))
  then let '(p, a, fs) := Flip_geometry (pcbnew.position c) c in
       with_fields fs (with_geometry p (pcbnew.end_point c) a (negb (pcbnew.flipped c)) c)
  else c.

(** The template's local overrides, put on [it]. *)
Definition overrides_of (src it : pcbnew.BOARD_ITEM) : pcbnew.BOARD_ITEM :=
  with_overrides (pcbnew.local_clearance src)
                 (pcbnew.local_solder_mask_margin src)
                 (pcbnew.local_solder_paste_margin src)
                 (pcbnew.local_solder_paste_margin_ratio src)
                 (pcbnew.zone_connection src) it.

Definition field_at (text : string) (px py : Z) : pcbnew.PCB_FIELD :=
  {| pcbnew.field_text := text;
     pcbnew.field_position := pcbnew.Vec px py;
     pcbnew.field_angle := 0%R |}.

(** A template footprint R1 (object 0, board 0) with two fields and pads on
    nets 1 and 2, and its counterpart R101 (object 1, board 1) with one
    field and pads on nets 11 and 12; the group "inst" is on board 0. *)
Definition paired_footprints : World :=
  world_of [with_fields [field_at "R1" 10 0; field_at "10k" 0 5]
              (with_pads (pads_on [1; 2]) (on_board 0%nat (footprint_at 0 0 0)));
            with_fields [field_at "R101" 100 40]
              (with_pads (pads_on [11; 12]) (on_board 1%nat (footprint_at 100 50 0)))]
           [group_on "inst" 0%nat]
           [board_with [0%nat] [0%nat]; board_with [1%nat] []].

(** The pairing of [paired_footprints]. *)
Definition pair_0_1 (sourceFootprint : pcbnew.item_ref) : option pcbnew.item_ref :=
  if Nat.eqb sourceFootprint 0 then Some 1%nat else None.

(** The design a first pass of the engine leaves behind: the template
    board 0 with the anchor 0 and a track 2, the target board 1 with the
    anchor 1 and the copy 3 of the track.  The copy is in the group "inst",
    which [ReplicateContext.__init__] has registered on board 0. *)
Definition stray_copy_design : World :=
  world_of [on_board 0%nat (footprint_at 0 0 0);
            on_board 1%nat (footprint_at 100 50 0);
            on_board 0%nat (blank pcbnew.PCB_TRACK);
            in_group 0%nat (on_board 1%nat (blank pcbnew.PCB_TRACK))]
           [group_on "inst" 0%nat]
           [board_with [0%nat; 2%nat] [0%nat]; board_with [1%nat; 3%nat] []].


(** * Properties *)

(** ** Numbers *)

Lemma Int_part_IZR (z : Z) : Int_part (IZR z) = z.
Proof. symmetry. apply Int_part_spec. split; lra. Qed.

Lemma py_int_IZR (z : Z) : py_int (IZR z) = z.
Proof.
  unfold py_int. destruct (Rle_dec 0 (IZR z)) as [_|_].
  - apply Int_part_IZR.
  - rewrite <- opp_IZR, Int_part_IZR. lia.
Qed.

Lemma radians_0 : radians 0 = 0%R.
Proof. unfold radians. lra. Qed.


(** ** [PositionTransform.translate] *)

Lemma translate_run self p w template mutate :
  items w !! anchor_template self = Some template ->
  items w !! anchor_mutate self = Some mutate ->
  translate self p w = Ok (translate_at template mutate p, w).
Proof.
  intros Ht Hm. unfold translate, mbind, py_bind, get_item. rewrite Ht, Hm. reflexivity.
Qed.




(** With equal anchor orientations the turn is by zero degrees: the sine is
    zero and the cosine one, nothing is rounded, and [translate] is a shift. *)
Lemma translate_at_same_orientation template mutate p :
  pcbnew.orientation mutate = pcbnew.orientation template ->
  translate_at template mutate p
  = pcbnew.Vec (pcbnew.x p - pcbnew.x (pcbnew.position template)
                + pcbnew.x (pcbnew.position mutate))
               (pcbnew.y p - pcbnew.y (pcbnew.position template)
                + pcbnew.y (pcbnew.position mutate)).
Proof.
  intros Ho. unfold translate_at. cbv zeta. rewrite Ho.
  replace (pcbnew.orientation template - pcbnew.orientation template)%R with 0%R by lra.
  rewrite radians_0, sin_0, cos_0. f_equal.
  - rewrite <- (py_int_IZR (_ + _)). f_equal. rewrite plus_IZR. lra.
  - rewrite <- (py_int_IZR (_ + _)). f_equal. rewrite plus_IZR. lra.
Qed.






(** ** [ReportedError] *)

Lemma getattr_missing (self : gmap string value) attr w :
  self !! attr = None -> getattr self attr w = Raise (AttributeError attr).
Proof. intros H. unfold getattr. rewrite H. reflexivity. Qed.

(** C10: constructing a [ReportedError] always raises [AttributeError]:
    [__init__] evaluates [str(self)] before logging, and [__str__] reads
    [self.sheet], which nothing assigns.  Nothing is logged.  (The footprint,
    when one is given, is an object of the design.) *)
Theorem ReportedError_init_raises_AttributeError
    (title : string) (message : option string) (level : Z)
    (footprint : option pcbnew.item_ref) (w : World)
    (Hfootprint : forall i, footprint = Some i -> is_Some (items w !! i)) :
  ReportedError___init__ title message level footprint w
  = Raise (AttributeError "sheet").
Proof.
  unfold ReportedError___init__, ReportedError___str__.
  set (self := <["footprint":=_]> _).
  assert (Hl : self !! "level" = Some (VInt level)) by (vm_compute; reflexivity).
  assert (Ht : self !! "title" = Some (VStr title)) by (vm_compute; reflexivity).
  assert (Hm : self !! "message" = Some (of_option VStr message))
    by (vm_compute; reflexivity).
  assert (Hf : self !! "footprint" = Some (of_option VFootprint footprint))
    by (vm_compute; reflexivity).
  assert (Hs : self !! "sheet" = None) by (vm_compute; reflexivity).
  clearbody self.
  unfold mbind, py_bind, getattr. rewrite Hl, Ht, Hm, Hf, Hs.
  unfold mret, py_ret, raise.
  destruct message as [m|]; simpl; [destruct (negb (String.eqb m "")); simpl|];
    (destruct footprint as [i|]; simpl; [|reflexivity]);
    unfold get_item; destruct (Hfootprint i eq_refl) as [it ->]; reflexivity.
Qed.

Lemma ReportedError_init_raises_AttributeError_witness :
  ReportedError___init__ "No match" None ErrorLevel.INFO (Some 0%nat) twin_groups
  = Raise (AttributeError "sheet").
Proof.
  apply (ReportedError_init_raises_AttributeError "No match" None ErrorLevel.INFO
           (Some 0%nat) twin_groups).
  intros i Hi. injection Hi as <-. simpl. eexists. reflexivity.
Defined.

(** ** The monad, step by step *)

Lemma bind_ok {A B} (m : py A) (k : A -> py B) w a w' :
  m w = Ok (a, w') -> (m ≫= k) w = k a w'.
Proof. intros H. unfold mbind, py_bind. rewrite H. reflexivity. Qed.

Lemma bind_raise {A B} (m : py A) (k : A -> py B) w e :
  m w = Raise e -> (m ≫= k) w = Raise e.
Proof. intros H. unfold mbind, py_bind. rewrite H. reflexivity. Qed.

Lemma bind_assoc {A B C} (m : py A) (k : A -> py B) (h : B -> py C) w :
  ((m ≫= k) ≫= h) w = (m ≫= (fun a => k a ≫= h)) w.
Proof. unfold mbind, py_bind. destruct (m w) as [[a w']|e]; reflexivity. Qed.

Lemma bind_ret {A B} (a : A) (k : A -> py B) w : (mret a ≫= k) w = k a w.
Proof. reflexivity. Qed.

Lemma ret_ok {A} (a : A) w : (mret a : py A) w = Ok (a, w).
Proof. reflexivity. Qed.

(** Run the first call of a sequence, given its outcome [E]. *)
Ltac py_step E :=
  rewrite ?bind_assoc; rewrite (bind_ok _ _ _ _ _ E); cbv beta.

Lemma index_ok {A} (xs : list A) n a w : xs !! n = Some a -> index xs n w = Ok (a, w).
Proof. intros H. unfold index. rewrite H. reflexivity. Qed.

Lemma get_item_ok i w it : items w !! i = Some it -> get_item i w = Ok (it, w).
Proof. intros H. unfold get_item. rewrite H. reflexivity. Qed.

Lemma get_group_ok g w gr : groups w !! g = Some gr -> get_group g w = Ok (gr, w).
Proof. intros H. unfold get_group. rewrite H. reflexivity. Qed.

Lemma get_board_ok b w bd : boards w !! b = Some bd -> get_board b w = Ok (bd, w).
Proof. intros H. unfold get_board. rewrite H. reflexivity. Qed.

Lemma update_item_ok i f w it :
  items w !! i = Some it ->
  update_item i f w = Ok (tt, set_items (<[i := f it]> (items w)) w).
Proof. intros H. unfold update_item. rewrite H. reflexivity. Qed.

Lemma update_board_ok b f w bd :
  boards w !! b = Some bd ->
  update_board b f w = Ok (tt, set_boards (<[b := f bd]> (boards w)) w).
Proof. intros H. unfold update_board. rewrite H. reflexivity. Qed.

Lemma PCB_GROUP_GetName_ok g w gr :
  groups w !! g = Some gr -> PCB_GROUP_GetName g w = Ok (pcbnew.group_name gr, w).
Proof.
  intros H. unfold PCB_GROUP_GetName. py_step (get_group_ok _ _ _ H). reflexivity.
Qed.

(** ** [GroupManager._create_or_get] *)

(** The loop of lines 91 to 93 leaves the last group bearing the name in
    [retGroup], or what [retGroup] was when none does. *)
Lemma create_or_get_loop name w (l : list pcbnew.group_ref) (acc : option pcbnew.group_ref) :
  (forall g, g ∈ l -> is_Some (groups w !! g)) ->
  for_fold l acc (fun group retGroup =>
    name' ← PCB_GROUP_GetName group;
    if String.eqb name' name then mret (Some group) else mret retGroup) w
  = Ok (match last (List.filter (named w name) l) with
        | Some g => Some g
        | None => acc
        end, w).
Proof.
  revert acc. induction l as [|g l IH]; intros acc Hl; [reflexivity|].
  destruct (Hl g) as [gr Hgr]; [left|].
  cbn [for_fold List.filter].
  py_step (PCB_GROUP_GetName_ok _ _ _ Hgr).
  unfold named at 1. rewrite Hgr.
  destruct (String.eqb (pcbnew.group_name gr) name); rewrite bind_ret.
  - rewrite IH by (intros; apply Hl; right; done).
    rewrite last_cons. destruct (last _); reflexivity.
  - apply IH. intros; apply Hl; right; done.
Qed.

Lemma last_filter_named w name l g :
  last (List.filter (named w name) l) = Some g -> g ∈ l /\ named w name g = true.
Proof.
  intros H. apply last_Some in H as [l' Hl'].
  assert (Hin : In g (List.filter (named w name) l))
    by (rewrite Hl'; apply in_or_app; right; left; reflexivity).
  apply filter_In in Hin as [Hin Hn]. split; [by apply list_elem_of_In|done].
Qed.

Lemma create_or_get_run w b bd name :
  boards w !! b = Some bd ->
  (forall g, g ∈ pcbnew.board_groups bd -> is_Some (groups w !! g)) ->
  GroupManager__create_or_get (Some b) name w
  = match last (groups_named w bd name) with
    | Some g => Ok (g, w)
    | None => Ok (length (groups w), with_new_group b bd name w)
    end.
Proof.
  intros Hb Hgroups. unfold GroupManager__create_or_get, call_on, BOARD_Groups.
  rewrite bind_ret. py_step (get_board_ok _ _ _ Hb). rewrite bind_ret.
  py_step (create_or_get_loop name w (pcbnew.board_groups bd) None Hgroups).
  fold (groups_named w bd name). destruct (last (groups_named w bd name)) as [g|].
  - reflexivity.
  - pose (w1 := set_groups (groups w ++ [{| pcbnew.group_name := name;
                                             pcbnew.group_board := None |}]) w).
    assert (E1 : PCB_GROUP_new name w = Ok (length (groups w), w1)) by reflexivity.
    py_step E1. rewrite bind_ret. unfold BOARD_Add_group.
    assert (Hg : groups w1 !! length (groups w)
                 = Some {| pcbnew.group_name := name; pcbnew.group_board := None |})
      by (apply list_lookup_middle; reflexivity).
    py_step (get_group_ok _ _ _ Hg).
    assert (Hb1 : boards w1 !! b = Some bd) by exact Hb.
    py_step (update_board_ok b (board_add_group (length (groups w))) _ _ Hb1).
    unfold get_world, put_world, mbind, py_bind, mret, py_ret. simpl.
    unfold with_new_group, set_groups, set_boards, group_on. simpl.
    do 3 f_equal.
    replace (length (groups w)) with (length (groups w) + 0)%nat at 1 by lia.
    rewrite insert_app_r. reflexivity.
Qed.

(** C9, as stated, fails where several groups bear the name: on a board
    whose groups 0 and 1 are both called "inst", the constructor's lookup
    returns group 1, not the first match (group 0), and logs nothing. *)
Lemma create_or_get_twin_groups_returns_second :
  GroupManager__create_or_get (Some 0%nat) "inst" twin_groups = Ok (1%nat, twin_groups)
  /\ head (groups_named twin_groups (board_with [0%nat] [0%nat; 1%nat]) "inst")
     = Some 0%nat
  /\ hierpcb_log twin_groups = [].
Proof.
  split; [|split; reflexivity].
  etrans; [apply (create_or_get_run twin_groups 0%nat
                    (board_with [0%nat] [0%nat; 1%nat]) "inst")|reflexivity].
  - reflexivity.
  - intros g Hg. simpl in Hg. apply elem_of_cons in Hg as [->|Hg]; [by eexists|].
    apply elem_of_cons in Hg as [->|Hg]; [by eexists|]. by apply elem_of_nil in Hg.
Qed.

(** C9 (amended): looking a name up on a board returns a group of that name
    when the board has one, and otherwise creates a group of that name and
    registers it on the board; when several groups bear the name, the LAST
    one in the board's order is returned.  Nothing is logged in either case.
    In the resulting world the returned group bears the name and is among the
    board's groups. *)
Theorem create_or_get_last_match_or_new
    (w : World) (b : pcbnew.board_ref) (bd : pcbnew.BOARD) (name : string)
    (Hboard : boards w !! b = Some bd)
    (Hgroups : forall g, g ∈ pcbnew.board_groups bd -> is_Some (groups w !! g)) :
  GroupManager__create_or_get (Some b) name w
  = match last (groups_named w bd name) with
    | Some g => Ok (g, w)
    | None => Ok (length (groups w), with_new_group b bd name w)
    end
  /\ exists g w' bd',
       GroupManager__create_or_get (Some b) name w = Ok (g, w')
       /\ named w' name g = true
       /\ boards w' !! b = Some bd' /\ g ∈ pcbnew.board_groups bd'
       /\ hierpcb_log w' = hierpcb_log w.
Proof.
  split; [by apply create_or_get_run|].
  rewrite (create_or_get_run w b bd name Hboard Hgroups).
  destruct (last (groups_named w bd name)) as [g|] eqn:Hlast.
  - apply last_filter_named in Hlast as [Hin Hn].
    exists g, w, bd. done.
  - exists (length (groups w)), (with_new_group b bd name w),
      (board_add_group (length (groups w)) bd).
    split; [done|]. split; [|split; [|split]].
    + unfold named, with_new_group. simpl.
      rewrite list_lookup_middle by reflexivity. simpl. apply String.eqb_refl.
    + unfold with_new_group. simpl. apply list_lookup_insert_eq.
      by eapply lookup_lt_Some.
    + simpl. apply elem_of_app. right. by left.
    + reflexivity.
Qed.

Lemma create_or_get_last_match_or_new_witness :
  GroupManager__create_or_get (Some 0%nat) "inst" two_boards
  = Ok (0%nat, with_new_group 0%nat (board_with [0%nat] []) "inst" two_boards).
Proof.
  apply (create_or_get_last_match_or_new two_boards 0%nat (board_with [0%nat] []) "inst").
  - reflexivity.
  - intros g Hg. simpl in Hg. by apply elem_of_nil in Hg.
Defined.

(** ** [GroupManager.move] *)

Lemma GetParentGroup_ok i w it :
  items w !! i = Some it -> GetParentGroup i w = Ok (pcbnew.parent_group it, w).
Proof.
  intros H. unfold GetParentGroup. py_step (get_item_ok _ _ _ H). reflexivity.
Qed.

Lemma named_set_items w l name g : named (set_items l w) name g = named w name g.
Proof. reflexivity. Qed.

(** What one call of [move] returns and does. *)
Lemma move_run self i w it own :
  items w !! i = Some it ->
  groups w !! gm_group self = Some own ->
  (forall p, pcbnew.parent_group it = Some p -> is_Some (groups w !! p)) ->
  GroupManager_move self i w
  = Ok (in_foreign_group w (pcbnew.group_name own) it,
        claimed (gm_group self) (pcbnew.group_name own) i it w).
Proof.
  intros Hi Hown Hp. unfold GroupManager_move, claimed, in_foreign_group.
  py_step (GetParentGroup_ok _ _ _ Hi).
  destruct (pcbnew.parent_group it) as [p|] eqn:Hparent.
  - destruct (Hp p eq_refl) as [pg Hpg]. unfold named. rewrite Hpg.
    py_step (PCB_GROUP_GetName_ok _ _ _ Hpg).
    py_step (PCB_GROUP_GetName_ok _ _ _ Hown).
    destruct (String.eqb (pcbnew.group_name pg) (pcbnew.group_name own)); simpl.
    + rewrite bind_ret. reflexivity.
    + unfold PCB_GROUP_RemoveItem.
      py_step (update_item_ok i (fun it0 =>
        if bool_decide (pcbnew.parent_group it0 = Some p)
        then with_parent_group None it0 else it0) _ _ Hi).
      rewrite bind_ret. unfold PCB_GROUP_AddItem.
      rewrite bool_decide_true by done.
      erewrite bind_ok; [reflexivity|].
      erewrite update_item_ok
        by (simpl; apply list_lookup_insert_eq; by eapply lookup_lt_Some).
      simpl. unfold set_items. simpl. rewrite list_insert_insert_eq. reflexivity.
  - rewrite bind_ret. simpl. unfold PCB_GROUP_AddItem.
    py_step (update_item_ok i (with_parent_group (Some (gm_group self))) _ _ Hi).
    reflexivity.
Qed.

(** C7 on the code: [move] compares group names, not groups.  An item that
    sits in another group bearing the managed group's name is left there:
    [move] returns [False], changes nothing, and the item is not a member of
    the managed group afterwards. *)
Theorem move_leaves_item_in_other_group_of_same_name
    (self : GroupManager) (i : pcbnew.item_ref) (w : World)
    (it : pcbnew.BOARD_ITEM) (own pg : pcbnew.PCB_GROUP) (p : pcbnew.group_ref)
    (Hitem : items w !! i = Some it)
    (Hown : groups w !! gm_group self = Some own)
    (Hparent : pcbnew.parent_group it = Some p)
    (Hother : p ≠ gm_group self)
    (Hpg : groups w !! p = Some pg)
    (Hname : pcbnew.group_name pg = pcbnew.group_name own) :
  GroupManager_move self i w = Ok (false, w)
  /\ is_member w (gm_group self) i = false.
Proof.
  assert (Hhome : in_foreign_group w (pcbnew.group_name own) it = false).
  { unfold in_foreign_group, named. rewrite Hparent, Hpg, Hname.
    by rewrite String.eqb_refl. }
  split.
  - rewrite (move_run self i w it own Hitem Hown).
    + rewrite Hhome. do 2 f_equal. unfold claimed. rewrite Hhome, Hparent.
      by rewrite bool_decide_false.
    + intros q Hq. rewrite Hparent in Hq. injection Hq as <-. by eexists.
  - unfold is_member. rewrite Hitem, Hparent. apply bool_decide_eq_false.
    intros [= ->]. done.
Qed.

Lemma move_leaves_item_in_other_group_of_same_name_witness :
  GroupManager_move second_twin 0%nat twin_groups = Ok (false, twin_groups)
  /\ is_member twin_groups (gm_group second_twin) 0%nat = false.
Proof.
  apply (move_leaves_item_in_other_group_of_same_name second_twin 0%nat twin_groups
           (in_group 0%nat (on_board 0%nat (footprint_at 0 0 0)))
           (group_on "inst" 0%nat) (group_on "inst" 0%nat) 0%nat);
    try reflexivity.
  simpl. lia.
Defined.


(** ** [ReplicateContext.__init__] *)

Lemma GetBoard_ok i w it :
  items w !! i = Some it -> GetBoard i w = Ok (pcbnew.parent_board it, w).
Proof.
  intros H. unfold GetBoard. py_step (get_item_ok _ _ _ H). reflexivity.
Qed.

(** The group of the context is looked up, or created, on the board of the
    TEMPLATE anchor. *)
Lemma ReplicateContext_init_run w s t its itt bs bd name :
  items w !! s = Some its ->
  items w !! t = Some itt ->
  pcbnew.parent_board its = Some bs ->
  boards w !! bs = Some bd ->
  (forall g, g ∈ pcbnew.board_groups bd -> is_Some (groups w !! g)) ->
  ReplicateContext___init__ s t name w
  = match last (groups_named w bd name) with
    | Some g => Ok (context_of s t (Some bs) (pcbnew.parent_board itt) g, w)
    | None => Ok (context_of s t (Some bs) (pcbnew.parent_board itt) (length (groups w)),
                  with_new_group bs bd name w)
    end.
Proof.
  intros Hs Ht Hbs Hbd Hgroups. unfold ReplicateContext___init__.
  py_step (GetBoard_ok _ _ _ Hs). py_step (GetBoard_ok _ _ _ Ht).
  rewrite Hbs. unfold GroupManager___init__.
  pose proof (create_or_get_run w bs bd name Hbd Hgroups) as Hrun.
  destruct (last (groups_named w bd name)); py_step Hrun; reflexivity.
Qed.

(** C4 on the code: with the template anchor on board 0 and the target
    anchor on board 1, the context's manager is built over board 0.  The
    group "inst" is created there; the target board has no group. *)
Theorem ReplicateContext_init_registers_group_on_template_board :
  exists w',
    ReplicateContext___init__ 0%nat 1%nat "inst" two_boards
    = Ok (context_of 0%nat 1%nat (Some 0%nat) (Some 1%nat) 0%nat, w')
    /\ groups w' = [group_on "inst" 0%nat]
    /\ boards w' = [board_with [0%nat] [0%nat]; board_with [1%nat] []]
    /\ groups_named w' (board_with [1%nat] []) "inst" = [].
Proof.
  eexists. split; [|split; [|split]].
  - etrans; [eapply (ReplicateContext_init_run two_boards 0%nat 1%nat); try reflexivity|].
    + intros g Hg. by apply elem_of_nil in Hg.
    + reflexivity.
  - reflexivity.
  - reflexivity.
  - reflexivity.
Qed.

(** A consequence for re-runs: the purge removes from [group.GetBoard()],
    which is the template board, so a track copied onto the target board by
    one pass is still there after the purge of the next pass, and the next
    pass adds a second copy. *)
Lemma purge_misses_copies_on_target_board :
  exists w1 w2,
    purge_then_copy_tracks template_with_track = Ok (tt, w1)
    /\ purge_then_copy_tracks w1 = Ok (tt, w2)
    /\ target_items w1 = Some [1%nat; 3%nat]
    /\ target_items w2 = Some [1%nat; 3%nat; 4%nat].
Proof.
  eexists _, _. split; [|split; [|split]]; vm_compute; reflexivity.
Qed.

(** ** [enforce_position_footprints] *)

Lemma global_attr_self {A} attr w :
  global_attr (A := A) "self" attr w = Raise (NameError "self").
Proof. reflexivity. Qed.

(** Called as written, [enforce_position_footprints] stops at line 299. *)
Lemma enforce_position_footprints_raises_NameError Flip_geometry context fpTranslator w :
  enforce_position_footprints Flip_geometry context fpTranslator w
  = Raise (NameError "self").
Proof. reflexivity. Qed.

(** The pad loop stops at the first index the target footprint has no pad
    for. *)
Lemma pad_loop_short t w tgt (l : list pcbnew.PAD) : forall (n : nat) (m : gmap Z Z),
  items w !! t = Some tgt ->
  (n <= length (pcbnew.pads tgt) < n + length l)%nat ->
  for_fold (zip (seq n (length l)) l) m
    (fun '(sourcePadNum, sourcePad) footprintNetMapping =>
      tgt ← get_item t;
      targetPad ← index (pcbnew.pads tgt) sourcePadNum;
      let sourceCode := pcbnew.pad_netcode sourcePad in
      let targetCode := pcbnew.pad_netcode targetPad in
      mret (<[sourceCode := targetCode]> footprintNetMapping)) w
  = Raise IndexError.
Proof.
  induction l as [|sp l IH]; intros n m Ht Hlen; [simpl in Hlen; lia|].
  simpl in Hlen. cbn [length seq zip zip_with for_fold].
  py_step (get_item_ok _ _ _ Ht).
  destruct (pcbnew.pads tgt !! n) as [tp|] eqn:Htp.
  - py_step (index_ok _ _ _ w Htp). rewrite bind_ret.
    apply IH; [done|]. apply lookup_lt_Some in Htp. lia.
  - rewrite ?bind_assoc. apply bind_raise. unfold index. by rewrite Htp.
Qed.

(** C3 on the code: a template footprint with more pads than its counterpart
    never yields a mapping.  Called as written, [enforce_position_footprints]
    raises [NameError] at line 299, before any pad is read; and its pad loop
    (lines 318 to 323), which enumerates the template's pads and indexes the
    target's, raises [IndexError] at the first pad the target lacks.  Neither
    returns a mapping or a world, so no WARNING record exists either. *)
Theorem shorter_target_footprint_yields_no_mapping
    (Flip_geometry : pcbnew.VECTOR2I -> pcbnew.BOARD_ITEM ->
                     pcbnew.VECTOR2I * pcbnew.EDA_ANGLE * list pcbnew.PCB_FIELD)
    (context : ReplicateContext)
    (fpTranslator : pcbnew.item_ref -> option pcbnew.item_ref)
    (s t : pcbnew.item_ref) (m : gmap Z Z) (w : World)
    (src tgt : pcbnew.BOARD_ITEM)
    (Hpair : fpTranslator s = Some t)
    (Hsrc : items w !! s = Some src)
    (Htgt : items w !! t = Some tgt)
    (Hshort : (length (pcbnew.pads tgt) < length (pcbnew.pads src))%nat) :
  enforce_position_footprints Flip_geometry context fpTranslator w
  = Raise (NameError "self")
  /\ record_pad_nets s t m w = Raise IndexError.
Proof.
  split; [reflexivity|].
  unfold record_pad_nets, enumerate. py_step (get_item_ok _ _ _ Hsrc).
  apply (pad_loop_short t w tgt (pcbnew.pads src) 0 m Htgt). lia.
Qed.

Lemma shorter_target_footprint_yields_no_mapping_witness :
  enforce_position_footprints Flip_in_place context_inst pair_0_1 pads_3_vs_2
  = Raise (NameError "self")
  /\ record_pad_nets 0%nat 1%nat ∅ pads_3_vs_2 = Raise IndexError.
Proof.
  apply (shorter_target_footprint_yields_no_mapping Flip_in_place context_inst
           pair_0_1 0%nat 1%nat ∅ pads_3_vs_2
           (with_pads (pads_on [1; 2; 3]) (on_board 0%nat (footprint_at 0 0 0)))
           (with_pads (pads_on [11; 12]) (on_board 1%nat (footprint_at 100 50 0))));
    try reflexivity.
  simpl. lia.
Defined.

(** C6 on the code: a template footprint without counterpart is not skipped
    with a diagnostic.  Called as written, [enforce_position_footprints]
    raises [NameError] at line 299 whatever the pairing resolves, so the
    phase ends there; and the turn of its loop for such a footprint (lines
    309 to 312, [continue]) returns the mapping and the world as they are,
    the log included: the skip itself writes no INFO record. *)
Theorem unpaired_footprint_is_not_reported
    (Flip_geometry : pcbnew.VECTOR2I -> pcbnew.BOARD_ITEM ->
                     pcbnew.VECTOR2I * pcbnew.EDA_ANGLE * list pcbnew.PCB_FIELD)
    (context : ReplicateContext)
    (fpTranslator : pcbnew.item_ref -> option pcbnew.item_ref)
    (sourceFootprint : pcbnew.item_ref)
    (Hnone : fpTranslator sourceFootprint = None) :
  (forall w,
     enforce_position_footprints Flip_geometry context fpTranslator w
     = Raise (NameError "self"))
  /\ (forall m w,
        enforce_position_footprint Flip_geometry context fpTranslator sourceFootprint m w
        = Ok (m, w)).
Proof.
  split; [reflexivity|].
  intros m w. unfold enforce_position_footprint. by rewrite Hnone.
Qed.

Lemma unpaired_footprint_is_not_reported_witness :
  enforce_position_footprints Flip_in_place context_inst no_counterpart two_boards_inst
  = Raise (NameError "self")
  /\ enforce_position_footprint Flip_in_place context_inst no_counterpart 0%nat ∅
       two_boards_inst
     = Ok (∅, two_boards_inst)
  /\ hierpcb_log two_boards_inst = [].
Proof.
  destruct (unpaired_footprint_is_not_reported Flip_in_place context_inst
              no_counterpart 0%nat eq_refl) as [Hrun Hturn].
  split; [apply Hrun|]. split; [apply Hturn|reflexivity].
Defined.


(** ** [copy_traces] *)

(** Run the first call of a sequence, its outcome found by [tac]. *)
Ltac py_run tac :=
  rewrite ?bind_assoc; erewrite bind_ok by tac; cbv beta.

Lemma update_last f w old x :
  items w = old ++ [x] ->
  update_item (length old) f w = Ok (tt, set_items (old ++ [f x]) w).
Proof.
  intros H. unfold update_item. rewrite H, list_lookup_middle by reflexivity.
  do 3 f_equal. replace (length old) with (length old + 0)%nat by lia.
  by rewrite insert_app_r.
Qed.

Lemma get_last w old x :
  items w = old ++ [x] -> get_item (length old) w = Ok (x, w).
Proof. intros H. apply get_item_ok. rewrite H. by apply list_lookup_middle. Qed.

Lemma get_old w old x (i : pcbnew.item_ref) it :
  items w = old ++ [x] -> old !! i = Some it -> get_item i w = Ok (it, w).
Proof. intros H Hi. apply get_item_ok. rewrite H. by apply lookup_app_l_Some. Qed.

Lemma translate_old self p w old x template mutate :
  items w = old ++ [x] ->
  old !! anchor_template self = Some template ->
  old !! anchor_mutate self = Some mutate ->
  translate self p w = Ok (translate_at template mutate p, w).
Proof.
  intros H Ht Hm. apply translate_run; rewrite H; by apply lookup_app_l_Some.
Qed.

Lemma Duplicate_ok (i : pcbnew.item_ref) w it :
  items w !! i = Some it ->
  Duplicate i w = Ok (length (items w), set_items (items w ++ [it]) w).
Proof.
  intros H. unfold Duplicate. py_step (get_item_ok _ _ _ H). reflexivity.
Qed.

Lemma BOARD_Add_last tb tbd w old x :
  items w = old ++ [x] ->
  boards w !! tb = Some tbd ->
  BOARD_Add tb (length old) w
  = Ok (tt, set_items (old ++ [with_parent_board (Some tb) x])
              (set_boards (<[tb := board_add_item (length old) tbd]> (boards w)) w)).
Proof.
  intros H Hb. unfold BOARD_Add.
  py_step (update_board_ok tb (board_add_item (length old)) _ _ Hb).
  by apply update_last.
Qed.

Lemma BOARD_FindNet_ok tb tbd w code :
  boards w !! tb = Some tbd ->
  BOARD_FindNet tb code w
  = Ok (if bool_decide (code = 0 ∨ code ∈ pcbnew.board_nets tbd) then Some code else None, w).
Proof.
  intros H. unfold BOARD_FindNet. py_step (get_board_ok _ _ _ H). reflexivity.
Qed.

Lemma GetNetCode_ok (i : pcbnew.item_ref) w it :
  items w !! i = Some it -> GetNetCode i w = Ok (netcode_of it, w).
Proof.
  intros H. unfold GetNetCode. py_step (get_item_ok _ _ _ H). reflexivity.
Qed.

Lemma set_items_same w : set_items (items w) w = w.
Proof. by destruct w. Qed.

Lemma SetIsFree_if_via_last w old x :
  items w = old ++ [x] ->
  (if bool_decide (pcbnew.item_type x = pcbnew.PCB_VIA)
   then SetIsFree (length old) false else mret tt) w
  = Ok (tt, set_items (old ++ [free_if_via x]) w).
Proof.
  intros H. unfold free_if_via. destruct (bool_decide _).
  - exact (update_last (fun it => with_net (pcbnew.net it) false it) w old x H).
  - by rewrite <- H, set_items_same.
Qed.

Lemma move_last self w old x own :
  items w = old ++ [x] ->
  groups w !! gm_group self = Some own ->
  (forall p, pcbnew.parent_group x = Some p -> is_Some (groups w !! p)) ->
  exists x',
    GroupManager_move self (length old) w
    = Ok (in_foreign_group w (pcbnew.group_name own) x, set_items (old ++ [x']) w)
    /\ (x' = x \/ x' = with_parent_group (Some (gm_group self)) x).
Proof.
  intros H Hown Hp.
  assert (Hx : items w !! length old = Some x)
    by (rewrite H; by apply list_lookup_middle).
  rewrite (move_run self (length old) w x own Hx Hown Hp). unfold claimed.
  destruct (_ || _).
  - exists (with_parent_group (Some (gm_group self)) x). split; [|by right].
    do 3 f_equal. rewrite H. replace (length old) with (length old + 0)%nat by lia.
    by rewrite insert_app_r.
  - exists x. split; [|by left]. by rewrite <- H, set_items_same.
Qed.

Lemma copy_trace_run context netMapping (s : pcbnew.item_ref) w src tb tbd template mutate own :
  items w !! s = Some src ->
  targetBoard context = Some tb ->
  boards w !! tb = Some tbd ->
  items w !! anchor_template (ctx_transform context) = Some template ->
  items w !! anchor_mutate (ctx_transform context) = Some mutate ->
  groups w !! gm_group (ctx_manager context) = Some own ->
  (forall p, pcbnew.parent_group src = Some p -> is_Some (groups w !! p)) ->
  exists copy,
    copy_trace context netMapping s w
    = Ok (tt, set_items (items w ++ [copy])
                (set_boards (<[tb := board_add_item (length (items w)) tbd]> (boards w)) w))
    /\ pcbnew.net copy = mapped_net netMapping tbd (netcode_of src)
    /\ pcbnew.item_type copy = pcbnew.item_type src
    /\ (forall p, pcbnew.parent_group copy = Some p -> is_Some (groups w !! p)).
Proof.
  intros Hs Htb Hbd Ht Hm Hown Hp.
  set (n := length (items w)).
  set (x := free_if_via
              (with_end_point (translate_at template mutate (pcbnew.end_point src))
                 (with_position (translate_at template mutate (pcbnew.position src))
                    (with_net (mapped_net netMapping tbd (netcode_of src))
                       (pcbnew.is_free src) (with_parent_board (Some tb) src))))).
  set (w1 := set_items (items w ++ [x])
               (set_boards (<[tb := board_add_item n tbd]> (boards w)) w)).
  assert (Hpx : forall p, pcbnew.parent_group x = Some p -> is_Some (groups w1 !! p)).
  { intros p. subst x. unfold free_if_via. destruct (bool_decide _); apply Hp. }
  destruct (move_last (ctx_manager context) w1 (items w) x own eq_refl Hown Hpx)
    as (copy & Hmove & Hcopy).
  exists copy. split; [|split; [|split]].
  - unfold copy_trace.
    py_step (Duplicate_ok _ _ _ Hs). rewrite Htb. unfold call_on. rewrite bind_ret.
    py_run ltac:(eapply BOARD_Add_last; [reflexivity|exact Hbd]).
    py_run ltac:(eapply GetNetCode_ok; cbn [items set_items set_boards];
                 by apply lookup_app_l_Some).
    rewrite bind_ret.
    py_run ltac:(eapply BOARD_FindNet_ok; cbn [boards set_items set_boards];
                 apply list_lookup_insert_eq; by eapply lookup_lt_Some).
    unfold SetNet. py_run ltac:(eapply update_last; reflexivity).
    py_run ltac:(eapply get_old; [reflexivity|exact Hs]).
    py_run ltac:(eapply translate_old; [reflexivity|exact Ht|exact Hm]).
    unfold SetStart. py_run ltac:(eapply update_last; reflexivity).
    py_run ltac:(eapply get_old; [reflexivity|exact Hs]).
    py_run ltac:(eapply translate_old; [reflexivity|exact Ht|exact Hm]).
    unfold SetEnd. py_run ltac:(eapply update_last; reflexivity).
    py_run ltac:(eapply get_last; reflexivity).
    py_run ltac:(eapply SetIsFree_if_via_last; reflexivity).
    py_step Hmove. reflexivity.
  - destruct Hcopy as [-> | ->]; subst x; unfold free_if_via;
      destruct (bool_decide _); reflexivity.
  - destruct Hcopy as [-> | ->]; subst x; unfold free_if_via;
      destruct (bool_decide _); reflexivity.
  - intros p. destruct Hcopy as [-> | ->].
    + apply Hpx.
    + simpl. intros [= <-]. by eexists.
Qed.

Lemma copy_traces_loop context netMapping tb template mutate own
    (l : list pcbnew.item_ref) : forall w tbd,
  targetBoard context = Some tb ->
  boards w !! tb = Some tbd ->
  items w !! anchor_template (ctx_transform context) = Some template ->
  items w !! anchor_mutate (ctx_transform context) = Some mutate ->
  groups w !! gm_group (ctx_manager context) = Some own ->
  (forall (i : pcbnew.item_ref) it p,
     items w !! i = Some it -> pcbnew.parent_group it = Some p ->
     is_Some (groups w !! p)) ->
  (forall s, s ∈ l -> is_Some (items w !! s)) ->
  exists w' copies tbd',
    for_each l (copy_trace context netMapping) w = Ok (tt, w')
    /\ items w' = items w ++ copies
    /\ groups w' = groups w
    /\ hierpcb_log w' = hierpcb_log w
    /\ boards w' !! tb = Some tbd'
    /\ pcbnew.board_nets tbd' = pcbnew.board_nets tbd
    /\ pcbnew.board_items tbd'
       = pcbnew.board_items tbd ++ seq (length (items w)) (length l)
    /\ (forall (k : nat) s, l !! k = Some s ->
          exists src copy,
            items w !! s = Some src /\ copies !! k = Some copy
            /\ pcbnew.net copy = mapped_net netMapping tbd (netcode_of src)
            /\ pcbnew.item_type copy = pcbnew.item_type src).
Proof.
  induction l as [|s l IH]; intros w tbd Htb Hbd Ht Hm Hown Hparents Hvalid.
  - exists w, [], tbd. rewrite !app_nil_r. repeat (split; [done|]).
    intros k s Hk. by rewrite lookup_nil in Hk.
  - destruct (Hvalid s) as [src Hs]; [by left|].
    destruct (copy_trace_run context netMapping s w src tb tbd template mutate own
                Hs Htb Hbd Ht Hm Hown (fun p => Hparents s src p Hs))
      as (c & Hstep & Hnet & Hty & Hpc).
    set (w1 := set_items (items w ++ [c]) _) in Hstep.
    destruct (IH w1 (board_add_item (length (items w)) tbd) Htb)
      as (w' & copies & tbd' & Hrun & Hitems & Hg & Hlog & Hbd' & Hnets & Hbi & Hcopies).
    { simpl. apply list_lookup_insert_eq. by eapply lookup_lt_Some. }
    { simpl. by apply lookup_app_l_Some. }
    { simpl. by apply lookup_app_l_Some. }
    { exact Hown. }
    { intros i it p Hi. simpl in Hi. apply lookup_snoc_Some in Hi as [[_ Hi]|[_ <-]].
      - by apply (Hparents i it p).
      - apply Hpc. }
    { intros s' Hs'. simpl. destruct (Hvalid s') as [it' Hit']; [by right|].
      exists it'. by apply lookup_app_l_Some. }
    exists w', (c :: copies), tbd'.
    split; [cbn [for_each]; by rewrite (bind_ok _ _ _ _ _ Hstep)|].
    split; [by rewrite Hitems; simpl; rewrite <- app_assoc|].
    split; [done|]. split; [done|]. split; [done|]. split; [done|]. split.
    + rewrite Hbi. simpl. rewrite length_app, <- app_assoc. simpl.
      by rewrite Nat.add_1_r.
    + intros [|k] s' Hk; simpl in Hk.
      * injection Hk as <-. by exists src, c.
      * destruct (Hcopies k s' Hk) as (src' & copy & Hsrc' & Hcopy & Hnet' & Hty').
        destruct (Hvalid s') as [it' Hit']; [right; by eapply list_elem_of_lookup_2|].
        simpl in Hsrc'. rewrite (lookup_app_l_Some _ _ _ _ Hit') in Hsrc'.
        injection Hsrc' as <-. by exists it', copy.
Qed.

Lemma has_class_valid w classes (i : pcbnew.item_ref) :
  has_class w classes i = true -> is_Some (items w !! i).
Proof. unfold has_class. destruct (items w !! i); [by eexists|discriminate]. Qed.

Lemma mapped_net_mapped (netMapping : gmap Z Z) tbd code target :
  netMapping !! code = Some target ->
  target = 0 \/ target ∈ pcbnew.board_nets tbd ->
  mapped_net netMapping tbd code = Some target.
Proof.
  intros Hm Ht. unfold mapped_net. rewrite Hm.
  change (default 0 (Some target)) with target. by rewrite bool_decide_true.
Qed.

Lemma mapped_net_absent (netMapping : gmap Z Z) tbd code :
  netMapping !! code = None -> mapped_net netMapping tbd code = Some 0.
Proof.
  intros Hm. unfold mapped_net. rewrite Hm.
  change (default 0 None) with 0. rewrite bool_decide_true; [done|by left].
Qed.

(** X16: [copy_traces] completes, and
    the copy of the [k]-th track of the template board is the [k]-th new
    object; it is on the target board and its net is the target board's net
    of the mapped code, or of code 0 when the mapping has no entry for the
    track's net code.  No object that existed before is changed. *)
Lemma copy_traces_remaps_nets context netMapping w sb sbd tb tbd template mutate own :
  sourceBoard context = Some sb ->
  boards w !! sb = Some sbd ->
  targetBoard context = Some tb ->
  boards w !! tb = Some tbd ->
  items w !! anchor_template (ctx_transform context) = Some template ->
  items w !! anchor_mutate (ctx_transform context) = Some mutate ->
  groups w !! gm_group (ctx_manager context) = Some own ->
  (forall (i : pcbnew.item_ref) it p,
     items w !! i = Some it -> pcbnew.parent_group it = Some p ->
     is_Some (groups w !! p)) ->
  exists w' tbd',
    copy_traces context netMapping w = Ok (tt, w')
    /\ boards w' !! tb = Some tbd'
    /\ (forall (i : pcbnew.item_ref) it, items w !! i = Some it -> items w' !! i = Some it)
    /\ (forall (k : nat) s,
          List.filter (has_class w [pcbnew.PCB_TRACK]) (pcbnew.board_items sbd) !! k = Some s ->
          exists src copy,
            items w !! s = Some src
            /\ items w' !! (length (items w) + k)%nat = Some copy
            /\ (length (items w) + k)%nat ∈ pcbnew.board_items tbd'
            /\ pcbnew.item_type copy = pcbnew.item_type src
            /\ pcbnew.net copy = mapped_net netMapping tbd (netcode_of src)
            /\ (forall target, netMapping !! netcode_of src = Some target ->
                  target = 0 \/ target ∈ pcbnew.board_nets tbd ->
                  pcbnew.net copy = Some target)
            /\ (netMapping !! netcode_of src = None -> pcbnew.net copy = Some 0)).
Proof.
  intros Hsb Hsbd Htb Hbd Ht Hm Hown Hparents.
  set (tracks := List.filter (has_class w [pcbnew.PCB_TRACK]) (pcbnew.board_items sbd)).
  destruct (copy_traces_loop context netMapping tb template mutate own tracks w tbd
              Htb Hbd Ht Hm Hown Hparents)
    as (w' & copies & tbd' & Hrun & Hitems & _ & _ & Hbd' & _ & Hbi & Hcopies).
  { intros s Hs. apply list_elem_of_In, filter_In in Hs as [_ Hs].
    by eapply has_class_valid. }
  exists w', tbd'. split; [|split; [done|split]].
  - unfold copy_traces. rewrite Hsb. unfold call_on. rewrite bind_ret.
    unfold BOARD_Tracks, BOARD_items_of. py_step (get_board_ok _ _ _ Hsbd).
    unfold get_world. unfold mbind, py_bind, mret, py_ret. exact Hrun.
  - intros i it Hi. rewrite Hitems. by apply lookup_app_l_Some.
  - intros k s Hk. destruct (Hcopies k s Hk) as (src & copy & Hsrc & Hcopy & Hnet & Hty).
    exists src, copy. split; [done|]. split; [|split; [|split; [done|split; [done|split]]]].
    + rewrite Hitems, lookup_app_r by lia.
      by replace (length (items w) + k - length (items w))%nat with k by lia.
    + rewrite Hbi. apply elem_of_app. right. apply list_elem_of_In, in_seq.
      apply lookup_lt_Some in Hk. lia.
    + intros target Hmapped Htarget. rewrite Hnet. by apply mapped_net_mapped.
    + intros Habsent. rewrite Hnet. by apply mapped_net_absent.
Qed.

(** ** [copy_zones] *)

(** C5 on the code: [copy_zones] raises [NameError] at line 206 whatever it
    is given, before any zone is duplicated: no zone copy ever gets a net
    from the mapping. *)
Theorem copy_zones_raises_NameError
    (context : ReplicateContext) (netMapping : gmap Z Z) (w : World) :
  copy_zones context netMapping w = Raise (NameError "self").
Proof. reflexivity. Qed.

(** ** The run *)

(** C2 on the code: a run never completes.  Whatever the designs, the anchors,
    the group name and the pairing, it ends in an exception: the footprint
    phase raises [NameError] at line 299 if nothing before it has failed.  On
    [two_boards] that is the exception raised. *)
Theorem replicate_never_completes
    (Flip_geometry : pcbnew.VECTOR2I -> pcbnew.BOARD_ITEM ->
                     pcbnew.VECTOR2I * pcbnew.EDA_ANGLE * list pcbnew.PCB_FIELD)
    (sourceAnchorFootprint targetAnchorFootprint : pcbnew.item_ref)
    (groupName : string)
    (fpTranslator : pcbnew.item_ref -> option pcbnew.item_ref) (w : World) :
  (exists e, replicate Flip_geometry sourceAnchorFootprint targetAnchorFootprint
               groupName fpTranslator w = Raise e)
  /\ replicate Flip_in_place 0%nat 1%nat "inst" no_counterpart two_boards
     = Raise (NameError "self").
Proof.
  split.
  - unfold replicate. unfold mbind, py_bind at 1.
    destruct (ReplicateContext___init__ _ _ _ w) as [[context w1]|e]; [|by eexists].
    unfold mbind, py_bind at 1.
    destruct (clear_volatile_items _ w1) as [[[] w2]|e]; [|by eexists].
    exists (NameError "self"). reflexivity.
  - vm_compute. reflexivity.
Qed.

(** ** [clear_volatile_items] *)

Lemma filter_filter_ext {A} (P Q R' : A -> bool) (l : list A) :
  (forall a, Q a && P a = R' a) ->
  List.filter P (List.filter Q l) = List.filter R' l.
Proof.
  intros H. induction l as [|a l IH]; [reflexivity|]. simpl.
  rewrite <- (H a). destruct (Q a); simpl; [destruct (P a)|]; by rewrite IH.
Qed.

Lemma filter_all {A} (P : A -> bool) (l : list A) :
  (forall a, P a = true) -> List.filter P l = l.
Proof.
  intros H. induction l as [|a l IH]; [reflexivity|]. simpl. by rewrite H, IH.
Qed.

Lemma board_keep_all P bd : (forall j, P j = true) -> board_keep P bd = bd.
Proof. intros H. unfold board_keep. rewrite filter_all by done. by destruct bd. Qed.

Lemma board_keep_ext P Q bd : (forall j, P j = Q j) -> board_keep P bd = board_keep Q bd.
Proof. intros H. unfold board_keep. by rewrite (filter_ext P Q H). Qed.

Lemma has_class_insert w classes (i : pcbnew.item_ref) it f (j : pcbnew.item_ref) :
  items w !! i = Some it ->
  pcbnew.item_type (f it) = pcbnew.item_type it ->
  has_class (set_items (<[i := f it]> (items w)) w) classes j = has_class w classes j.
Proof.
  intros Hi Hty. unfold has_class, set_items. cbn [items].
  destruct (decide (i = j)) as [<-|Hne].
  - rewrite list_lookup_insert_eq by (by eapply lookup_lt_Some). by rewrite Hi, Hty.
  - by rewrite list_lookup_insert_ne.
Qed.

Lemma BOARD_RemoveNative_ok b i w bd it :
  boards w !! b = Some bd -> items w !! i = Some it ->
  BOARD_RemoveNative b i w
  = Ok (tt, set_items (<[i := with_parent_group None it]> (items w))
              (set_boards (<[b := board_remove_item i bd]> (boards w)) w)).
Proof.
  intros Hb Hi. unfold BOARD_RemoveNative.
  py_step (update_board_ok b (board_remove_item i) _ _ Hb).
  exact (update_item_ok i (with_parent_group None)
           (set_boards (<[b := board_remove_item i bd]> (boards w)) w) it Hi).
Qed.

(** The purge loop over the members [l], on the group's board [b]. *)
Lemma clear_loop b (l : list pcbnew.item_ref) : forall w bd,
  boards w !! b = Some bd ->
  (forall i, i ∈ l -> is_Some (items w !! i)) ->
  exists w',
    for_each l (clear_volatile_item (Some b)) w = Ok (tt, w')
    /\ groups w' = groups w
    /\ hierpcb_log w' = hierpcb_log w
    /\ (forall j, items w' !! j
                  = (fun it => if survives w l j then it else with_parent_group None it)
                    <$> items w !! j)
    /\ boards w' = <[b := board_keep (survives w l) bd]> (boards w).
Proof.
  induction l as [|i l IH]; intros w bd Hb Hl.
  - exists w. split; [reflexivity|]. split; [done|]. split; [done|]. split.
    + intros j. unfold survives. simpl. by destruct (_ !! j).
    + rewrite board_keep_all by done. symmetry. by apply list_insert_id.
  - destruct (Hl i) as [it Hi]; [by left|].
    assert (Hhc : has_class w itemTypesToRemove i
                  = existsb (pcbnew.isinstance (pcbnew.item_type it)) itemTypesToRemove)
      by (unfold has_class; by rewrite Hi).
    destruct (existsb (pcbnew.isinstance (pcbnew.item_type it)) itemTypesToRemove) eqn:Hvol.
    + pose (w1 := set_items (<[i := with_parent_group None it]> (items w))
                    (set_boards (<[b := board_remove_item i bd]> (boards w)) w)).
      assert (Hstep : clear_volatile_item (Some b) i w = Ok (tt, w1)).
      { unfold clear_volatile_item. py_step (get_item_ok _ _ _ Hi). rewrite Hvol.
        unfold call_on. rewrite bind_ret. by apply BOARD_RemoveNative_ok. }
      assert (Hb1 : boards w1 !! b = Some (board_remove_item i bd)).
      { simpl. apply list_lookup_insert_eq. by eapply lookup_lt_Some. }
      assert (Hl1 : forall k, k ∈ l -> is_Some (items w1 !! k)).
      { intros k Hk. simpl. apply lookup_lt_is_Some. rewrite length_insert.
        apply lookup_lt_is_Some, Hl. by right. }
      destruct (IH w1 _ Hb1 Hl1) as (w' & Hrun & Hg & Hlog & Hitems & Hboards).
      assert (Hsame : forall j, has_class w1 itemTypesToRemove j
                                = has_class w itemTypesToRemove j).
      { intros j. apply (has_class_insert
          (set_boards (<[b:=board_remove_item i bd]> (boards w)) w)
          itemTypesToRemove i it (with_parent_group None) j Hi). reflexivity. }
      exists w'. split; [cbn [for_each]; by rewrite (bind_ok _ _ _ _ _ Hstep)|].
      split; [by rewrite Hg|]. split; [by rewrite Hlog|]. split.
      * intros j. rewrite Hitems. unfold survives. rewrite Hsame. simpl.
        destruct (Nat.eqb_spec j i) as [->|Hne]; simpl.
        -- rewrite list_lookup_insert_eq by (by eapply lookup_lt_Some).
           rewrite Hi, Hhc. simpl. by destruct (negb _).
        -- by rewrite list_lookup_insert_ne.
      * rewrite Hboards. simpl. rewrite list_insert_insert_eq. f_equal.
        unfold board_keep, board_remove_item. simpl. f_equal.
        apply filter_filter_ext. intros j. unfold survives. rewrite Hsame. simpl.
        destruct (Nat.eqb_spec j i) as [->|Hne]; simpl; [by rewrite Hhc|reflexivity].
    + assert (Hstep : clear_volatile_item (Some b) i w = Ok (tt, w)).
      { unfold clear_volatile_item. py_step (get_item_ok _ _ _ Hi). by rewrite Hvol. }
      destruct (IH w bd Hb) as (w' & Hrun & Hg & Hlog & Hitems & Hboards).
      { intros k Hk. apply Hl. by right. }
      assert (Hsame : forall j, survives w (i :: l) j = survives w l j).
      { intros j. unfold survives. simpl.
        destruct (Nat.eqb_spec j i) as [->|Hne]; simpl; [|reflexivity].
        rewrite Hhc. simpl. by rewrite andb_false_r. }
      exists w'. split; [cbn [for_each]; by rewrite (bind_ok _ _ _ _ _ Hstep)|].
      split; [done|]. split; [done|]. split.
      * intros j. by rewrite Hitems, Hsame.
      * rewrite Hboards.
        by rewrite (board_keep_ext (survives w (i :: l)) (survives w l) bd Hsame).
Qed.

Lemma PCB_GROUP_GetBoard_ok g w gr :
  groups w !! g = Some gr -> PCB_GROUP_GetBoard g w = Ok (pcbnew.group_board gr, w).
Proof.
  intros H. unfold PCB_GROUP_GetBoard. py_step (get_group_ok _ _ _ H). reflexivity.
Qed.

Lemma inb_In (j : nat) (l : list nat) : inb j l = true <-> In j l.
Proof.
  unfold inb. rewrite existsb_exists. split.
  - intros (k & Hk & Hjk). apply Nat.eqb_eq in Hjk. by subst.
  - intros H. exists j. split; [done|]. apply Nat.eqb_refl.
Qed.

(** The members [GetItems] lists are the objects whose parent group is the
    group. *)
Lemma member_listed w g (i : pcbnew.item_ref) it :
  items w !! i = Some it -> pcbnew.parent_group it = Some g ->
  inb i (List.filter (is_member w g) (seq 0 (length (items w)))) = true.
Proof.
  intros Hi Hg. apply inb_In, filter_In. split.
  - apply in_seq. apply lookup_lt_Some in Hi. lia.
  - unfold is_member. rewrite Hi. by apply bool_decide_eq_true.
Qed.

Lemma listed_valid w g (i : pcbnew.item_ref) :
  i ∈ List.filter (is_member w g) (seq 0 (length (items w))) -> is_Some (items w !! i).
Proof.
  intros H. apply list_elem_of_In, filter_In in H as [H _]. apply in_seq in H.
  apply lookup_lt_is_Some. lia.
Qed.

Lemma volatile_classes_removed t :
  t ∈ volatile_classes ->
  existsb (pcbnew.isinstance t) itemTypesToRemove = true.
Proof.
  intros H. unfold volatile_classes in H.
  repeat (apply elem_of_cons in H as [->|H]; [reflexivity|]).
  by apply elem_of_nil in H.
Qed.

(** The purge acts on the group's own board, [group.GetBoard()]: every
    member of the group that is a track, a via, a zone, a drawing or a text
    leaves that board's items and the group; every footprint, with its group
    membership and everything else it holds, is the same object after the
    purge and is on that board exactly if it was.  Groups, the other boards
    and the log are unchanged. *)
Lemma clear_volatile_items_on_own_board
    (group : pcbnew.group_ref) (w : World)
    (gr : pcbnew.PCB_GROUP) (b : pcbnew.board_ref) (bd : pcbnew.BOARD)
    (Hgroup : groups w !! group = Some gr)
    (Hregistered : pcbnew.group_board gr = Some b)
    (Hboard : boards w !! b = Some bd) :
  exists w' bd',
    clear_volatile_items group w = Ok (tt, w')
    /\ boards w' !! b = Some bd'
    /\ (forall (i : pcbnew.item_ref) it,
          items w !! i = Some it ->
          pcbnew.parent_group it = Some group ->
          pcbnew.item_type it ∈ volatile_classes ->
          (i ∉ pcbnew.board_items bd') /\ is_member w' group i = false)
    /\ (forall (i : pcbnew.item_ref) it,
          items w !! i = Some it ->
          pcbnew.item_type it = pcbnew.FOOTPRINT ->
          items w' !! i = Some it
          /\ (i ∈ pcbnew.board_items bd' <-> i ∈ pcbnew.board_items bd))
    /\ (forall b0 : pcbnew.board_ref, b0 ≠ b -> boards w' !! b0 = boards w !! b0)
    /\ groups w' = groups w
    /\ hierpcb_log w' = hierpcb_log w.
Proof.
  set (members := List.filter (is_member w group) (seq 0 (length (items w)))).
  destruct (clear_loop b members w bd Hboard (listed_valid w group))
    as (w' & Hrun & Hg & Hlog & Hitems & Hboards).
  exists w', (board_keep (survives w members) bd).
  split; [|split; [|split; [|split; [|split; [|split]]]]].
  - unfold clear_volatile_items. py_step (PCB_GROUP_GetBoard_ok _ _ _ Hgroup).
    rewrite Hregistered. unfold PCB_GROUP_GetItems, get_world.
    unfold mbind, py_bind, mret, py_ret. exact Hrun.
  - rewrite Hboards. apply list_lookup_insert_eq. by eapply lookup_lt_Some.
  - intros i it Hi Hmember Hclass.
    assert (Hgone : survives w members i = false).
    { pose proof (member_listed w group i it Hi Hmember) as Hlisted.
      fold members in Hlisted. unfold survives. rewrite Hlisted.
      unfold has_class. rewrite Hi. by rewrite (volatile_classes_removed _ Hclass). }
    split.
    + intros Hin. apply list_elem_of_In in Hin. simpl in Hin.
      apply filter_In in Hin as [_ Hin]. congruence.
    + unfold is_member. rewrite Hitems, Hi, Hgone. reflexivity.
  - intros i it Hi Hfp.
    assert (Hkept : survives w members i = true).
    { unfold survives, has_class. rewrite Hi, Hfp. simpl. by rewrite andb_false_r. }
    split.
    + by rewrite Hitems, Hi, Hkept.
    + simpl. rewrite !list_elem_of_In, filter_In. rewrite Hkept. tauto.
  - intros b0 Hne. rewrite Hboards. by apply list_lookup_insert_ne.
  - exact Hg.
  - exact Hlog.
Qed.

(** C8 on the code: a member of the group that is on another board than the
    group's is not removed from the design.  The purge calls [RemoveNative]
    on [group.GetBoard()]; the member leaves the group and stays among the
    items of its own board, where no later purge of the group finds it. *)
Theorem clear_volatile_items_misses_members_on_other_boards
    (group : pcbnew.group_ref) (w : World)
    (gr : pcbnew.PCB_GROUP) (b b' : pcbnew.board_ref) (bd bd' : pcbnew.BOARD)
    (i : pcbnew.item_ref) (it : pcbnew.BOARD_ITEM)
    (Hgroup : groups w !! group = Some gr)
    (Hregistered : pcbnew.group_board gr = Some b)
    (Hboard : boards w !! b = Some bd)
    (Hitem : items w !! i = Some it)
    (Hmember : pcbnew.parent_group it = Some group)
    (Hclass : pcbnew.item_type it ∈ volatile_classes)
    (Hother : b' ≠ b)
    (Hboard' : boards w !! b' = Some bd')
    (Hon : i ∈ pcbnew.board_items bd') :
  exists w' bd'',
    clear_volatile_items group w = Ok (tt, w')
    /\ boards w' !! b' = Some bd''
    /\ i ∈ pcbnew.board_items bd''
    /\ is_member w' group i = false
    /\ is_member w group i = true.
Proof.
  destruct (clear_volatile_items_on_own_board group w gr b bd Hgroup Hregistered Hboard)
    as (w' & bd1 & Hrun & _ & Hgone & _ & Hothers & _).
  exists w', bd'. split; [exact Hrun|]. split; [by rewrite (Hothers b' Hother)|].
  split; [exact Hon|]. split.
  - by destruct (Hgone i it Hitem Hmember Hclass).
  - unfold is_member. rewrite Hitem. by apply bool_decide_eq_true.
Qed.

Lemma clear_volatile_items_misses_members_on_other_boards_witness :
  exists w' bd'',
    clear_volatile_items 0%nat stray_copy_design = Ok (tt, w')
    /\ boards w' !! 1%nat = Some bd''
    /\ 3%nat ∈ pcbnew.board_items bd''.
Proof.
  destruct (clear_volatile_items_misses_members_on_other_boards 0%nat stray_copy_design
              (group_on "inst" 0%nat) 0%nat 1%nat
              (board_with [0%nat; 2%nat] [0%nat]) (board_with [1%nat; 3%nat] [])
              3%nat (in_group 0%nat (on_board 1%nat (blank pcbnew.PCB_TRACK))))
    as (w' & bd'' & Hrun & Hbd & Hon & _); try reflexivity.
  - unfold volatile_classes. simpl. by left.
  - done.
  - simpl. by right; left.
  - by exists w', bd''.
Defined.

(** The design of the witness is the one a first pass builds: the groups,
    the boards and every object's class, board and group are those of
    [stray_copy_design]. *)
Lemma first_pass_builds_stray_copy_design :
  exists w1,
    purge_then_copy_tracks template_with_track = Ok (tt, w1)
    /\ groups w1 = groups stray_copy_design
    /\ boards w1 = boards stray_copy_design
    /\ (fun it => (pcbnew.item_type it, pcbnew.parent_board it, pcbnew.parent_group it))
         <$> items w1
       = (fun it => (pcbnew.item_type it, pcbnew.parent_board it, pcbnew.parent_group it))
           <$> items stray_copy_design.
Proof.
  eexists. split; [|split; [|split]]; vm_compute; reflexivity.
Qed.


(** * Further properties *)

(** ** [PositionTransform] *)

Lemma orient_run self a w template mutate :
  items w !! anchor_template self = Some template ->
  items w !! anchor_mutate self = Some mutate ->
  orient self a w = Ok (orient_at template mutate a, w).
Proof.
  intros Ht Hm. unfold orient.
  py_step (get_item_ok _ _ _ Ht). py_step (get_item_ok _ _ _ Hm). reflexivity.
Qed.

(** X2: [orient] sends the template anchor's own orientation to the target
    anchor's orientation, and changes nothing. *)
Theorem orient_maps_anchor_to_anchor
    (self : PositionTransform) (w : World)
    (template mutate : pcbnew.BOARD_ITEM)
    (Htemplate : items w !! anchor_template self = Some template)
    (Hmutate : items w !! anchor_mutate self = Some mutate) :
  orient self (pcbnew.orientation template) w = Ok (pcbnew.orientation mutate, w).
Proof.
  rewrite (orient_run self _ w template mutate Htemplate Hmutate).
  do 2 f_equal. unfold orient_at. lra.
Qed.

Lemma orient_maps_anchor_to_anchor_witness :
  orient anchors_0_1 0%R scenario_rotation = Ok (90%R, scenario_rotation).
Proof.
  apply (orient_maps_anchor_to_anchor anchors_0_1 scenario_rotation
           (footprint_at 0 0 0) (footprint_at 0 0 90)); reflexivity.
Defined.


Lemma Vec_eta p : pcbnew.Vec (pcbnew.x p) (pcbnew.y p) = p.
Proof. by destruct p. Qed.

Lemma translate_at_anchor template mutate :
  translate_at template mutate (pcbnew.position template) = pcbnew.position mutate.
Proof.
  unfold translate_at. cbv zeta. rewrite !Z.sub_diag.
  rewrite <- (Vec_eta (pcbnew.position mutate)) at 3. f_equal.
  - replace (_ + _ + _)%R with (IZR (pcbnew.x (pcbnew.position mutate))) by lra.
    apply py_int_IZR.
  - replace (_ - _ + _)%R with (IZR (pcbnew.y (pcbnew.position mutate))) by lra.
    apply py_int_IZR.
Qed.

(** X3: whatever the two orientations, [translate] sends the template
    anchor's position exactly to the target anchor's position. *)
Theorem translate_maps_anchor_to_anchor
    (self : PositionTransform) (w : World)
    (template mutate : pcbnew.BOARD_ITEM)
    (Htemplate : items w !! anchor_template self = Some template)
    (Hmutate : items w !! anchor_mutate self = Some mutate) :
  translate self (pcbnew.position template) w = Ok (pcbnew.position mutate, w).
Proof.
  rewrite (translate_run self _ w template mutate Htemplate Hmutate).
  by rewrite translate_at_anchor.
Qed.

Lemma translate_maps_anchor_to_anchor_witness :
  translate anchors_0_1 (pcbnew.Vec 0 0) scenario_translation
  = Ok (pcbnew.Vec 100 50, scenario_translation).
Proof.
  apply (translate_maps_anchor_to_anchor anchors_0_1 scenario_translation
           (footprint_at 0 0 0) (footprint_at 100 50 0)); reflexivity.
Defined.

(** X4: when the two anchors have the same orientation, [translate] is the
    shift by the difference of the anchors' positions, with no rounding, and
    [translate] with the anchors exchanged brings every point back exactly. *)
Theorem translate_same_orientation_is_exact_shift
    (self : PositionTransform) (p : pcbnew.VECTOR2I) (w : World)
    (template mutate : pcbnew.BOARD_ITEM)
    (Htemplate : items w !! anchor_template self = Some template)
    (Hmutate : items w !! anchor_mutate self = Some mutate)
    (Hsame : pcbnew.orientation mutate = pcbnew.orientation template) :
  let q := pcbnew.Vec (pcbnew.x p - pcbnew.x (pcbnew.position template)
                       + pcbnew.x (pcbnew.position mutate))
                      (pcbnew.y p - pcbnew.y (pcbnew.position template)
                       + pcbnew.y (pcbnew.position mutate)) in
  translate self p w = Ok (q, w)
  /\ translate (swap_anchors self) q w = Ok (p, w).
Proof.
  intros q. split.
  - rewrite (translate_run self _ w template mutate Htemplate Hmutate).
    by rewrite translate_at_same_orientation.
  - rewrite (translate_run (swap_anchors self) _ w mutate template Hmutate Htemplate).
    rewrite translate_at_same_orientation by done. subst q.
    destruct p as [px py]. simpl. do 2 f_equal. f_equal; lia.
Qed.

Lemma translate_same_orientation_is_exact_shift_witness :
  translate anchors_0_1 (pcbnew.Vec 7 (-3)) scenario_translation
  = Ok (pcbnew.Vec 107 47, scenario_translation).
Proof.
  apply (translate_same_orientation_is_exact_shift anchors_0_1 (pcbnew.Vec 7 (-3))
           scenario_translation (footprint_at 0 0 0) (footprint_at 100 50 0));
    reflexivity.
Defined.

(** ** [GroupManager] *)

Lemma filter_snoc {A} (P : A -> bool) (l : list A) (a : A) :
  List.filter P (l ++ [a]) = List.filter P l ++ (if P a then [a] else []).
Proof. rewrite List.filter_app. reflexivity. Qed.

Lemma named_with_new_group_old w b bd name name' (g : pcbnew.group_ref) :
  is_Some (groups w !! g) ->
  named (with_new_group b bd name w) name' g = named w name' g.
Proof.
  intros [gr Hg]. unfold named, with_new_group. simpl.
  by rewrite (lookup_app_l_Some _ _ _ _ Hg), Hg.
Qed.

Lemma named_with_new_group_new w b bd name :
  named (with_new_group b bd name w) name (length (groups w)) = true.
Proof.
  unfold named, with_new_group. simpl.
  rewrite list_lookup_middle by reflexivity. simpl. apply String.eqb_refl.
Qed.

(** What the lookup returns is a group of that name on the board. *)
Lemma create_or_get_registered w b bd name :
  boards w !! b = Some bd ->
  (forall g, g ∈ pcbnew.board_groups bd -> is_Some (groups w !! g)) ->
  exists g w' bd',
    GroupManager__create_or_get (Some b) name w = Ok (g, w')
    /\ named w' name g = true
    /\ boards w' !! b = Some bd'
    /\ (forall g', g' ∈ pcbnew.board_groups bd' -> is_Some (groups w' !! g'))
    /\ last (groups_named w' bd' name) = Some g
    /\ items w' = items w.
Proof.
  intros Hb Hgroups. rewrite (create_or_get_run w b bd name Hb Hgroups).
  destruct (last (groups_named w bd name)) as [g|] eqn:Hlast.
  - exists g, w, bd. apply last_filter_named in Hlast as Hg. destruct Hg as [_ Hn].
    done.
  - exists (length (groups w)), (with_new_group b bd name w),
      (board_add_group (length (groups w)) bd).
    split; [done|]. split; [apply named_with_new_group_new|]. split; [|split; [|split]].
    + unfold with_new_group. simpl. apply list_lookup_insert_eq. by eapply lookup_lt_Some.
    + intros g' Hg'. simpl in Hg'. apply elem_of_app in Hg' as [Hg'|Hg'].
      * destruct (Hgroups g' Hg') as [gr Hgr]. exists gr.
        unfold with_new_group. simpl. by apply lookup_app_l_Some.
      * apply list_elem_of_singleton in Hg' as ->. unfold with_new_group. simpl.
        rewrite list_lookup_middle by reflexivity. by eexists.
    + unfold groups_named. simpl. rewrite filter_snoc, named_with_new_group_new.
      apply last_snoc.
    + reflexivity.
Qed.

(** X6: looking the same name up a second time returns the same group and
    changes nothing: a group is created at most once. *)
Theorem create_or_get_twice_same_group
    (w : World) (b : pcbnew.board_ref) (bd : pcbnew.BOARD) (name : string)
    (Hboard : boards w !! b = Some bd)
    (Hgroups : forall g, g ∈ pcbnew.board_groups bd -> is_Some (groups w !! g)) :
  exists g w',
    GroupManager__create_or_get (Some b) name w = Ok (g, w')
    /\ GroupManager__create_or_get (Some b) name w' = Ok (g, w').
Proof.
  destruct (create_or_get_registered w b bd name Hboard Hgroups)
    as (g & w' & bd' & Hrun & _ & Hb' & Hg' & Hlast & _).
  exists g, w'. split; [done|].
  by rewrite (create_or_get_run w' b bd' name Hb' Hg'), Hlast.
Qed.

Lemma create_or_get_twice_same_group_witness :
  exists g w',
    GroupManager__create_or_get (Some 0%nat) "inst" two_boards = Ok (g, w')
    /\ GroupManager__create_or_get (Some 0%nat) "inst" w' = Ok (g, w').
Proof.
  apply (create_or_get_twice_same_group two_boards 0%nat (board_with [0%nat] []) "inst").
  - reflexivity.
  - intros g Hg. simpl in Hg. by apply elem_of_nil in Hg.
Defined.

Lemma with_parent_group_same it : with_parent_group (pcbnew.parent_group it) it = it.
Proof. by destruct it. Qed.

(** X7: [move] touches nothing but the parent-group pointer of the item it
    is given: every other object, every group, every board and the log are
    as before, and the item itself differs at most in that pointer. *)
Theorem move_changes_only_the_parent_pointer
    (self : GroupManager) (i : pcbnew.item_ref) (w : World)
    (it : pcbnew.BOARD_ITEM) (own : pcbnew.PCB_GROUP)
    (Hitem : items w !! i = Some it)
    (Hown : groups w !! gm_group self = Some own)
    (Hparent : forall p, pcbnew.parent_group it = Some p -> is_Some (groups w !! p)) :
  exists moved w' it',
    GroupManager_move self i w = Ok (moved, w')
    /\ groups w' = groups w /\ boards w' = boards w
    /\ hierpcb_log w' = hierpcb_log w
    /\ length (items w') = length (items w)
    /\ (forall j : pcbnew.item_ref, j ≠ i -> items w' !! j = items w !! j)
    /\ items w' !! i = Some it'
    /\ it' = with_parent_group (pcbnew.parent_group it') it.
Proof.
  rewrite (move_run self i w it own Hitem Hown Hparent). unfold claimed.
  destruct (_ || _).
  - eexists _, _, (with_parent_group (Some (gm_group self)) it).
    split; [reflexivity|]. simpl. repeat split.
    + apply length_insert.
    + intros j Hj. by apply list_lookup_insert_ne.
    + apply list_lookup_insert_eq. by eapply lookup_lt_Some.
  - eexists _, _, it. split; [reflexivity|]. repeat split; try done.
    by rewrite with_parent_group_same.
Qed.

Lemma move_changes_only_the_parent_pointer_witness :
  exists moved w' it',
    GroupManager_move inst_manager 0%nat other_and_inst = Ok (moved, w')
    /\ items w' !! 1%nat = items other_and_inst !! 1%nat
    /\ items w' !! 0%nat = Some it'.
Proof.
  destruct (move_changes_only_the_parent_pointer inst_manager 0%nat other_and_inst
              (in_group 0%nat (on_board 0%nat (footprint_at 0 0 0)))
              (group_on "inst" 0%nat))
    as (moved & w' & it' & Hrun & _ & _ & _ & _ & Hother & Hit & _).
  - reflexivity.
  - reflexivity.
  - intros p Hp. injection Hp as <-. simpl. eexists. reflexivity.
  - exists moved, w', it'. split; [exact Hrun|]. split; [|exact Hit].
    apply (Hother 1%nat). discriminate.
Defined.

(** X8: when no other group bears the managed name, the item is a member of
    the managed group after [move], and [move] returns [True] exactly when
    the item was in a group before and that group was not the managed one. *)
Theorem move_with_unique_name_makes_member
    (self : GroupManager) (i : pcbnew.item_ref) (w : World)
    (it : pcbnew.BOARD_ITEM) (own : pcbnew.PCB_GROUP)
    (Hitem : items w !! i = Some it)
    (Hown : groups w !! gm_group self = Some own)
    (Hparent : forall p, pcbnew.parent_group it = Some p -> is_Some (groups w !! p))
    (Hunique : forall (p : pcbnew.group_ref) pg,
        groups w !! p = Some pg ->
        pcbnew.group_name pg = pcbnew.group_name own -> p = gm_group self) :
  exists moved w',
    GroupManager_move self i w = Ok (moved, w')
    /\ is_member w' (gm_group self) i = true
    /\ (moved = true <->
        exists p, pcbnew.parent_group it = Some p /\ p ≠ gm_group self).
Proof.
  rewrite (move_run self i w it own Hitem Hown Hparent).
  eexists _, _. split; [reflexivity|]. split.
  - unfold claimed. destruct (in_foreign_group w _ it) eqn:Hf; simpl.
    + unfold is_member. simpl.
      rewrite list_lookup_insert_eq by (by eapply lookup_lt_Some).
      simpl. by apply bool_decide_eq_true.
    + destruct (pcbnew.parent_group it) as [p|] eqn:Hp.
      * rewrite bool_decide_false by done. unfold is_member. rewrite Hitem, Hp.
        apply bool_decide_eq_true. f_equal.
        unfold in_foreign_group in Hf. rewrite Hp in Hf.
        apply negb_false_iff in Hf. unfold named in Hf.
        destruct (groups w !! p) as [pg|] eqn:Hpg; [|discriminate].
        apply String.eqb_eq in Hf. by apply (Hunique p pg).
      * rewrite bool_decide_true by done. unfold is_member. simpl.
        rewrite list_lookup_insert_eq by (by eapply lookup_lt_Some).
        simpl. by apply bool_decide_eq_true.
  - unfold in_foreign_group. destruct (pcbnew.parent_group it) as [p|] eqn:Hp.
    + destruct (Hparent p eq_refl) as [pg Hpg]. unfold named. rewrite Hpg.
      rewrite negb_true_iff. split.
      * intros Hne. exists p. split; [done|]. intros ->.
        rewrite Hown in Hpg. injection Hpg as <-. by rewrite String.eqb_refl in Hne.
      * intros (p' & [= <-] & Hne). apply String.eqb_neq. intros Heq.
        apply Hne. by apply (Hunique p pg).
    + split; [discriminate|]. by intros (p & Hp' & _).
Qed.

Lemma move_with_unique_name_makes_member_witness :
  exists moved w',
    GroupManager_move inst_manager 0%nat other_and_inst = Ok (moved, w')
    /\ is_member w' 1%nat 0%nat = true.
Proof.
  destruct (move_with_unique_name_makes_member inst_manager 0%nat other_and_inst
              (in_group 0%nat (on_board 0%nat (footprint_at 0 0 0)))
              (group_on "inst" 0%nat))
    as (moved & w' & Hrun & Hmember & _).
  - reflexivity.
  - reflexivity.
  - intros p Hp. injection Hp as <-. simpl. eexists. reflexivity.
  - intros [|[|p]] pg Hpg Hname; simpl in Hpg.
    + injection Hpg as <-. discriminate Hname.
    + reflexivity.
    + discriminate Hpg.
  - exists moved, w'. split; [exact Hrun|exact Hmember].
Defined.

(** ** [ReplicateContext.__init__] *)

(** X9: when both anchors are on the same board, the context's manager is
    built over the target design: its board is the target board, its group
    bears the configured name and is registered on that board, and the
    transform holds the two anchors.  No item is changed. *)
Theorem ReplicateContext_init_same_board
    (s t : pcbnew.item_ref) (name : string) (w : World)
    (its itt : pcbnew.BOARD_ITEM) (b : pcbnew.board_ref) (bd : pcbnew.BOARD)
    (Hs : items w !! s = Some its)
    (Ht : items w !! t = Some itt)
    (Hsb : pcbnew.parent_board its = Some b)
    (Htb : pcbnew.parent_board itt = Some b)
    (Hboard : boards w !! b = Some bd)
    (Hgroups : forall g, g ∈ pcbnew.board_groups bd -> is_Some (groups w !! g)) :
  exists context w' bd',
    ReplicateContext___init__ s t name w = Ok (context, w')
    /\ gm_board (ctx_manager context) = targetBoard context
    /\ targetBoard context = Some b
    /\ sourceBoard context = Some b
    /\ ctx_transform context = {| anchor_template := s; anchor_mutate := t |}
    /\ named w' name (gm_group (ctx_manager context)) = true
    /\ boards w' !! b = Some bd'
    /\ gm_group (ctx_manager context) ∈ pcbnew.board_groups bd'
    /\ items w' = items w.
Proof.
  destruct (create_or_get_registered w b bd name Hboard Hgroups)
    as (g & w' & bd' & Hrun & Hn & Hb' & _ & Hlast & Hitems).
  exists (context_of s t (Some b) (Some b) g), w', bd'.
  split.
  - unfold ReplicateContext___init__.
    py_step (GetBoard_ok _ _ _ Hs). py_step (GetBoard_ok _ _ _ Ht).
    rewrite Hsb, Htb. unfold GroupManager___init__. py_step Hrun. reflexivity.
  - repeat (split; [done|]). split; [|done].
    by apply last_filter_named in Hlast as [Hin _].
Qed.

Lemma ReplicateContext_init_same_board_witness :
  exists context w' bd',
    ReplicateContext___init__ 0%nat 1%nat "inst" one_board = Ok (context, w')
    /\ gm_board (ctx_manager context) = targetBoard context
    /\ boards w' !! 0%nat = Some bd'
    /\ gm_group (ctx_manager context) ∈ pcbnew.board_groups bd'.
Proof.
  destruct (ReplicateContext_init_same_board 0%nat 1%nat "inst" one_board
              (on_board 0%nat (footprint_at 0 0 0))
              (on_board 0%nat (footprint_at 100 50 0)) 0%nat
              (board_with [0%nat; 1%nat] []))
    as (context & w' & bd' & Hrun & Hboard & _ & _ & _ & _ & Hbd' & Hin & _).
  - reflexivity.
  - reflexivity.
  - reflexivity.
  - reflexivity.
  - reflexivity.
  - intros g Hg. simpl in Hg. by apply elem_of_nil in Hg.
  - by exists context, w', bd'.
Defined.

(** X10: when the template anchor is on no board, building the context
    fails with [AttributeError]: [GroupManager._create_or_get] calls
    [Groups()] on [None]. *)
Theorem ReplicateContext_init_without_board_raises
    (s t : pcbnew.item_ref) (name : string) (w : World)
    (its itt : pcbnew.BOARD_ITEM)
    (Hs : items w !! s = Some its)
    (Ht : items w !! t = Some itt)
    (Hloose : pcbnew.parent_board its = None) :
  ReplicateContext___init__ s t name w = Raise (AttributeError "Groups").
Proof.
  unfold ReplicateContext___init__.
  py_step (GetBoard_ok _ _ _ Hs). py_step (GetBoard_ok _ _ _ Ht).
  rewrite Hloose. reflexivity.
Qed.

Lemma ReplicateContext_init_without_board_raises_witness :
  ReplicateContext___init__ 0%nat 1%nat "inst" loose_anchors
  = Raise (AttributeError "Groups").
Proof.
  apply (ReplicateContext_init_without_board_raises 0%nat 1%nat "inst" loose_anchors
           (footprint_at 0 0 0) (footprint_at 100 50 0)); reflexivity.
Defined.

(** ** [clear_volatile_items] *)

Lemma World_eq w w' :
  items w' = items w -> groups w' = groups w -> boards w' = boards w ->
  hierpcb_log w' = hierpcb_log w -> w' = w.
Proof. destruct w, w'. simpl. by intros -> -> -> ->. Qed.

(** A loop over members none of which is of a class to remove does nothing,
    whatever the board is. *)
Lemma clear_loop_nothing_to_remove board (l : list pcbnew.item_ref) w :
  (forall i, i ∈ l -> is_Some (items w !! i)) ->
  (forall i, i ∈ l -> has_class w itemTypesToRemove i = false) ->
  for_each l (clear_volatile_item board) w = Ok (tt, w).
Proof.
  induction l as [|i l IH]; intros Hvalid Hkeep; [reflexivity|].
  destruct (Hvalid i) as [it Hi]; [by left|].
  assert (Hstep : clear_volatile_item board i w = Ok (tt, w)).
  { unfold clear_volatile_item. py_step (get_item_ok _ _ _ Hi).
    pose proof (Hkeep i (list_elem_of_here _ _)) as Hc. unfold has_class in Hc.
    rewrite Hi in Hc. by rewrite Hc. }
  cbn [for_each]. rewrite (bind_ok _ _ _ _ _ Hstep).
  apply IH; intros j Hj; [apply Hvalid|apply Hkeep]; by right.
Qed.

Lemma listed_member w g (i : pcbnew.item_ref) :
  i ∈ List.filter (is_member w g) (seq 0 (length (items w))) -> is_member w g i = true.
Proof. intros H. by apply list_elem_of_In, filter_In in H as [_ H]. Qed.

Lemma clear_volatile_items_nothing_to_remove group w gr :
  groups w !! group = Some gr ->
  (forall i : pcbnew.item_ref,
     is_member w group i = true -> has_class w itemTypesToRemove i = false) ->
  clear_volatile_items group w = Ok (tt, w).
Proof.
  intros Hg Hkeep. unfold clear_volatile_items.
  py_step (PCB_GROUP_GetBoard_ok _ _ _ Hg).
  unfold PCB_GROUP_GetItems, get_world. unfold mbind, py_bind, mret, py_ret.
  apply clear_loop_nothing_to_remove.
  - apply listed_valid.
  - intros i Hi. apply Hkeep. by eapply listed_member.
Qed.

(** X11: a purge of a group none of whose members is a track, via, zone,
    drawing or text changes nothing at all; the group's board is not even
    looked at, so the group may be on no board. *)
Theorem clear_volatile_items_without_volatile_members
    (group : pcbnew.group_ref) (w : World) (gr : pcbnew.PCB_GROUP)
    (Hgroup : groups w !! group = Some gr)
    (Hkeep : forall (i : pcbnew.item_ref) it,
        items w !! i = Some it -> pcbnew.parent_group it = Some group ->
        pcbnew.item_type it = pcbnew.FOOTPRINT) :
  clear_volatile_items group w = Ok (tt, w).
Proof.
  apply (clear_volatile_items_nothing_to_remove group w gr Hgroup).
  intros i Hm. unfold is_member in Hm. unfold has_class.
  destruct (items w !! i) as [it|] eqn:Hi; [|done].
  apply bool_decide_eq_true in Hm. by rewrite (Hkeep i it Hi Hm).
Qed.

Lemma clear_volatile_items_without_volatile_members_witness :
  clear_volatile_items 0%nat footprints_only = Ok (tt, footprints_only).
Proof.
  apply (clear_volatile_items_without_volatile_members 0%nat footprints_only
           (group_on "inst" 0%nat)).
  - reflexivity.
  - intros [|[|[|i]]] it Hi Hp; simpl in Hi.
    + by injection Hi as <-.
    + by injection Hi as <-.
    + injection Hi as <-. discriminate Hp.
    + discriminate Hi.
Defined.

(** X12: the purge is idempotent: a second purge of the same group, right
    after the first, changes nothing. *)
Theorem clear_volatile_items_idempotent
    (group : pcbnew.group_ref) (w : World)
    (gr : pcbnew.PCB_GROUP) (b : pcbnew.board_ref) (bd : pcbnew.BOARD)
    (Hgroup : groups w !! group = Some gr)
    (Hregistered : pcbnew.group_board gr = Some b)
    (Hboard : boards w !! b = Some bd) :
  exists w',
    clear_volatile_items group w = Ok (tt, w')
    /\ clear_volatile_items group w' = Ok (tt, w').
Proof.
  set (members := List.filter (is_member w group) (seq 0 (length (items w)))).
  destruct (clear_loop b members w bd Hboard (listed_valid w group))
    as (w' & Hrun & Hg & Hlog & Hitems & Hboards).
  exists w'. split.
  - unfold clear_volatile_items. py_step (PCB_GROUP_GetBoard_ok _ _ _ Hgroup).
    rewrite Hregistered. unfold PCB_GROUP_GetItems, get_world.
    unfold mbind, py_bind, mret, py_ret. exact Hrun.
  - apply (clear_volatile_items_nothing_to_remove group w' gr); [by rewrite Hg|].
    intros i Hm. unfold is_member in Hm. unfold has_class.
    rewrite Hitems in Hm |- *.
    destruct (items w !! i) as [it|] eqn:Hi; [|done]. simpl in Hm |- *.
    destruct (survives w members i) eqn:Hsurv.
    + apply bool_decide_eq_true in Hm.
      pose proof (member_listed w group i it Hi Hm) as Hlisted. fold members in Hlisted.
      unfold survives in Hsurv. rewrite Hlisted in Hsurv. simpl in Hsurv.
      apply negb_true_iff in Hsurv. unfold has_class in Hsurv. by rewrite Hi in Hsurv.
    + done.
Qed.

Lemma clear_volatile_items_idempotent_witness :
  exists w',
    clear_volatile_items 0%nat grouped_design = Ok (tt, w')
    /\ clear_volatile_items 0%nat w' = Ok (tt, w').
Proof.
  apply (clear_volatile_items_idempotent 0%nat grouped_design
           (group_on "inst" 0%nat) 0%nat
           (board_with [0; 1; 2; 3; 4; 5; 6]%nat [0%nat])); reflexivity.
Defined.

Lemma clear_loop_without_board (l : list pcbnew.item_ref) w :
  (forall i, i ∈ l -> is_Some (items w !! i)) ->
  (exists i, i ∈ l /\ has_class w itemTypesToRemove i = true) ->
  for_each l (clear_volatile_item None) w = Raise (AttributeError "RemoveNative").
Proof.
  induction l as [|i l IH]; intros Hvalid (k & Hk & Hvol).
  { by apply elem_of_nil in Hk. }
  destruct (Hvalid i) as [it Hi]; [by left|].
  destruct (has_class w itemTypesToRemove i) eqn:Hc.
  - cbn [for_each]. apply bind_raise. unfold clear_volatile_item.
    py_step (get_item_ok _ _ _ Hi). unfold has_class in Hc. rewrite Hi in Hc.
    by rewrite Hc.
  - assert (Hstep : clear_volatile_item None i w = Ok (tt, w)).
    { unfold clear_volatile_item. py_step (get_item_ok _ _ _ Hi).
      unfold has_class in Hc. rewrite Hi in Hc. by rewrite Hc. }
    cbn [for_each]. rewrite (bind_ok _ _ _ _ _ Hstep). apply IH.
    + intros j Hj. apply Hvalid. by right.
    + exists k. split; [|done]. apply elem_of_cons in Hk as [->|Hk]; [|done].
      congruence.
Qed.

(** X13: the purge of a group that is on no board fails with
    [AttributeError] as soon as the group has a member of a class to remove:
    [RemoveNative] is called on [None]. *)
Theorem clear_volatile_items_unregistered_group_raises
    (group : pcbnew.group_ref) (w : World) (gr : pcbnew.PCB_GROUP)
    (i : pcbnew.item_ref) (it : pcbnew.BOARD_ITEM)
    (Hgroup : groups w !! group = Some gr)
    (Hloose : pcbnew.group_board gr = None)
    (Hitem : items w !! i = Some it)
    (Hmember : pcbnew.parent_group it = Some group)
    (Hclass : pcbnew.item_type it ∈ volatile_classes) :
  clear_volatile_items group w = Raise (AttributeError "RemoveNative").
Proof.
  unfold clear_volatile_items. py_step (PCB_GROUP_GetBoard_ok _ _ _ Hgroup).
  rewrite Hloose. unfold PCB_GROUP_GetItems, get_world.
  unfold mbind, py_bind, mret, py_ret.
  apply clear_loop_without_board; [apply listed_valid|].
  exists i. split.
  - apply list_elem_of_In, inb_In. by eapply member_listed.
  - unfold has_class. rewrite Hitem. by apply volatile_classes_removed.
Qed.

Lemma clear_volatile_items_unregistered_group_raises_witness :
  clear_volatile_items 0%nat loose_group = Raise (AttributeError "RemoveNative").
Proof.
  apply (clear_volatile_items_unregistered_group_raises 0%nat loose_group
           {| pcbnew.group_name := "inst"; pcbnew.group_board := None |}
           1%nat (in_group 0%nat (blank pcbnew.PCB_TRACK))); try reflexivity.
  unfold volatile_classes. simpl. by left.
Defined.

(** ** The copy loops *)

Lemma move_last_named self w old x own :
  items w = old ++ [x] ->
  groups w !! gm_group self = Some own ->
  (forall p, pcbnew.parent_group x = Some p -> is_Some (groups w !! p)) ->
  exists x',
    GroupManager_move self (length old) w
    = Ok (in_foreign_group w (pcbnew.group_name own) x, set_items (old ++ [x']) w)
    /\ x' = with_parent_group (pcbnew.parent_group x') x
    /\ in_group_named (groups w) (pcbnew.group_name own) x'.
Proof.
  intros H Hown Hp.
  assert (Hx : items w !! length old = Some x)
    by (rewrite H; by apply list_lookup_middle).
  rewrite (move_run self (length old) w x own Hx Hown Hp). unfold claimed.
  destruct (in_foreign_group w (pcbnew.group_name own) x) eqn:Hf; simpl.
  - exists (with_parent_group (Some (gm_group self)) x). split; [|split; [done|]].
    + do 3 f_equal. rewrite H. replace (length old) with (length old + 0)%nat by lia.
      by rewrite insert_app_r.
    + by exists (gm_group self), own.
  - destruct (pcbnew.parent_group x) as [p|] eqn:Hpx.
    + rewrite bool_decide_false by done. exists x.
      split; [by rewrite <- H, set_items_same|]. split; [by rewrite with_parent_group_same|].
      unfold in_foreign_group in Hf. rewrite Hpx in Hf. apply negb_false_iff in Hf.
      unfold named in Hf. destruct (groups w !! p) as [pg|] eqn:Hpg; [|discriminate].
      apply String.eqb_eq in Hf. by exists p, pg.
    + rewrite bool_decide_true by done.
      exists (with_parent_group (Some (gm_group self)) x). split; [|split; [done|]].
      * do 3 f_equal. rewrite H. replace (length old) with (length old + 0)%nat by lia.
        by rewrite insert_app_r.
      * by exists (gm_group self), own.
Qed.

Section CopyLoop.

Variable context : ReplicateContext.
Variables template mutate : pcbnew.BOARD_ITEM.
Variable grs : list pcbnew.PCB_GROUP.
Variable tb : pcbnew.board_ref.
Variable tbd0 : pcbnew.BOARD.
Variable body : pcbnew.item_ref -> py unit.
Variable made_of : pcbnew.BOARD_ITEM -> pcbnew.BOARD_ITEM -> Prop.

(** One turn of the loop appends one object, made of the source object, whose
    parent group is one of the world's groups. *)
Hypothesis body_step : forall w (s : pcbnew.item_ref) src tbd,
  copy_ready context template mutate grs w ->
  items w !! s = Some src ->
  boards w !! tb = Some tbd ->
  pcbnew.board_nets tbd = pcbnew.board_nets tbd0 ->
  exists copy,
    body s w = Ok (tt, appended tb tbd copy w)
    /\ made_of src copy
    /\ (forall p, pcbnew.parent_group copy = Some p -> is_Some (grs !! p)).

Lemma copy_ready_appended w tbd copy :
  copy_ready context template mutate grs w ->
  (forall p, pcbnew.parent_group copy = Some p -> is_Some (grs !! p)) ->
  copy_ready context template mutate grs (appended tb tbd copy w).
Proof.
  intros (Ht & Hm & Hg & Hp) Hcopy. unfold copy_ready, appended. simpl.
  split; [by apply lookup_app_l_Some|]. split; [by apply lookup_app_l_Some|].
  split; [done|].
  intros i it p Hi. apply lookup_snoc_Some in Hi as [[_ Hi]|[_ <-]].
  - by apply (Hp i it p).
  - apply Hcopy.
Qed.

Lemma copy_loop (l : list pcbnew.item_ref) : forall w tbd,
  copy_ready context template mutate grs w ->
  boards w !! tb = Some tbd ->
  pcbnew.board_nets tbd = pcbnew.board_nets tbd0 ->
  (forall s, s ∈ l -> is_Some (items w !! s)) ->
  exists w' copies tbd',
    for_each l body w = Ok (tt, w')
    /\ items w' = items w ++ copies
    /\ length copies = length l
    /\ groups w' = groups w
    /\ hierpcb_log w' = hierpcb_log w
    /\ boards w' = <[tb := tbd']> (boards w)
    /\ pcbnew.board_nets tbd' = pcbnew.board_nets tbd
    /\ pcbnew.board_groups tbd' = pcbnew.board_groups tbd
    /\ pcbnew.board_items tbd'
       = pcbnew.board_items tbd ++ seq (length (items w)) (length l)
    /\ (forall (k : nat) s, l !! k = Some s ->
          exists src copy,
            items w !! s = Some src /\ copies !! k = Some copy /\ made_of src copy).
Proof.
  induction l as [|s l IH]; intros w tbd Hready Hbd Hnets Hvalid.
  - exists w, [], tbd. rewrite !app_nil_r. repeat (split; [done|]).
    split; [symmetry; by apply list_insert_id|]. repeat (split; [done|]).
    intros k s Hk. by rewrite lookup_nil in Hk.
  - destruct (Hvalid s) as [src Hs]; [by left|].
    destruct (body_step w s src tbd Hready Hs Hbd Hnets) as (c & Hstep & Hmade & Hpc).
    destruct (IH (appended tb tbd c w) (board_add_item (length (items w)) tbd))
      as (w' & copies & tbd' & Hrun & Hitems & Hlen & Hg & Hlog & Hboards & Hn & Hgr
          & Hbi & Hcopies).
    { by apply copy_ready_appended. }
    { simpl. apply list_lookup_insert_eq. by eapply lookup_lt_Some. }
    { exact Hnets. }
    { intros s' Hs'. simpl. destruct (Hvalid s') as [it' Hit']; [by right|].
      exists it'. by apply lookup_app_l_Some. }
    exists w', (c :: copies), tbd'.
    split; [cbn [for_each]; by rewrite (bind_ok _ _ _ _ _ Hstep)|].
    split; [by rewrite Hitems; simpl; rewrite <- app_assoc|].
    split; [simpl; by rewrite Hlen|]. split; [done|]. split; [done|].
    split; [rewrite Hboards; simpl; by rewrite list_insert_insert_eq|].
    split; [done|]. split; [done|]. split.
    + rewrite Hbi. simpl. rewrite length_app, <- app_assoc. simpl.
      by rewrite Nat.add_1_r.
    + intros [|k] s' Hk; simpl in Hk.
      * injection Hk as <-. by exists src, c.
      * destruct (Hcopies k s' Hk) as (src' & copy & Hsrc' & Hcopy & Hmade').
        destruct (Hvalid s') as [it' Hit']; [right; by eapply list_elem_of_lookup_2|].
        simpl in Hsrc'. rewrite (lookup_app_l_Some _ _ _ _ Hit') in Hsrc'.
        injection Hsrc' as <-. by exists it', copy.
Qed.

End CopyLoop.

(** ** [copy_traces], further *)

Lemma copy_trace_step context netMapping template mutate grs tb tbd0 own :
  targetBoard context = Some tb ->
  grs !! gm_group (ctx_manager context) = Some own ->
  forall w (s : pcbnew.item_ref) src tbd,
  copy_ready context template mutate grs w ->
  items w !! s = Some src ->
  boards w !! tb = Some tbd ->
  pcbnew.board_nets tbd = pcbnew.board_nets tbd0 ->
  exists copy,
    copy_trace context netMapping s w = Ok (tt, appended tb tbd copy w)
    /\ (track_copy_of netMapping tb tbd0 template mutate src copy
        /\ in_group_named grs (pcbnew.group_name own) copy)
    /\ (forall p, pcbnew.parent_group copy = Some p -> is_Some (grs !! p)).
Proof.
  intros Htb Hown w s src tbd (Ht & Hm & Hg & Hp) Hs Hbd Hnets.
  set (x := free_if_via
              (with_end_point (translate_at template mutate (pcbnew.end_point src))
                 (with_position (translate_at template mutate (pcbnew.position src))
                    (with_net (mapped_net netMapping tbd (netcode_of src))
                       (pcbnew.is_free src) (with_parent_board (Some tb) src))))).
  set (w1 := set_items (items w ++ [x])
               (set_boards (<[tb := board_add_item (length (items w)) tbd]> (boards w)) w)).
  assert (Hown1 : groups w1 !! gm_group (ctx_manager context) = Some own)
    by (simpl; by rewrite Hg).
  assert (Hpx : forall p, pcbnew.parent_group x = Some p -> is_Some (groups w1 !! p)).
  { intros p. subst x. unfold free_if_via. simpl. rewrite Hg.
    destruct (bool_decide _); apply (Hp s src p Hs). }
  destruct (move_last_named (ctx_manager context) w1 (items w) x own eq_refl Hown1 Hpx)
    as (copy & Hmove & Hcopy & Hnamed).
  simpl in Hnamed. rewrite Hg in Hnamed.
  exists copy. split; [|split; [split; [|exact Hnamed]|]].
  - unfold copy_trace, appended.
    py_step (Duplicate_ok _ _ _ Hs). rewrite Htb. unfold call_on. rewrite bind_ret.
    py_run ltac:(eapply BOARD_Add_last; [reflexivity|exact Hbd]).
    py_run ltac:(eapply GetNetCode_ok; cbn [items set_items set_boards];
                 by apply lookup_app_l_Some).
    rewrite bind_ret.
    py_run ltac:(eapply BOARD_FindNet_ok; cbn [boards set_items set_boards];
                 apply list_lookup_insert_eq; by eapply lookup_lt_Some).
    unfold SetNet. py_run ltac:(eapply update_last; reflexivity).
    py_run ltac:(eapply get_old; [reflexivity|exact Hs]).
    py_run ltac:(eapply translate_old; [reflexivity|exact Ht|exact Hm]).
    unfold SetStart. py_run ltac:(eapply update_last; reflexivity).
    py_run ltac:(eapply get_old; [reflexivity|exact Hs]).
    py_run ltac:(eapply translate_old; [reflexivity|exact Ht|exact Hm]).
    unfold SetEnd. py_run ltac:(eapply update_last; reflexivity).
    py_run ltac:(eapply get_last; reflexivity).
    py_run ltac:(eapply SetIsFree_if_via_last; reflexivity).
    py_step Hmove. reflexivity.
  - unfold track_copy_of. rewrite Hcopy. subst x. unfold free_if_via, mapped_net.
    simpl. rewrite Hnets.
    destruct (bool_decide (pcbnew.item_type src = pcbnew.PCB_VIA)); done.
  - intros p Hpc. destruct Hnamed as (p' & gr & Hp' & Hgr & _).
    rewrite Hpc in Hp'. injection Hp' as <-. by eexists.
Qed.

(** What [copy_traces] does, from the loop lemma. *)
Lemma copy_traces_placed context netMapping w sb sbd tb tbd template mutate own :
  sourceBoard context = Some sb ->
  boards w !! sb = Some sbd ->
  targetBoard context = Some tb ->
  boards w !! tb = Some tbd ->
  copy_ready context template mutate (groups w) w ->
  groups w !! gm_group (ctx_manager context) = Some own ->
  let tracks := List.filter (has_class w [pcbnew.PCB_TRACK]) (pcbnew.board_items sbd) in
  exists w' copies tbd',
    copy_traces context netMapping w = Ok (tt, w')
    /\ items w' = items w ++ copies
    /\ length copies = length tracks
    /\ groups w' = groups w
    /\ hierpcb_log w' = hierpcb_log w
    /\ boards w' = <[tb := tbd']> (boards w)
    /\ pcbnew.board_nets tbd' = pcbnew.board_nets tbd
    /\ pcbnew.board_groups tbd' = pcbnew.board_groups tbd
    /\ pcbnew.board_items tbd'
       = pcbnew.board_items tbd ++ seq (length (items w)) (length tracks)
    /\ (forall (k : nat) s, tracks !! k = Some s ->
          exists src copy,
            items w !! s = Some src /\ copies !! k = Some copy
            /\ (track_copy_of netMapping tb tbd template mutate src copy
                /\ in_group_named (groups w) (pcbnew.group_name own) copy)).
Proof.
  intros Hsb Hsbd Htb Hbd Hready Hown tracks.
  destruct (copy_loop context template mutate (groups w) tb tbd
              (copy_trace context netMapping)
              (fun src copy =>
                 track_copy_of netMapping tb tbd template mutate src copy
                 /\ in_group_named (groups w) (pcbnew.group_name own) copy)
              (copy_trace_step context netMapping template mutate (groups w) tb tbd own
                 Htb Hown)
              tracks w tbd Hready Hbd eq_refl)
    as (w' & copies & tbd' & Hrun & Hrest).
  { intros s Hs. apply list_elem_of_In, filter_In in Hs as [_ Hs].
    by eapply has_class_valid. }
  exists w', copies, tbd'. split; [|exact Hrest].
  unfold copy_traces. rewrite Hsb. unfold call_on. rewrite bind_ret.
  unfold BOARD_Tracks, BOARD_items_of. py_step (get_board_ok _ _ _ Hsbd).
  unfold get_world. unfold mbind, py_bind, mret, py_ret. exact Hrun.
Qed.

Lemma template_with_track_inst_ungrouped (i : pcbnew.item_ref) it p :
  items template_with_track_inst !! i = Some it ->
  pcbnew.parent_group it = Some p ->
  is_Some (groups template_with_track_inst !! p).
Proof.
  destruct i as [|[|[|i]]]; simpl; intros Hi Hp;
    [injection Hi as <-; discriminate Hp ..|discriminate Hi].
Qed.

Lemma copy_traces_remaps_nets_witness :
  exists w' tbd',
    copy_traces context_inst ∅ template_with_track_inst = Ok (tt, w')
    /\ boards w' !! 1%nat = Some tbd'.
Proof.
  destruct (copy_traces_remaps_nets context_inst ∅ template_with_track_inst
              0%nat (board_add_group 0%nat (board_with [0%nat; 2%nat] []))
              1%nat (board_with [1%nat] [])
              (on_board 0%nat (footprint_at 0 0 0))
              (on_board 1%nat (footprint_at 100 50 0))
              (group_on "inst" 0%nat))
    as (w' & tbd' & Hrun & Hbd & _); try reflexivity.
  - apply template_with_track_inst_ungrouped.
  - by exists w', tbd'.
Defined.

(** X17: [copy_traces] completes and places one copy per track of the
    template board: the copy of the [k]-th track is the [k]-th new object; it
    is of the same class, on the target board, its start and its end are the
    images of the track's start and end under [translate], a via's free flag
    is cleared, and it is in a group that bears the managed name. *)
Theorem copy_traces_places_copies
    (context : ReplicateContext) (netMapping : gmap Z Z) (w : World)
    (sb tb : pcbnew.board_ref) (sbd tbd : pcbnew.BOARD)
    (template mutate : pcbnew.BOARD_ITEM) (own : pcbnew.PCB_GROUP)
    (Hsb : sourceBoard context = Some sb)
    (Hsbd : boards w !! sb = Some sbd)
    (Htb : targetBoard context = Some tb)
    (Htbd : boards w !! tb = Some tbd)
    (Htemplate : items w !! anchor_template (ctx_transform context) = Some template)
    (Hmutate : items w !! anchor_mutate (ctx_transform context) = Some mutate)
    (Hown : groups w !! gm_group (ctx_manager context) = Some own)
    (Hparents : forall (i : pcbnew.item_ref) it p,
        items w !! i = Some it -> pcbnew.parent_group it = Some p ->
        is_Some (groups w !! p)) :
  exists w',
    copy_traces context netMapping w = Ok (tt, w')
    /\ forall (k : nat) s,
         List.filter (has_class w [pcbnew.PCB_TRACK]) (pcbnew.board_items sbd) !! k = Some s ->
         exists src copy,
           items w !! s = Some src
           /\ items w' !! (length (items w) + k)%nat = Some copy
           /\ track_copy_of netMapping tb tbd template mutate src copy
           /\ in_group_named (groups w') (pcbnew.group_name own) copy.
Proof.
  destruct (copy_traces_placed context netMapping w sb sbd tb tbd template mutate own
              Hsb Hsbd Htb Htbd (conj Htemplate (conj Hmutate (conj eq_refl Hparents))) Hown)
    as (w' & copies & tbd' & Hrun & Hitems & _ & Hg & _ & _ & _ & _ & _ & Hcopies).
  exists w'. split; [done|]. intros k s Hk.
  destruct (Hcopies k s Hk) as (src & copy & Hsrc & Hcopy & Hplaced & Hnamed).
  exists src, copy. split; [done|]. split; [|by rewrite Hg].
  rewrite Hitems, lookup_app_r by lia.
  by replace (length (items w) + k - length (items w))%nat with k by lia.
Qed.

Lemma copy_traces_places_copies_witness :
  exists w',
    copy_traces context_inst ∅ template_with_track_inst = Ok (tt, w')
    /\ exists copy, items w' !! 3%nat = Some copy
                    /\ pcbnew.parent_board copy = Some 1%nat.
Proof.
  destruct (copy_traces_places_copies context_inst ∅ template_with_track_inst
              0%nat 1%nat (board_add_group 0%nat (board_with [0%nat; 2%nat] []))
              (board_with [1%nat] [])
              (on_board 0%nat (footprint_at 0 0 0))
              (on_board 1%nat (footprint_at 100 50 0))
              (group_on "inst" 0%nat))
    as (w' & Hrun & Hcopies); try reflexivity.
  - apply template_with_track_inst_ungrouped.
  - exists w'. split; [exact Hrun|].
    destruct (Hcopies 0%nat 2%nat eq_refl) as (src & copy & _ & Hcopy & Hplaced & _).
    exists copy. split; [exact Hcopy|]. by destruct Hplaced as (_ & Hboard & _).
Defined.

(** X18: [copy_traces] creates exactly one object per track of the template
    board and nothing else: the new objects are appended to the target
    board's items in the template's order; no object that existed is changed;
    groups, the log, every other board, and the target board's groups and
    nets are as before. *)
Theorem copy_traces_adds_one_object_per_track
    (context : ReplicateContext) (netMapping : gmap Z Z) (w : World)
    (sb tb : pcbnew.board_ref) (sbd tbd : pcbnew.BOARD)
    (template mutate : pcbnew.BOARD_ITEM) (own : pcbnew.PCB_GROUP)
    (Hsb : sourceBoard context = Some sb)
    (Hsbd : boards w !! sb = Some sbd)
    (Htb : targetBoard context = Some tb)
    (Htbd : boards w !! tb = Some tbd)
    (Htemplate : items w !! anchor_template (ctx_transform context) = Some template)
    (Hmutate : items w !! anchor_mutate (ctx_transform context) = Some mutate)
    (Hown : groups w !! gm_group (ctx_manager context) = Some own)
    (Hparents : forall (i : pcbnew.item_ref) it p,
        items w !! i = Some it -> pcbnew.parent_group it = Some p ->
        is_Some (groups w !! p)) :
  let tracks := List.filter (has_class w [pcbnew.PCB_TRACK]) (pcbnew.board_items sbd) in
  exists w' tbd',
    copy_traces context netMapping w = Ok (tt, w')
    /\ length (items w') = (length (items w) + length tracks)%nat
    /\ (forall (i : pcbnew.item_ref) it, items w !! i = Some it -> items w' !! i = Some it)
    /\ groups w' = groups w
    /\ hierpcb_log w' = hierpcb_log w
    /\ boards w' !! tb = Some tbd'
    /\ pcbnew.board_items tbd'
       = pcbnew.board_items tbd ++ seq (length (items w)) (length tracks)
    /\ pcbnew.board_groups tbd' = pcbnew.board_groups tbd
    /\ pcbnew.board_nets tbd' = pcbnew.board_nets tbd
    /\ (forall b : pcbnew.board_ref, b ≠ tb -> boards w' !! b = boards w !! b).
Proof.
  intros tracks.
  destruct (copy_traces_placed context netMapping w sb sbd tb tbd template mutate own
              Hsb Hsbd Htb Htbd (conj Htemplate (conj Hmutate (conj eq_refl Hparents))) Hown)
    as (w' & copies & tbd' & Hrun & Hitems & Hlen & Hg & Hlog & Hboards & Hn & Hgr
        & Hbi & _).
  exists w', tbd'. split; [done|].
  split; [by rewrite Hitems, length_app, Hlen|].
  split; [intros i it Hi; rewrite Hitems; by apply lookup_app_l_Some|].
  split; [done|]. split; [done|].
  split; [rewrite Hboards; apply list_lookup_insert_eq; by eapply lookup_lt_Some|].
  split; [done|]. split; [done|]. split; [done|].
  intros b Hb. rewrite Hboards. by apply list_lookup_insert_ne.
Qed.

Lemma copy_traces_adds_one_object_per_track_witness :
  exists w' tbd',
    copy_traces context_inst ∅ template_with_track_inst = Ok (tt, w')
    /\ length (items w') = 4%nat
    /\ boards w' !! 1%nat = Some tbd'
    /\ pcbnew.board_items tbd' = [1%nat; 3%nat].
Proof.
  destruct (copy_traces_adds_one_object_per_track context_inst ∅ template_with_track_inst
              0%nat 1%nat (board_add_group 0%nat (board_with [0%nat; 2%nat] []))
              (board_with [1%nat] [])
              (on_board 0%nat (footprint_at 0 0 0))
              (on_board 1%nat (footprint_at 100 50 0))
              (group_on "inst" 0%nat))
    as (w' & tbd' & Hrun & Hlen & _ & _ & _ & Hbd & Hbi & _); try reflexivity.
  - apply template_with_track_inst_ungrouped.
  - by exists w', tbd'.
Defined.

(** ** [copy_drawings] *)

Lemma copy_drawings_unfold context :
  copy_drawings context
  = (sb ← call_on (sourceBoard context) "GetDrawings";
     drawings ← BOARD_GetDrawings sb;
     for_each drawings (copy_drawing context)).
Proof. reflexivity. Qed.

Lemma RotatePoint_self p a : RotatePoint p p a = p.
Proof.
  destruct p as [px py]. unfold RotatePoint. cbn [pcbnew.x pcbnew.y].
  rewrite !Z.sub_diag. f_equal.
  - replace (_ + _ + _)%R with (IZR px) by lra. apply py_int_IZR.
  - replace (_ - _ + _)%R with (IZR py) by lra. apply py_int_IZR.
Qed.

Lemma orient_old self a w old x template mutate :
  items w = old ++ [x] ->
  old !! anchor_template self = Some template ->
  old !! anchor_mutate self = Some mutate ->
  orient self a w = Ok (orient_at template mutate a, w).
Proof.
  intros H Ht Hm. apply orient_run; rewrite H; by apply lookup_app_l_Some.
Qed.

Lemma copy_drawing_step context template mutate grs tb tbd0 own :
  targetBoard context = Some tb ->
  grs !! gm_group (ctx_manager context) = Some own ->
  forall w (s : pcbnew.item_ref) src tbd,
  copy_ready context template mutate grs w ->
  items w !! s = Some src ->
  boards w !! tb = Some tbd ->
  pcbnew.board_nets tbd = pcbnew.board_nets tbd0 ->
  exists copy,
    copy_drawing context s w = Ok (tt, appended tb tbd copy w)
    /\ (drawing_copy_of tb template mutate src copy
        /\ in_group_named grs (pcbnew.group_name own) copy)
    /\ (forall p, pcbnew.parent_group copy = Some p -> is_Some (grs !! p)).
Proof.
  intros Htb Hown w s src tbd (Ht & Hm & Hg & Hp) Hs Hbd Hnets.
  set (p := translate_at template mutate (pcbnew.position src)).
  set (a := orient_at template mutate pcbnew.ANGLE_0).
  set (x0 := with_parent_board (Some tb) src).
  set (delta := vec_add p (vec_neg (pcbnew.position x0))).
  set (x1 := with_fields (move_field delta <$> pcbnew.fields x0)
               (with_geometry p (vec_add (pcbnew.end_point x0) delta)
                  (pcbnew.orientation x0) (pcbnew.flipped x0) x0)).
  set (x := with_geometry (RotatePoint (pcbnew.position x1) (pcbnew.position x1) a)
              (RotatePoint (pcbnew.end_point x1) (pcbnew.position x1) a)
              (pcbnew.orientation x1 + a)%R (pcbnew.flipped x1) x1).
  set (w1 := set_items (items w ++ [x])
               (set_boards (<[tb := board_add_item (length (items w)) tbd]> (boards w)) w)).
  assert (Hown1 : groups w1 !! gm_group (ctx_manager context) = Some own)
    by (simpl; by rewrite Hg).
  assert (Hpx : forall q, pcbnew.parent_group x = Some q -> is_Some (groups w1 !! q)).
  { intros q. simpl. rewrite Hg. apply (Hp s src q Hs). }
  destruct (move_last_named (ctx_manager context) w1 (items w) x own eq_refl Hown1 Hpx)
    as (copy & Hmove & Hcopy & Hnamed).
  simpl in Hnamed. rewrite Hg in Hnamed.
  exists copy. split; [|split; [split; [|exact Hnamed]|]].
  - unfold copy_drawing, appended.
    py_step (Duplicate_ok _ _ _ Hs). rewrite Htb. unfold call_on. rewrite bind_ret.
    py_run ltac:(eapply BOARD_Add_last; [reflexivity|exact Hbd]).
    py_run ltac:(eapply get_old; [reflexivity|exact Hs]).
    py_run ltac:(eapply translate_old; [reflexivity|exact Ht|exact Hm]).
    unfold SetPosition. py_run ltac:(eapply update_last; reflexivity).
    py_run ltac:(eapply get_last; reflexivity).
    py_run ltac:(eapply orient_old; [reflexivity|exact Ht|exact Hm]).
    unfold Rotate. py_run ltac:(eapply update_last; reflexivity).
    py_step Hmove. reflexivity.
  - unfold drawing_copy_of. rewrite Hcopy. simpl.
    repeat (split; [reflexivity|]). split; [apply RotatePoint_self|done].
  - intros q Hpc. destruct Hnamed as (p' & gr & Hp' & Hgr & _).
    rewrite Hpc in Hp'. injection Hp' as <-. by eexists.
Qed.

Lemma template_with_drawings_ungrouped (i : pcbnew.item_ref) it p :
  items template_with_drawings !! i = Some it ->
  pcbnew.parent_group it = Some p ->
  is_Some (groups template_with_drawings !! p).
Proof.
  destruct i as [|[|[|[|[|i]]]]]; simpl; intros Hi Hp;
    [injection Hi as <-; discriminate Hp ..|discriminate Hi].
Qed.

(** X19: [copy_drawings] completes and makes one copy per drawing or text
    of the template board, and nothing else: the copy of the [k]-th one is the
    [k]-th new object, of the same class, on the target board, at the image
    of the drawing's position under [translate], turned by the difference of
    the anchors' orientations, and in a group that bears the managed name.
    No object that existed is changed; groups and the log are as before. *)
Theorem copy_drawings_places_copies
    (context : ReplicateContext) (w : World)
    (sb tb : pcbnew.board_ref) (sbd tbd : pcbnew.BOARD)
    (template mutate : pcbnew.BOARD_ITEM) (own : pcbnew.PCB_GROUP)
    (Hsb : sourceBoard context = Some sb)
    (Hsbd : boards w !! sb = Some sbd)
    (Htb : targetBoard context = Some tb)
    (Htbd : boards w !! tb = Some tbd)
    (Htemplate : items w !! anchor_template (ctx_transform context) = Some template)
    (Hmutate : items w !! anchor_mutate (ctx_transform context) = Some mutate)
    (Hown : groups w !! gm_group (ctx_manager context) = Some own)
    (Hparents : forall (i : pcbnew.item_ref) it p,
        items w !! i = Some it -> pcbnew.parent_group it = Some p ->
        is_Some (groups w !! p)) :
  let drawings :=
    List.filter (has_class w [pcbnew.PCB_SHAPE; pcbnew.PCB_TEXT]) (pcbnew.board_items sbd) in
  exists w' tbd',
    copy_drawings context w = Ok (tt, w')
    /\ length (items w') = (length (items w) + length drawings)%nat
    /\ (forall (i : pcbnew.item_ref) it, items w !! i = Some it -> items w' !! i = Some it)
    /\ groups w' = groups w
    /\ hierpcb_log w' = hierpcb_log w
    /\ boards w' !! tb = Some tbd'
    /\ pcbnew.board_items tbd'
       = pcbnew.board_items tbd ++ seq (length (items w)) (length drawings)
    /\ (forall (k : nat) s, drawings !! k = Some s ->
          exists src copy,
            items w !! s = Some src
            /\ items w' !! (length (items w) + k)%nat = Some copy
            /\ drawing_copy_of tb template mutate src copy
            /\ in_group_named (groups w') (pcbnew.group_name own) copy).
Proof.
  intros drawings.
  destruct (copy_loop context template mutate (groups w) tb tbd
              (copy_drawing context)
              (fun src copy =>
                 drawing_copy_of tb template mutate src copy
                 /\ in_group_named (groups w) (pcbnew.group_name own) copy)
              (copy_drawing_step context template mutate (groups w) tb tbd own Htb Hown)
              drawings w tbd (conj Htemplate (conj Hmutate (conj eq_refl Hparents)))
              Htbd eq_refl)
    as (w' & copies & tbd' & Hrun & Hitems & Hlen & Hg & Hlog & Hboards & _ & _
        & Hbi & Hcopies).
  { intros s Hs. apply list_elem_of_In, filter_In in Hs as [_ Hs].
    by eapply has_class_valid. }
  exists w', tbd'. split.
  { rewrite copy_drawings_unfold, Hsb. unfold call_on. rewrite bind_ret.
    unfold BOARD_GetDrawings, BOARD_items_of. py_step (get_board_ok _ _ _ Hsbd).
    unfold get_world. unfold mbind, py_bind, mret, py_ret. exact Hrun. }
  split; [by rewrite Hitems, length_app, Hlen|].
  split; [intros i it Hi; rewrite Hitems; by apply lookup_app_l_Some|].
  split; [done|]. split; [done|].
  split; [rewrite Hboards; apply list_lookup_insert_eq; by eapply lookup_lt_Some|].
  split; [done|].
  intros k s Hk. destruct (Hcopies k s Hk) as (src & copy & Hsrc & Hcopy & Hplaced & Hnamed).
  exists src, copy. split; [done|]. split; [|by rewrite Hg].
  rewrite Hitems, lookup_app_r by lia.
  by replace (length (items w) + k - length (items w))%nat with k by lia.
Qed.

Lemma copy_drawings_places_copies_witness :
  exists w' tbd',
    copy_drawings context_inst template_with_drawings = Ok (tt, w')
    /\ length (items w') = 7%nat
    /\ boards w' !! 1%nat = Some tbd'
    /\ pcbnew.board_items tbd' = [1%nat; 5%nat; 6%nat].
Proof.
  destruct (copy_drawings_places_copies context_inst template_with_drawings
              0%nat 1%nat (board_with [0; 2; 3; 4]%nat [0%nat]) (board_with [1%nat] [])
              (on_board 0%nat (footprint_at 0 0 0))
              (on_board 1%nat (footprint_at 100 50 0))
              (group_on "inst" 0%nat))
    as (w' & tbd' & Hrun & Hlen & _ & _ & _ & Hbd & Hbi & _); try reflexivity.
  - apply template_with_drawings_ungrouped.
  - by exists w', tbd'.
Defined.

(** ** Footprints *)

Lemma retarget_same (t : pcbnew.item_ref) c w : items w !! t = Some c -> retarget t c w = w.
Proof.
  intros H. unfold retarget. rewrite list_insert_id by done. apply set_items_same.
Qed.

Lemma retarget_retarget (t : pcbnew.item_ref) c c' w :
  retarget t c (retarget t c' w) = retarget t c w.
Proof. unfold retarget, set_items. simpl. by rewrite list_insert_insert_eq. Qed.

Lemma lookup_retarget_eq (t : pcbnew.item_ref) c w :
  is_Some (items w !! t) -> items (retarget t c w) !! t = Some c.
Proof. intros H. simpl. apply list_lookup_insert_eq. by apply lookup_lt_is_Some. Qed.

Lemma lookup_retarget_ne (s t : pcbnew.item_ref) c w :
  s ≠ t -> items (retarget t c w) !! s = items w !! s.
Proof. intros H. simpl. by apply list_lookup_insert_ne. Qed.

Lemma update_retarget (t : pcbnew.item_ref) f c w :
  is_Some (items w !! t) ->
  update_item t f (retarget t c w) = Ok (tt, retarget t (f c) w).
Proof.
  intros H. rewrite (update_item_ok t f _ c (lookup_retarget_eq t c w H)).
  by rewrite <- (retarget_retarget t (f c) c w).
Qed.

Lemma get_retarget_eq (t : pcbnew.item_ref) c w :
  is_Some (items w !! t) -> get_item t (retarget t c w) = Ok (c, retarget t c w).
Proof. intros H. apply get_item_ok. by apply lookup_retarget_eq. Qed.

Lemma get_retarget_ne (s t : pcbnew.item_ref) c w it :
  s ≠ t -> items w !! s = Some it -> get_item s (retarget t c w) = Ok (it, retarget t c w).
Proof. intros Hne H. apply get_item_ok. by rewrite lookup_retarget_ne. Qed.

Lemma translate_retarget (s t : pcbnew.item_ref) p c w src :
  s ≠ t -> items w !! s = Some src -> is_Some (items w !! t) ->
  translate {| anchor_template := s; anchor_mutate := t |} p (retarget t c w)
  = Ok (translate_at src c p, retarget t c w).
Proof.
  intros Hne Hs Ht. apply translate_run; simpl.
  - by rewrite list_lookup_insert_ne.
  - apply list_lookup_insert_eq. by apply lookup_lt_is_Some.
Qed.

Lemma orient_retarget (s t : pcbnew.item_ref) a c w src :
  s ≠ t -> items w !! s = Some src -> is_Some (items w !! t) ->
  orient {| anchor_template := s; anchor_mutate := t |} a (retarget t c w)
  = Ok (orient_at src c a, retarget t c w).
Proof.
  intros Hne Hs Ht. apply orient_run; simpl.
  - by rewrite list_lookup_insert_ne.
  - apply list_lookup_insert_eq. by apply lookup_lt_is_Some.
Qed.

Lemma with_fields_same it : with_fields (pcbnew.fields it) it = it.
Proof. by destruct it. Qed.

(** The first loop of [copy_footprint_fields] removes one field per turn. *)
Lemma remove_fields_loop {A} (t : pcbnew.item_ref) w c (l : list A) : forall fs,
  is_Some (items w !! t) ->
  for_each l (fun _ =>
    update_item t (fun it => with_fields (drop 1 (pcbnew.fields it)) it))
    (retarget t (with_fields fs c) w)
  = Ok (tt, retarget t (with_fields (drop (length l) fs) c) w).
Proof.
  induction l as [|a l IH]; intros fs Ht; [by rewrite drop_0|].
  cbn [for_each length].
  rewrite (bind_ok _ _ _ _ _ (update_retarget t _ (with_fields fs c) w Ht)).
  cbn [with_fields pcbnew.fields]. 
  change (with_fields (drop 1 fs) (with_fields fs c)) with (with_fields (drop 1 fs) c).
  rewrite IH by done. by rewrite drop_drop.
Qed.

Lemma vec_add_sub p q : vec_add q (vec_add p (vec_neg q)) = p.
Proof. destruct p, q. unfold vec_add, vec_neg. simpl. f_equal; lia. Qed.

Lemma new_field_is_field_copy src c sf :
  let p := translate_at src c (pcbnew.field_position sf) in
  let nf := move_field (vec_add p (vec_neg (pcbnew.field_position sf))) sf in
  rotate_field (pcbnew.field_position nf) (orient_at src c pcbnew.ANGLE_0) nf
  = field_copy src c sf.
Proof.
  intros p nf. unfold rotate_field, field_copy. subst nf. simpl.
  f_equal. rewrite RotatePoint_self. apply vec_add_sub.
Qed.

(** The second loop appends one transformed copy per template field. *)
Lemma add_fields_loop (s t : pcbnew.item_ref) w src c (l : list pcbnew.PCB_FIELD) :
  s ≠ t -> items w !! s = Some src -> is_Some (items w !! t) ->
  forall fs,
  for_each l (fun sourceField =>
    let newField := sourceField in
    p ← translate {| anchor_template := s; anchor_mutate := t |}
          (pcbnew.field_position sourceField);
    let newField := move_field (vec_add p (vec_neg (pcbnew.field_position newField))) newField in
    a ← orient {| anchor_template := s; anchor_mutate := t |} pcbnew.ANGLE_0;
    let newField := rotate_field (pcbnew.field_position newField) a newField in
    update_item t (fun it => with_fields (pcbnew.fields it ++ [newField]) it))
    (retarget t (with_fields fs c) w)
  = Ok (tt, retarget t (with_fields (fs ++ (field_copy src c <$> l)) c) w).
Proof.
  intros Hne Hs Ht. induction l as [|sf l IH]; intros fs.
  { simpl. by rewrite app_nil_r. }
  cbn [for_each]. cbv zeta.
  py_step (translate_retarget s t (pcbnew.field_position sf) (with_fields fs c) w src
             Hne Hs Ht).
  py_step (orient_retarget s t pcbnew.ANGLE_0 (with_fields fs c) w src Hne Hs Ht).
  rewrite (bind_ok _ _ _ _ _ (update_retarget t _ (with_fields fs c) w Ht)).
  change (translate_at src (with_fields fs c)) with (translate_at src c).
  change (orient_at src (with_fields fs c)) with (orient_at src c).
  rewrite (new_field_is_field_copy src c sf).
  cbn [with_fields pcbnew.fields].
  change (with_fields (fs ++ [field_copy src c sf]) (with_fields fs c))
    with (with_fields (fs ++ [field_copy src c sf]) c).
  rewrite IH. simpl. by rewrite <- app_assoc.
Qed.

Lemma copy_footprint_fields_run (s t : pcbnew.item_ref) w src c :
  s ≠ t -> items w !! s = Some src -> is_Some (items w !! t) ->
  copy_footprint_fields s t (retarget t c w)
  = Ok (tt, retarget t (with_fields (mirrored_fields src c) c) w).
Proof.
  intros Hne Hs Ht. unfold copy_footprint_fields. cbv zeta.
  py_step (get_retarget_eq t c w Ht).
  rewrite <- (with_fields_same c) at 2.
  py_step (remove_fields_loop t w c (pcbnew.fields c) (pcbnew.fields c) Ht).
  rewrite drop_all.
  py_step (get_retarget_ne s t (with_fields [] c) w src Hne Hs).
  py_step (add_fields_loop s t w src c (pcbnew.fields src) Hne Hs Ht []).
  unfold SetReference. rewrite (update_retarget t _ _ w Ht). reflexivity.
Qed.

(** X21: [copy_footprint_fields] on two distinct footprints discards every
    field of the target and gives it one field per template field, in the
    template's order: each at the image of the template field's position
    under the pair's own transform, turned by the difference of the two
    orientations, with the template's text, except that the first field
    carries the reference the target had before.  Nothing else of the target
    and no other object changes. *)
Theorem copy_footprint_fields_mirrors_template
    (s t : pcbnew.item_ref) (w : World) (src tgt : pcbnew.BOARD_ITEM)
    (Hdistinct : s ≠ t)
    (Hs : items w !! s = Some src)
    (Ht : items w !! t = Some tgt) :
  exists w' fs,
    copy_footprint_fields s t w = Ok (tt, w')
    /\ items w' !! t = Some (with_fields fs tgt)
    /\ length fs = length (pcbnew.fields src)
    /\ (forall k sf, pcbnew.fields src !! k = Some sf ->
          exists f, fs !! k = Some f
            /\ pcbnew.field_position f = translate_at src tgt (pcbnew.field_position sf)
            /\ pcbnew.field_angle f
               = (pcbnew.field_angle sf
                  + (pcbnew.orientation tgt - pcbnew.orientation src))%R
            /\ pcbnew.field_text f
               = match k with O => reference_of tgt | S _ => pcbnew.field_text sf end)
    /\ (forall j : pcbnew.item_ref, j ≠ t -> items w' !! j = items w !! j)
    /\ groups w' = groups w /\ boards w' = boards w /\ hierpcb_log w' = hierpcb_log w.
Proof.
  assert (Hsome : is_Some (items w !! t)) by eauto.
  pose proof (copy_footprint_fields_run s t w src tgt Hdistinct Hs Hsome) as Hrun.
  rewrite (retarget_same t tgt w Ht) in Hrun.
  eexists _, (mirrored_fields src tgt). split; [exact Hrun|].
  split; [by apply lookup_retarget_eq|].
  split; [unfold mirrored_fields; by rewrite length_alter, length_fmap|].
  split; [|split; [|done]].
  - intros k sf Hk. unfold mirrored_fields. destruct k as [|k].
    + exists (set_field_text (reference_of tgt) (field_copy src tgt sf)). split.
      * rewrite list_lookup_alter_eq, list_lookup_fmap, Hk. reflexivity.
      * simpl. repeat split. unfold orient_at, pcbnew.ANGLE_0. f_equal. lra.
    + exists (field_copy src tgt sf). split.
      * rewrite list_lookup_alter_ne by done. by rewrite list_lookup_fmap, Hk.
      * simpl. repeat split. unfold orient_at, pcbnew.ANGLE_0. f_equal. lra.
  - intros j Hj. by apply lookup_retarget_ne.
Qed.

Lemma copy_footprint_fields_mirrors_template_witness :
  exists w' fs,
    copy_footprint_fields 0%nat 1%nat paired_footprints = Ok (tt, w')
    /\ length fs = 2%nat
    /\ pcbnew.field_text <$> fs = ["R101"; "10k"].
Proof.
  destruct (copy_footprint_fields_mirrors_template 0%nat 1%nat paired_footprints
              _ _ ltac:(done) eq_refl eq_refl)
    as (w' & fs & Hrun & _ & Hlen & Hfs & _).
  exists w', fs. split; [exact Hrun|]. split; [exact Hlen|].
  destruct (Hfs 0%nat _ eq_refl) as (f0 & H0 & _ & _ & T0).
  destruct (Hfs 1%nat _ eq_refl) as (f1 & H1 & _ & _ & T1).
  destruct fs as [|a [|b [|c fs]]]; try discriminate Hlen.
  simpl in H0, H1. injection H0 as ->. injection H1 as ->.
  simpl. by rewrite T0, T1.
Defined.

Lemma RotatePoint_zero p c : RotatePoint p c 0%R = p.
Proof.
  destruct p as [px py], c as [cx cy]. unfold RotatePoint. cbn [pcbnew.x pcbnew.y].
  rewrite radians_0, sin_0, cos_0. f_equal.
  - rewrite <- (py_int_IZR px) at 2. f_equal. rewrite !minus_IZR. lra.
  - rewrite <- (py_int_IZR py) at 2. f_equal. rewrite !minus_IZR. lra.
Qed.

Lemma with_geometry_same it :
  with_geometry (pcbnew.position it) (pcbnew.end_point it) (pcbnew.orientation it)
                (pcbnew.flipped it) it = it.
Proof. by destruct it. Qed.

(** [SetPosition] to the position the footprint has moves nothing. *)
Lemma set_position_same it :
  (let delta := vec_add (pcbnew.position it) (vec_neg (pcbnew.position it)) in
   with_fields (move_field delta <$> pcbnew.fields it)
     (with_geometry (pcbnew.position it) (vec_add (pcbnew.end_point it) delta)
                    (pcbnew.orientation it) (pcbnew.flipped it) it)) = it.
Proof.
  cbv zeta.
  assert (Hd : vec_add (pcbnew.position it) (vec_neg (pcbnew.position it))
               = pcbnew.Vec 0 0).
  { destruct (pcbnew.position it). unfold vec_add, vec_neg. simpl. f_equal; lia. }
  rewrite Hd.
  assert (He : vec_add (pcbnew.end_point it) (pcbnew.Vec 0 0) = pcbnew.end_point it).
  { destruct (pcbnew.end_point it). unfold vec_add. simpl. f_equal; lia. }
  rewrite He.
  assert (Hf : move_field (pcbnew.Vec 0 0) <$> pcbnew.fields it = pcbnew.fields it).
  { rewrite <- (list_fmap_id (pcbnew.fields it)) at 2. apply list_fmap_ext.
    intros _ [txt [px py] a] _. unfold move_field, vec_add. simpl.
    by rewrite !Z.add_0_r. }
  rewrite Hf. by destruct it.
Qed.

(** [SetOrientation] to the orientation the footprint has turns nothing. *)
Lemma set_orientation_same it a :
  a = pcbnew.orientation it ->
  (let turn := (a - pcbnew.orientation it)%R in
   with_fields (rotate_field (pcbnew.position it) turn <$> pcbnew.fields it)
     (with_orientation a it)) = it.
Proof.
  intros ->. cbv zeta.
  replace (pcbnew.orientation it - pcbnew.orientation it)%R with 0%R by lra.
  assert (Hf : rotate_field (pcbnew.position it) 0%R <$> pcbnew.fields it
               = pcbnew.fields it).
  { rewrite <- (list_fmap_id (pcbnew.fields it)) at 2. apply list_fmap_ext.
    intros _ [txt q b] _. unfold rotate_field. simpl.
    by rewrite RotatePoint_zero, Rplus_0_r. }
  rewrite Hf. by destruct it.
Qed.

Section FootprintData.
Variable Flip_geometry :
  pcbnew.VECTOR2I -> pcbnew.BOARD_ITEM ->
  pcbnew.VECTOR2I * pcbnew.EDA_ANGLE * list pcbnew.PCB_FIELD.

(** The whole of [copy_footprint_data] in closed form: the two statements
    that end it put the footprint where it already is. *)
Lemma copy_footprint_data_run (s t : pcbnew.item_ref) w src c :
  s ≠ t -> items w !! s = Some src -> is_Some (items w !! t) ->
  copy_footprint_data Flip_geometry s t (retarget t c w)
  = Ok (tt, retarget t
              (overrides_of src
                 (flip_to_match Flip_geometry src
                    (with_fields (mirrored_fields src c) c))) w).
Proof.
  intros Hne Hs Ht. unfold copy_footprint_data. cbv zeta.
  py_step (copy_footprint_fields_run s t w src c Hne Hs Ht).
  set (c1 := with_fields (mirrored_fields src c) c).
  py_step (get_retarget_ne s t c1 w src Hne Hs).
  py_step (get_retarget_eq t c1 w Ht).
  assert (Hflip :
    (if negb (Bool.eqb (pcbnew.flipped src) (pcbnew.flipped c1))
     then Flip Flip_geometry t (pcbnew.position c1) else mret tt) (retarget t c1 w)
    = Ok (tt, retarget t (flip_to_match Flip_geometry src c1) w)).
  { unfold flip_to_match.
    destruct (negb (Bool.eqb (pcbnew.flipped src) (pcbnew.flipped c1))); [|reflexivity].
    unfold Flip. by rewrite (update_retarget t _ c1 w Ht). }
  py_step Hflip.
  set (c2 := flip_to_match Flip_geometry src c1).
  py_step (get_retarget_ne s t c2 w src Hne Hs).
  py_step (update_retarget t
             (with_overrides (pcbnew.local_clearance src)
                (pcbnew.local_solder_mask_margin src)
                (pcbnew.local_solder_paste_margin src)
                (pcbnew.local_solder_paste_margin_ratio src)
                (pcbnew.zone_connection src)) c2 w Ht).
  fold (overrides_of src c2). set (c3 := overrides_of src c2).
  py_step (get_retarget_ne s t c3 w src Hne Hs).
  py_step (translate_retarget s t (pcbnew.position src) c3 w src Hne Hs Ht).
  rewrite translate_at_anchor.
  unfold SetPosition. py_step (update_retarget t
    (fun it => let delta := vec_add (pcbnew.position c3) (vec_neg (pcbnew.position it)) in
       with_fields (move_field delta <$> pcbnew.fields it)
         (with_geometry (pcbnew.position c3) (vec_add (pcbnew.end_point it) delta)
            (pcbnew.orientation it) (pcbnew.flipped it) it)) c3 w Ht).
  rewrite (set_position_same c3).
  py_step (get_retarget_ne s t c3 w src Hne Hs).
  py_step (orient_retarget s t (pcbnew.orientation src) c3 w src Hne Hs Ht).
  unfold SetOrientation. rewrite (update_retarget t _ c3 w Ht).
  rewrite (set_orientation_same c3); [reflexivity|]. unfold orient_at. lra.
Qed.

Lemma flip_to_match_keeps src c :
  let c' := flip_to_match Flip_geometry src c in
  pcbnew.flipped c' = pcbnew.flipped src
  /\ pcbnew.pads c' = pcbnew.pads c
  /\ pcbnew.parent_group c' = pcbnew.parent_group c
  /\ pcbnew.parent_board c' = pcbnew.parent_board c
  /\ pcbnew.item_type c' = pcbnew.item_type c
  /\ pcbnew.net c' = pcbnew.net c.
Proof.
  unfold flip_to_match.
  destruct (pcbnew.flipped src) eqn:Hs, (pcbnew.flipped c) eqn:Hc; simpl;
    try destruct (Flip_geometry _ c) as [[p a] fs]; simpl; rewrite ?Hc; done.
Qed.

(** X22: [copy_footprint_data] on two distinct footprints never moves the
    target.  Its transform is the footprint pair itself, so the position and
    orientation it sets at the end are the ones the target already has.  The
    target ends on the template's side, with the template's local overrides,
    with its own pads, group and board; when the two footprints were on the
    same side its position and orientation are the ones it had, and
    otherwise position, orientation and fields are the ones the host's flip
    gave.  No other object changes. *)
Theorem copy_footprint_data_leaves_target_in_place
    (s t : pcbnew.item_ref) (w : World) (src tgt : pcbnew.BOARD_ITEM)
    (Hdistinct : s ≠ t)
    (Hs : items w !! s = Some src)
    (Ht : items w !! t = Some tgt) :
  exists w' tgt',
    copy_footprint_data Flip_geometry s t w = Ok (tt, w')
    /\ items w' !! t = Some tgt'
    /\ pcbnew.flipped tgt' = pcbnew.flipped src
    /\ (pcbnew.local_clearance tgt' = pcbnew.local_clearance src
        /\ pcbnew.local_solder_mask_margin tgt' = pcbnew.local_solder_mask_margin src
        /\ pcbnew.local_solder_paste_margin tgt' = pcbnew.local_solder_paste_margin src
        /\ pcbnew.local_solder_paste_margin_ratio tgt'
           = pcbnew.local_solder_paste_margin_ratio src
        /\ pcbnew.zone_connection tgt' = pcbnew.zone_connection src)
    /\ (pcbnew.pads tgt' = pcbnew.pads tgt
        /\ pcbnew.parent_group tgt' = pcbnew.parent_group tgt
        /\ pcbnew.parent_board tgt' = pcbnew.parent_board tgt)
    /\ (pcbnew.flipped src = pcbnew.flipped tgt ->
          pcbnew.position tgt' = pcbnew.position tgt
          /\ pcbnew.orientation tgt' = pcbnew.orientation tgt
          /\ pcbnew.fields tgt' = mirrored_fields src tgt)
    /\ (pcbnew.flipped src <> pcbnew.flipped tgt ->
          (pcbnew.position tgt', pcbnew.orientation tgt', pcbnew.fields tgt')
          = Flip_geometry (pcbnew.position tgt)
              (with_fields (mirrored_fields src tgt) tgt))
    /\ (forall j : pcbnew.item_ref, j ≠ t -> items w' !! j = items w !! j)
    /\ groups w' = groups w /\ boards w' = boards w /\ hierpcb_log w' = hierpcb_log w.
Proof.
  assert (Hsome : is_Some (items w !! t)) by eauto.
  pose proof (copy_footprint_data_run s t w src tgt Hdistinct Hs Hsome) as Hrun.
  rewrite (retarget_same t tgt w Ht) in Hrun.
  set (c1 := with_fields (mirrored_fields src tgt) tgt) in *.
  destruct (flip_to_match_keeps src c1) as (Hside & Hpads & Hgroup & Hboard & _).
  eexists _, _. split; [exact Hrun|].
  split; [by apply lookup_retarget_eq|].
  split; [exact Hside|]. split; [done|].
  split; [split; [exact Hpads|split; [exact Hgroup|exact Hboard]]|].
  split; [|split; [|split; [|done]]].
  - intros Hsame. unfold overrides_of, flip_to_match.
    change (pcbnew.flipped c1) with (pcbnew.flipped tgt).
    rewrite Hsame, Bool.eqb_reflx. done.
  - intros Hdiff. unfold overrides_of, flip_to_match.
    change (pcbnew.flipped c1) with (pcbnew.flipped tgt).
    change (pcbnew.position c1) with (pcbnew.position tgt).
    destruct (Bool.eqb (pcbnew.flipped src) (pcbnew.flipped tgt)) eqn:E.
    + by apply Bool.eqb_prop in E.
    + simpl. by destruct (Flip_geometry (pcbnew.position tgt) c1) as [[p a] fs].
  - intros j Hj. by apply lookup_retarget_ne.
Qed.

End FootprintData.

Lemma copy_footprint_data_leaves_target_in_place_witness :
  exists w' tgt',
    copy_footprint_data Flip_in_place 0%nat 1%nat paired_footprints = Ok (tt, w')
    /\ items w' !! 1%nat = Some tgt'
    /\ pcbnew.position tgt' = pcbnew.Vec 100 50.
Proof.
  destruct (copy_footprint_data_leaves_target_in_place Flip_in_place 0%nat 1%nat
              paired_footprints _ _ ltac:(done) eq_refl eq_refl)
    as (w' & tgt' & Hrun & Ht & _ & _ & _ & Hsame & _).
  exists w', tgt'. split; [exact Hrun|]. split; [exact Ht|].
  by destruct (Hsame eq_refl) as [-> _].
Defined.
